(** * Ouroboros: workflow engine, tool dispatcher, sandbox filter and
      checkpoint store

    A shallow embedding of the Python sources
    [src/state.py], [src/graph.py], [src/tools.py], [src/file_tools.py],
    [src/sandbox.py] and [src/checkpointer.py], and the properties of the
    specification that they decide.

    Conventions.
    - A Python [str] is a [string]; its characters are read as code points
      below 256.  Text concatenation is [+:+].
    - A Python [dict] with string keys is a [gmap string _]; a [list] is a
      [list].
    - A Python [int] is a [Z].
    - A function that may raise returns a [result]: [Ok v] for a normal
      return, [Raise msg] for an exception whose [str(e)] is [msg].
    - A call that leaves the repository (language model, vector store,
      container runtime, database server, clock) is a function argument or
      a field of a record of collaborators. *)

From stdpp Require Import gmap strings list fin_maps relations sorting pretty.

#[local] Open Scope Z_scope.

(** ** Python string operations *)

Module PyStr.

Definition nl : string := String (Ascii.ascii_of_nat 10) "".

(** [s.startswith(p)] *)
Fixpoint startswith (s p : string) {struct p} : bool :=
  match p with
  | "" => true
  | String a p' =>
      match s with
      | "" => false
      | String b s' => if Ascii.eqb a b then startswith s' p' else false
      end
  end.

(** [sub in s] *)
Fixpoint contains (sub s : string) : bool :=
  startswith s sub ||
  match s with
  | "" => false
  | String _ s' => contains sub s'
  end.

(** [s[n:]] for a non-negative [n] *)
Fixpoint drop (n : nat) (s : string) : string :=
  match n, s with
  | O, _ => s
  | S _, "" => ""
  | S n', String _ s' => drop n' s'
  end.

(** [s[:n]] for a non-negative [n] *)
Fixpoint take (n : nat) (s : string) : string :=
  match n, s with
  | O, _ => ""
  | S _, "" => ""
  | S n', String c s' => String c (take n' s')
  end.

(** [s.replace(old, new, 1)]: the leftmost occurrence only; a text without
    occurrence comes back as it is. *)
Fixpoint replace_first (old new s : string) : string :=
  if startswith s old then new +:+ drop (String.length old) s
  else match s with
       | "" => ""
       | String c s' => String c (replace_first old new s')
       end.

(** [str.isspace] on one character: tab, line feed, vertical tab, form
    feed, carriage return, the four separators 28 to 31, space, and the
    two Latin-1 blanks 133 and 160. *)
Definition is_space (c : Ascii.ascii) : bool :=
  let n := Ascii.nat_of_ascii c in
  ((9 <=? n)%nat && (n <=? 13)%nat) || ((28 <=? n)%nat && (n <=? 32)%nat)
  || (n =? 133)%nat || (n =? 160)%nat.

Fixpoint lstrip (s : string) : string :=
  match s with
  | "" => ""
  | String c s' => if is_space c then lstrip s' else s
  end.

Fixpoint rstrip (s : string) : string :=
  match s with
  | "" => ""
  | String c s' =>
      match rstrip s' with
      | "" => if is_space c then "" else String c ""
      | r => String c r
      end
  end.

(** [s.strip()] *)
Definition strip (s : string) : string := rstrip (lstrip s).

(** [sep.join(l)] *)
Fixpoint join (sep : string) (l : list string) : string :=
  match l with
  | [] => ""
  | [x] => x
  | x :: l' => x +:+ sep +:+ join sep l'
  end.

(** [any(s.startswith(p) for p in ps)], also [s.startswith(tuple)] *)
Definition startswith_any (s : string) (ps : list string) : bool :=
  existsb (startswith s) ps.

(** [any(m in s for m in ms)] *)
Definition contains_any (ms : list string) (s : string) : bool :=
  existsb (fun m => contains m s) ms.

(** [sub] occurs in [s]. *)
Definition occurs_in (sub s : string) : Prop :=
  ∃ pre post, s = pre +:+ sub +:+ post.

(** [pre] is where the leftmost occurrence of [sub] in [s] starts. *)
Definition first_occurrence (sub s pre post : string) : Prop :=
  s = pre +:+ sub +:+ post ∧
  ∀ pre' post', s = pre' +:+ sub +:+ post' →
                (String.length pre ≤ String.length pre')%nat.

End PyStr.

(** ** Exceptions *)

(** The outcome of a Python call: a value, or an exception carrying the
    text of [str(e)]. *)
Inductive result (A : Type) : Type :=
| Ok (v : A)
| Raise (msg : string).
Arguments Ok {A} v.
Arguments Raise {A} msg.

(** [try: body / except Exception as e: handler(e)] *)
Definition try_except {A} (body : result A) (handler : string → result A) : result A :=
  match body with
  | Ok v => Ok v
  | Raise e => handler e
  end.

(** ** JSON values and tool argument payloads *)

(** What [json.loads] yields: null, booleans, integers, strings, arrays and
    objects.  Numbers with a fraction are left out. *)
#[warnings="-register-all"]
Inductive JValue : Type :=
| JNull
| JBool (b : bool)
| JInt (n : Z)
| JStr (s : string)
| JList (l : list JValue)
| JDict (d : gmap string JValue).

(** What the reasoning step hands over as [tool_args]: the raw JSON text, or
    an already parsed dictionary. *)
Inductive Payload : Type :=
| PText (s : string)
| PDict (d : gmap string JValue).

(** Python truthiness, as used by [if not query]. *)
Definition truthy (v : JValue) : bool :=
  match v with
  | JNull => false
  | JBool b => b
  | JInt n => negb (n =? 0)
  | JStr s => negb (String.eqb s "")
  | JList l => negb (length l =? 0)%nat
  | JDict d => negb (size d =? 0)%nat
  end.

(** [type(v).__name__] *)
Definition type_name (v : JValue) : string :=
  match v with
  | JNull => "NoneType"
  | JBool _ => "bool"
  | JInt _ => "int"
  | JStr _ => "str"
  | JList _ => "list"
  | JDict _ => "dict"
  end.

(** ** The run state ([src/state.py]) *)

(** One line of the sandbox transcript.  [timestamp] is the clock reading
    [time.time()]; nothing below inspects it. *)
Record LogEntry : Type := {
  timestamp : Z;
  ltype : string;
  content : string;
}.

Record AgentState : Type := {
  task : string;
  history : list (gmap string string);
  memory : list string;
  thinking : string;
  needs_code : bool;
  tool_choice : string;
  tool_args : Payload;
  response : string;
  rag_context : string;
  tool_results : string;
  tool_usage_count : Z;
  files : gmap string string;
  commands : list string;
  execution_logs : list LogEntry;
  execution_result : string;
  execution_error : string;
  citations : list string;
  retrieved_files : gmap string string;
  reflection : string;
  reflections : list string;
  iteration : Z;
  is_solved : bool;
}.

(** The dictionary a node returns: the keys it sets, each with its value.
    No node writes [task], [history] or [tool_results]. *)
Record Update : Type := {
  u_memory : option (list string);
  u_thinking : option string;
  u_needs_code : option bool;
  u_tool_choice : option string;
  u_tool_args : option Payload;
  u_response : option string;
  u_rag_context : option string;
  u_tool_usage_count : option Z;
  u_files : option (gmap string string);
  u_commands : option (list string);
  u_execution_logs : option (list LogEntry);
  u_execution_result : option string;
  u_execution_error : option string;
  u_citations : option (list string);
  u_retrieved_files : option (gmap string string);
  u_reflection : option string;
  u_reflections : option (list string);
  u_iteration : option Z;
  u_is_solved : option bool;
}.

(** The empty dictionary [{}]. *)
Definition no_update : Update :=
  {| u_memory := None; u_thinking := None; u_needs_code := None;
     u_tool_choice := None; u_tool_args := None; u_response := None;
     u_rag_context := None; u_tool_usage_count := None; u_files := None;
     u_commands := None; u_execution_logs := None;
     u_execution_result := None; u_execution_error := None;
     u_citations := None; u_retrieved_files := None; u_reflection := None;
     u_reflections := None; u_iteration := None; u_is_solved := None |}.

(** The reducers declared in [AgentState]:
    [files : Annotated[Dict, operator.ior]],
    [execution_logs : Annotated[List, operator.add]],
    [reflections : Annotated[List, operator.add]]. *)

(** [operator.ior(old, new)], that is [old |= new]: the entries of [new]
    win. *)
Definition ior (old new : gmap string string) : gmap string string := new ∪ old.

(** [operator.add(old, new)] on lists. *)
Definition add {A} (old new : list A) : list A := old ++ new.

(** A key without reducer takes the written value; a key the update leaves
    out keeps its value. *)
Definition last_value {A} (old : A) (new : option A) : A := default old new.

Definition reduce {A} (op : A → A → A) (old : A) (new : option A) : A :=
  match new with
  | Some v => op old v
  | None => old
  end.

(** Merging a node's update into the run state, key by key. *)
Definition apply_update (s : AgentState) (u : Update) : AgentState :=
  {| task := task s;
     history := history s;
     memory := last_value (memory s) (u_memory u);
     thinking := last_value (thinking s) (u_thinking u);
     needs_code := last_value (needs_code s) (u_needs_code u);
     tool_choice := last_value (tool_choice s) (u_tool_choice u);
     tool_args := last_value (tool_args s) (u_tool_args u);
     response := last_value (response s) (u_response u);
     rag_context := last_value (rag_context s) (u_rag_context u);
     tool_results := tool_results s;
     tool_usage_count := last_value (tool_usage_count s) (u_tool_usage_count u);
     files := reduce ior (files s) (u_files u);
     commands := last_value (commands s) (u_commands u);
     execution_logs := reduce add (execution_logs s) (u_execution_logs u);
     execution_result := last_value (execution_result s) (u_execution_result u);
     execution_error := last_value (execution_error s) (u_execution_error u);
     citations := last_value (citations s) (u_citations u);
     retrieved_files := last_value (retrieved_files s) (u_retrieved_files u);
     reflection := last_value (reflection s) (u_reflection u);
     reflections := reduce add (reflections s) (u_reflections u);
     iteration := last_value (iteration s) (u_iteration u);
     is_solved := last_value (is_solved s) (u_is_solved u) |}.

(** The partial update [{"files": m}]. *)
Definition files_update (m : gmap string string) : Update :=
  {| u_memory := None; u_thinking := None; u_needs_code := None;
     u_tool_choice := None; u_tool_args := None; u_response := None;
     u_rag_context := None; u_tool_usage_count := None; u_files := Some m;
     u_commands := None; u_execution_logs := None;
     u_execution_result := None; u_execution_error := None;
     u_citations := None; u_retrieved_files := None; u_reflection := None;
     u_reflections := None; u_iteration := None; u_is_solved := None |}.

(** ** The workflow ([src/graph.py]) *)

(** What [Thinker.forward] returns. *)
Record ThinkResult : Type := {
  t_thinking : string;
  t_needs_code : bool;
  t_tool_choice : string;
  t_tool_args : Payload;
  t_citations : list string;
  t_code_plan : string;
  t_response : string;
}.

(** What [CodeGenerator.forward] returns. *)
Record CodeResult : Type := {
  g_files : gmap string string;
  g_commands : list string;
}.

(** What [DockerSandbox.execute_batch] returns. *)
Record SandboxResult : Type := {
  sb_logs : list LogEntry;
  sb_artifacts : gmap string string;
}.

(** The calls of one node that leave [graph.py].  A node is run against one
    such record; another run of the same node may meet another one. *)
Record Collaborators : Type := {
  (** the retrieval block of [think_node]: query expansion, the three
      stores, de-duplication and [format_rag_context]; it yields the
      context text and the memories, or raises *)
  retrieve_context : string → list (gmap string string) → result (string * list string);
  (** [thinker(message, history, memory, rag_context)] *)
  thinker : string → list (gmap string string) → list string → string → ThinkResult;
  (** [execute_tool(tool_name, tool_args)], see [Tools.execute_tool] *)
  run_tool : string → Payload → string;
  (** [code_generator(task, code_plan, reflections, rag_context)] *)
  code_generator : string → string → list string → string → CodeResult;
  (** [time.time()] *)
  now : Z;
  (** [sandbox.execute_batch(files, commands)], when it returns; see
      [SandboxBatch.execute_batch] for the call itself *)
  sandbox_execute_batch : gmap string string → list string → SandboxResult;
  (** [reflector(files, commands, execution_logs).critique] *)
  reflector : gmap string string → list string → list LogEntry → string;
  (** [synthesizer(message, code_plan, execution_output, files, citations).response] *)
  synthesizer : string → string → string → gmap string string → list string → string;
  (** [self_reflector(prompt, response, execution_output).lesson]; [None]
      when the module failed to load *)
  self_reflector : option (string → string → string → result string);
  (** [store_lesson(task, response, lesson)], which may raise *)
  store_lesson : string → string → string → result unit;
}.

Definition tool_limit_message : string :=
  "I cannot process further tool requests due to loop limits.".

(** [tool not in ("none", "")] *)
Definition names_tool (tool : string) : bool :=
  negb (String.eqb tool "none" || String.eqb tool "").

(** The context and the memories [think_node] works with. *)
Definition think_context (c : Collaborators) (state : AgentState) : string * list string :=
  let current_context := rag_context state in
  if String.eqb current_context "" then
    match retrieve_context c (task state) (history state) with
    | Ok r => r
    | Raise _ => ("Error retrieving context.", [])
    end
  else (current_context, memory state).

(** The decision [think_node] obtains from the thinker. *)
Definition think_decision (c : Collaborators) (state : AgentState) : ThinkResult :=
  let '(current_context, all_mems) := think_context c state in
  thinker c (task state) (history state) all_mems current_context.

Definition think_node (c : Collaborators) (state : AgentState) : Update :=
  let '(current_context, all_mems) := think_context c state in
  let result := think_decision c state in
  let needs_code := t_needs_code result in
  let tool_choice := t_tool_choice result in
  (* Tool safety check *)
  let limited := names_tool tool_choice && (3 <=? tool_usage_count state) in
  let tool_choice := if limited then "none" else tool_choice in
  let result_response :=
    if limited && negb needs_code && String.eqb (t_response result) ""
    then tool_limit_message else t_response result in
  let direct := negb needs_code && String.eqb tool_choice "none" in
  {| u_thinking := Some (t_thinking result);
     u_needs_code := Some needs_code;
     u_tool_choice := Some tool_choice;
     u_tool_args := Some (t_tool_args result);
     u_citations := Some (t_citations result);
     u_response := Some (if direct then result_response else "");
     u_rag_context := Some current_context;
     u_memory := Some all_mems;
     (* Reset execution state *)
     u_files := Some ∅;
     u_commands := Some [];
     u_execution_logs := Some [];
     u_execution_result := Some "";
     u_retrieved_files := Some ∅;
     u_reflections := Some [];
     u_iteration := Some 0;
     u_is_solved := Some direct;
     u_tool_usage_count := None; u_execution_error := None;
     u_reflection := None |}.

Definition tool_node (c : Collaborators) (state : AgentState) : Update :=
  let tool_name := tool_choice state in
  let result := run_tool c tool_name (tool_args state) in
  let output := "Tool '" +:+ tool_name +:+ "' result:" +:+ PyStr.nl +:+ result in
  let count := tool_usage_count state + 1 in
  {| u_rag_context := Some output;
     u_tool_choice := Some "none";
     u_tool_usage_count := Some count;
     u_memory := None; u_thinking := None; u_needs_code := None;
     u_tool_args := None; u_response := None; u_files := None;
     u_commands := None; u_execution_logs := None;
     u_execution_result := None; u_execution_error := None;
     u_citations := None; u_retrieved_files := None; u_reflection := None;
     u_reflections := None; u_iteration := None; u_is_solved := None |}.

Definition generate_code_node (c : Collaborators) (state : AgentState) : Update :=
  let result :=
    code_generator c (task state) (thinking state) (reflections state)
                   (rag_context state) in
  {| u_files := Some (g_files result);
     u_commands := Some (g_commands result);
     u_iteration := Some (iteration state + 1);
     u_memory := None; u_thinking := None; u_needs_code := None;
     u_tool_choice := None; u_tool_args := None; u_response := None;
     u_rag_context := None; u_tool_usage_count := None;
     u_execution_logs := None; u_execution_result := None;
     u_execution_error := None; u_citations := None;
     u_retrieved_files := None; u_reflection := None;
     u_reflections := None; u_is_solved := None |}.

(** The substrings of a [stderr] line that mark a failed run. *)
Definition failure_markers : list string :=
  ["Traceback"; "Error:"; "IndentationError"; "SyntaxError";
   "NameError"; "TypeError"; "ValueError"; "ImportError";
   "ModuleNotFoundError"; "AttributeError"; "KeyError";
   "ZeroDivisionError"; "FileNotFoundError"].

(** The three accumulators of the scan in [execute_node]. *)
Record Scan : Type := {
  has_errors : bool;
  stdout_accum : list string;
  stderr_accum : list string;
}.

(** One turn of [for log in logs]. *)
Definition scan_log (acc : Scan) (log : LogEntry) : Scan :=
  if String.eqb (ltype log) "error" then
    {| has_errors := true;
       stdout_accum := stdout_accum acc;
       stderr_accum := stderr_accum acc ++ [content log] |}
  else if String.eqb (ltype log) "stdout" then
    {| has_errors := has_errors acc;
       stdout_accum := stdout_accum acc ++ [content log];
       stderr_accum := stderr_accum acc |}
  else if String.eqb (ltype log) "stderr" then
    {| has_errors :=
         if PyStr.contains_any failure_markers (content log) then true
         else has_errors acc;
       stdout_accum := stdout_accum acc;
       stderr_accum := stderr_accum acc ++ [content log] |}
  else acc.

Definition scan_logs (logs : list LogEntry) : Scan :=
  fold_left scan_log logs
            {| has_errors := false; stdout_accum := []; stderr_accum := [] |}.

(** The calls [execute_node] makes to the container runtime and to the
    metrics table, in order.  The duration handed to the metrics table, a
    difference of two clock readings, is left out. *)
Inductive Call : Type :=
| SandboxRun (files : gmap string string) (commands : list string)
| LogExecution (task : string) (success : bool) (error_type error_message : string)
               (iteration_count : Z) (thread_id : string).

Definition execute_node (c : Collaborators) (thread_id : string)
    (state : AgentState) : list Call * Update :=
  let files := files state in
  let commands := commands state in
  match commands with
  | [] =>
      ([],
       {| u_execution_logs :=
            Some [{| timestamp := now c; ltype := "error";
                     content := "No commands generated." |}];
          u_execution_result := Some "";
          u_execution_error := Some "No commands generated.";
          u_is_solved := Some false;
          u_memory := None; u_thinking := None; u_needs_code := None;
          u_tool_choice := None; u_tool_args := None; u_response := None;
          u_rag_context := None; u_tool_usage_count := None;
          u_files := None; u_commands := None; u_citations := None;
          u_retrieved_files := None; u_reflection := None;
          u_reflections := None; u_iteration := None |})
  | _ =>
      let result := sandbox_execute_batch c files commands in
      let logs := sb_logs result in
      let artifacts := sb_artifacts result in
      let scan := scan_logs logs in
      let is_solved := negb (has_errors scan) in
      let error_msg := PyStr.take 500 (PyStr.join PyStr.nl (stderr_accum scan)) in
      ([SandboxRun files commands;
        LogExecution (PyStr.take 500 (task state)) is_solved
                     (if has_errors scan then "runtime_error" else "")
                     error_msg (iteration state) thread_id],
       {| u_execution_logs := Some logs;
          u_execution_result := Some (PyStr.join PyStr.nl (stdout_accum scan));
          u_execution_error := Some (PyStr.join PyStr.nl (stderr_accum scan));
          u_is_solved := Some is_solved;
          u_retrieved_files := Some artifacts;
          u_memory := None; u_thinking := None; u_needs_code := None;
          u_tool_choice := None; u_tool_args := None; u_response := None;
          u_rag_context := None; u_tool_usage_count := None;
          u_files := None; u_commands := None; u_citations := None;
          u_reflection := None; u_reflections := None;
          u_iteration := None |})
  end.

Definition reflect_node (c : Collaborators) (state : AgentState) : Update :=
  let critique := reflector c (files state) (commands state) (execution_logs state) in
  {| u_reflections := Some [critique];
     u_memory := None; u_thinking := None; u_needs_code := None;
     u_tool_choice := None; u_tool_args := None; u_response := None;
     u_rag_context := None; u_tool_usage_count := None; u_files := None;
     u_commands := None; u_execution_logs := None;
     u_execution_result := None; u_execution_error := None;
     u_citations := None; u_retrieved_files := None; u_reflection := None;
     u_iteration := None; u_is_solved := None |}.

(** The solution record that [synthesize_node] hands to the solution store
    is written behind a [try] and does not reach the update. *)
Definition synthesize_node (c : Collaborators) (state : AgentState) : Update :=
  let result_response :=
    synthesizer c (task state) (thinking state) (execution_result state)
                (files state) (citations state) in
  {| u_response := Some result_response;
     u_memory := None; u_thinking := None; u_needs_code := None;
     u_tool_choice := None; u_tool_args := None;
     u_rag_context := None; u_tool_usage_count := None; u_files := None;
     u_commands := None; u_execution_logs := None;
     u_execution_result := None; u_execution_error := None;
     u_citations := None; u_retrieved_files := None; u_reflection := None;
     u_reflections := None; u_iteration := None; u_is_solved := None |}.

(** The facts [memory_node] extracts go to the memory store only. *)
Definition memory_node (c : Collaborators) (state : AgentState) : Update :=
  no_update.

Definition lesson_update (lesson : string) : Update :=
  {| u_reflection := Some lesson;
     u_memory := None; u_thinking := None; u_needs_code := None;
     u_tool_choice := None; u_tool_args := None; u_response := None;
     u_rag_context := None; u_tool_usage_count := None; u_files := None;
     u_commands := None; u_execution_logs := None;
     u_execution_result := None; u_execution_error := None;
     u_citations := None; u_retrieved_files := None;
     u_reflections := None; u_iteration := None; u_is_solved := None |}.

Definition lesson_node (c : Collaborators) (state : AgentState) : Update :=
  if String.eqb (task state) "" || String.eqb (response state) "" then no_update
  else
    match self_reflector c with
    | None => no_update
    | Some reflect_on =>
        match reflect_on (task state) (response state) (execution_result state) with
        | Raise _ => no_update
        | Ok lesson =>
            if String.eqb lesson "" then no_update
            else match store_lesson c (task state) (response state) lesson with
                 | Raise _ => no_update
                 | Ok _ => lesson_update lesson
                 end
        end
    end.

(** *** Routing *)

Inductive Node : Type :=
| Think | ToolNode | GenerateCode | Execute | Reflect | Synthesize
| Lesson | Memory | END.

#[global] Instance Node_eq_dec : EqDecision Node.
Proof. solve_decision. Defined.

Definition after_think (state : AgentState) : Node :=
  if needs_code state then GenerateCode
  else
    let tool := tool_choice state in
    if names_tool tool then
      if 3 <=? tool_usage_count state then Lesson else ToolNode
    else Lesson.

Definition after_execute (state : AgentState) : Node :=
  if is_solved state then Synthesize
  else if 3 <=? iteration state then Synthesize
  else Reflect.

(** The edges of the graph: where the run goes from [n], given the state
    that [n] left behind. *)
Definition next_node (n : Node) (state : AgentState) : Node :=
  match n with
  | Think => after_think state
  | ToolNode => Think
  | GenerateCode => Execute
  | Execute => after_execute state
  | Reflect => GenerateCode
  | Synthesize => Lesson
  | Lesson => Memory
  | Memory => END
  | END => END
  end.

(** The update of node [n]; [thread_id] is the run's identity from the
    configuration. *)
Definition run_node (n : Node) (c : Collaborators) (thread_id : string)
    (state : AgentState) : Update :=
  match n with
  | Think => think_node c state
  | ToolNode => tool_node c state
  | GenerateCode => generate_code_node c state
  | Execute => (execute_node c thread_id state).2
  | Reflect => reflect_node c state
  | Synthesize => synthesize_node c state
  | Lesson => lesson_node c state
  | Memory => memory_node c state
  | END => no_update
  end.

(** A configuration: the node about to run and the run state it will see. *)
Definition Config : Type := Node * AgentState.

(** One step of a run: the node runs against some collaborators, its update
    is merged, and the edges choose the next node.  These are the steps of
    nodes that return.  A node that raises (as [execute_node] does when the
    sandbox fails while it stages the files) ends the run there; what such a
    run has done is the beginning of a run of this relation. *)
Inductive step (thread_id : string) : Config → Config → Prop :=
| step_node (n : Node) (s : AgentState) (c : Collaborators) :
    n ≠ END →
    let s' := apply_update s (run_node n c thread_id s) in
    step thread_id (n, s) (next_node n s', s').

(** A run starts at the entry point [Think] on the caller's input. *)
Definition initial (input : AgentState) : Config := (Think, input).

(** The input the chat front end ([app.py]) starts every run with.  The keys
    it leaves out are read by the nodes with these defaults. *)
Definition initial_params (prompt : string) (past : list (gmap string string))
    (facts : list string) : AgentState :=
  {| task := prompt; history := past; memory := facts;
     thinking := ""; needs_code := false; tool_choice := "none";
     tool_args := PText "{}"; response := ""; rag_context := "";
     tool_results := ""; tool_usage_count := 0;
     files := ∅; commands := []; execution_logs := [];
     execution_result := ""; execution_error := "";
     citations := []; retrieved_files := ∅; reflection := "";
     reflections := []; iteration := 0; is_solved := false |}.

(** A transcript line that counts as a failure: an [error] line, or a
    [stderr] line in which some failure marker occurs. *)
Definition failure_entry (log : LogEntry) : Prop :=
  ltype log = "error" ∨
  (ltype log = "stderr" ∧
   ∃ marker pre post, marker ∈ failure_markers ∧
                      content log = pre +:+ marker +:+ post).

(** The range of [iteration] at each node of a run that has left its entry
    point. *)
Definition iteration_inv (cfg : Config) : Prop :=
  let i := iteration cfg.2 in
  match cfg.1 with
  | Think | ToolNode => i = 0
  | GenerateCode | Reflect => 0 ≤ i ≤ 2
  | Execute => 1 ≤ i ≤ 3
  | Synthesize | Lesson | Memory | END => 0 ≤ i ≤ 3
  end.

(** [failure_entry] as the test the scan performs. *)
Definition failure_entryb (log : LogEntry) : bool :=
  String.eqb (ltype log) "error" ||
  (String.eqb (ltype log) "stderr" &&
   PyStr.contains_any failure_markers (content log)).


(** ** The command filter of the sandbox ([src/sandbox.py]) *)

Module Sandbox.

Definition skip_prefixes : list string :=
  ["apt-get update"; "apt-get install"; "pip install decimal";
   "pip3 install decimal"].

Definition override_flag : string := "--break-system-packages".

(** [any(cmd_stripped.startswith(p) for p in skip_prefixes)] *)
Definition is_skipped (cmd : string) : bool :=
  PyStr.startswith_any (PyStr.strip cmd) skip_prefixes.

(** ['pip install' in cmd_stripped or 'pip3 install' in cmd_stripped] *)
Definition is_pip_install (cmd : string) : bool :=
  PyStr.contains "pip install" (PyStr.strip cmd) ||
  PyStr.contains "pip3 install" (PyStr.strip cmd).

(** ['--break-system-packages' not in cmd_stripped] *)
Definition lacks_flag (cmd : string) : bool :=
  negb (PyStr.contains override_flag (PyStr.strip cmd)).

(** The command that is kept in place of [cmd]. *)
Definition with_flag (cmd : string) : string :=
  if is_pip_install cmd && lacks_flag cmd
  then PyStr.strip cmd +:+ " --break-system-packages"
  else cmd.

(** The transcript and the command list while [execute_batch] filters.
    [time k] is the clock reading taken for line number [k] of the
    transcript. *)
Record Filtering : Type := {
  logs : list LogEntry;
  filtered_commands : list string;
}.

(** The local function [log(type, content)] of [execute_batch]. *)
Definition log (time : nat → Z) (type content : string) (st : Filtering) : Filtering :=
  {| logs := logs st ++ [{| timestamp := time (length (logs st));
                            ltype := type; content := content |}];
     filtered_commands := filtered_commands st |}.

(** One turn of [for cmd in commands]. *)
Definition filter_command (time : nat → Z) (st : Filtering) (cmd : string) : Filtering :=
  let cmd_stripped := PyStr.strip cmd in
  if is_skipped cmd then
    log time "system" ("Skipped (pre-installed): " +:+ cmd_stripped) st
  else
    {| logs := logs st;
       filtered_commands := filtered_commands st ++ [with_flag cmd] |}.

(** [execute_batch] up to the end of the filter loop. *)
Definition execute_batch_filter (time : nat → Z) (image : string)
    (commands : list string) : Filtering :=
  let st := {| logs := []; filtered_commands := [] |} in
  let st := log time "system" ("Initializing sandbox (" +:+ image +:+ ")...") st in
  fold_left (filter_command time) commands st.

End Sandbox.

(** ** The host file system and the file tools ([src/file_tools.py]) *)

Module FileTools.

(** What a path names on the host.  The content of a file is the text that
    [open(path, 'r', encoding='utf-8').read()] yields. *)
Inductive Entry : Type :=
| File (content : string)
| Dir
| Denied.

(** The host file system: path to entry. *)
Abbreviation FS := (gmap string Entry).

(** [os.path.exists(path)] *)
Definition path_exists (fs : FS) (path : string) : bool :=
  match fs !! path with
  | Some _ => true
  | None => false
  end.

(** [os.path.isdir(path)] *)
Definition isdir (fs : FS) (path : string) : bool :=
  match fs !! path with
  | Some Dir => true
  | _ => false
  end.

(** [open(path, 'r').read()] *)
Definition open_read (fs : FS) (path : string) : result string :=
  match fs !! path with
  | Some (File content) => Ok content
  | Some Dir => Raise ("[Errno 21] Is a directory: '" +:+ path +:+ "'")
  | Some Denied => Raise ("[Errno 13] Permission denied: '" +:+ path +:+ "'")
  | None => Raise ("[Errno 2] No such file or directory: '" +:+ path +:+ "'")
  end.

(** [open(path, 'w').write(content)]: creates or overwrites the file.  The
    text is kept as it is written, which is how text mode reads it again
    when it holds no carriage return. *)
Definition open_write (fs : FS) (path content : string) : result FS :=
  match fs !! path with
  | Some Dir => Raise ("[Errno 21] Is a directory: '" +:+ path +:+ "'")
  | Some Denied => Raise ("[Errno 13] Permission denied: '" +:+ path +:+ "'")
  | _ => Ok (<[path := File content]> fs)
  end.

(** [f.readlines()]: the lines of a text, each with its line feed. *)
Fixpoint readlines (s : string) : list string :=
  match s with
  | "" => []
  | String c s' =>
      if Ascii.eqb c (Ascii.ascii_of_nat 10) then String c "" :: readlines s'
      else match readlines s' with
           | [] => [String c ""]
           | l :: ls => String c l :: ls
           end
  end.

(** [lines[start:end]] for [0 <= start <= end <= len(lines)] *)
Definition slice {A} (l : list A) (start end_ : Z) : list A :=
  take (Z.to_nat (end_ - start)) (drop (Z.to_nat start) l).

(** [lambda n: n] under [if n], for a parameter declared [int = None] *)
Definition given (n : option Z) : bool :=
  match n with
  | Some n => negb (n =? 0)
  | None => false
  end.

Definition read_file (fs : FS) (path : string) (start_line end_line : option Z) : string :=
  if negb (path_exists fs path) then "Error: File '" +:+ path +:+ "' not found."
  else
    match open_read fs path with
    | Raise e => "Error reading file: " +:+ e
    | Ok text =>
        let lines := readlines text in
        let total_lines := Z.of_nat (length lines) in
        let start := if given start_line then default 0 start_line - 1 else 0 in
        let end_ := if given end_line then default 0 end_line else total_lines in
        (* Clamp ranges *)
        let start := Z.max 0 (Z.min start total_lines) in
        let end_ := Z.max start (Z.min end_ total_lines) in
        let content := PyStr.join "" (slice lines start end_) in
        if given start_line || given end_line then
          "--- " +:+ path +:+ " (" +:+ pretty (start + 1) +:+ "-" +:+ pretty end_
            +:+ "/" +:+ pretty total_lines +:+ ") ---" +:+ PyStr.nl +:+ content
        else content
    end.

(** [makedirs fs path] stands for
    [os.makedirs(os.path.dirname(os.path.abspath(path)), exist_ok=True)]. *)
Definition write_file (makedirs : FS → string → result FS) (fs : FS)
    (path content : string) : FS * string :=
  match makedirs fs path with
  | Raise e => (fs, "Error writing file: " +:+ e)
  | Ok fs1 =>
      match open_write fs1 path content with
      | Raise e => (fs1, "Error writing file: " +:+ e)
      | Ok fs2 =>
          (fs2, "Successfully wrote " +:+ pretty (String.length content)
                  +:+ " chars to " +:+ path)
      end
  end.

Definition edit_file (fs : FS) (path old_text new_text : string) : FS * string :=
  if negb (path_exists fs path) then (fs, "Error: File '" +:+ path +:+ "' not found.")
  else
    match open_read fs path with
    | Raise e => (fs, "Error editing file: " +:+ e)
    | Ok content =>
        if negb (PyStr.contains old_text content) then
          (* Try stripping whitespace if exact match fails *)
          if negb (PyStr.contains (PyStr.strip old_text) content) then
            (fs, "Error: 'old_text' not found in " +:+ path
                   +:+ ". Please check indentation/whitespace exact match.")
          else
            (fs, "Error: Exact 'old_text' match failed. Be precise with whitespace.")
        else
          let new_content := PyStr.replace_first old_text new_text content in
          match open_write fs path new_content with
          | Raise e => (fs, "Error editing file: " +:+ e)
          | Ok fs' => (fs', "Successfully edited " +:+ path)
          end
    end.

(** [walk fs path max_depth] stands for the [os.walk] loop: the relative
    paths of the visible files down to [max_depth], sorted, or the exception
    that ended the loop. *)
Definition list_files (walk : FS → string → Z → result (list string)) (fs : FS)
    (path : string) (max_depth : Z) : string :=
  if negb (isdir fs path) then "Error: '" +:+ path +:+ "' is not a directory."
  else
    match walk fs path max_depth with
    | Raise e => "Error listing files: " +:+ e
    | Ok results => PyStr.join PyStr.nl results
    end.

(** What [subprocess.run] reports: exit code, standard output, standard
    error. *)
Record Completed : Type := {
  returncode : Z;
  stdout : string;
  stderr : string;
}.

(** [subprocess_run fs command cwd] stands for
    [subprocess.run(command, shell=True, cwd=cwd, capture_output=True,
    text=True, timeout=30)]: the command may change the files, and the call
    may raise (time-out, missing directory). *)
Definition run_command
    (subprocess_run : FS → string → option string → FS * result Completed)
    (fs : FS) (command : string) (cwd : option string) : FS * string :=
  match subprocess_run fs command cwd with
  | (fs', Raise e) => (fs', "Error running command: " +:+ e)
  | (fs', Ok result) =>
      let output := "Exit Code: " +:+ pretty (returncode result) +:+ PyStr.nl in
      let output := output +:+ "STDOUT:" +:+ PyStr.nl +:+ stdout result +:+ PyStr.nl in
      let output :=
        if negb (String.eqb (stderr result) "")
        then output +:+ "STDERR:" +:+ PyStr.nl +:+ stderr result +:+ PyStr.nl
        else output in
      (fs', output)
  end.

End FileTools.

(** ** The tool dispatcher ([src/tools.py]) *)

Module Tools.
Import FileTools.

(** A row of [retrieve_similar]. *)
Record Solution : Type := {
  sol_task : string;
  sol_code : string;
  sol_result : string;
}.

(** A row of [retrieve_documents]. *)
Record Document : Type := {
  doc_filename : string;
  doc_content : string;
}.

(** What the dispatcher and its handlers call outside the repository's own
    logic.  [db_query], [retrieve_similar] and [retrieve_documents] catch
    their own exceptions and always return rows. *)
Record Host : Type := {
  (** [json.loads(text)] *)
  json_loads : string → result JValue;
  (** [json.dumps(rows, indent=2, default=str)] *)
  json_dumps : list (gmap string JValue) → result string;
  (** [str(v)], as an f-string prints a value *)
  py_str : JValue → string;
  (** [db_query(query)]: the rows, or one row with the key ["error"] *)
  db_query : JValue → list (gmap string JValue);
  (** [retrieve_similar(query, top_k=3)] *)
  retrieve_similar : JValue → list Solution;
  (** [retrieve_documents(query)] *)
  retrieve_documents : JValue → list Document;
  (** see [FileTools.write_file] *)
  makedirs : FS → string → result FS;
  (** see [FileTools.list_files] *)
  walk : FS → string → Z → result (list string);
  (** see [FileTools.run_command] *)
  subprocess_run : FS → string → option string → FS * result Completed;
  (** The reply of a file or command handler that is called with an
      argument outside its declared parameter types (a number as path, a
      list as line number).  Every handler runs inside its own
      [try ... except Exception] and returns text on both paths. *)
  ill_typed : string → gmap string JValue → FS → FS * string;
}.

(** [args.get(key)]: raises when [args] is not a dictionary. *)
Definition get (args : JValue) (key : string) : result JValue :=
  match args with
  | JDict d => Ok (default JNull (d !! key))
  | v => Raise ("'" +:+ type_name v +:+ "' object has no attribute 'get'")
  end.

(** [args.get(key, fallback)] *)
Definition get_or (args : JValue) (key : string) (fallback : JValue) : result JValue :=
  match args with
  | JDict d => Ok (default fallback (d !! key))
  | v => Raise ("'" +:+ type_name v +:+ "' object has no attribute 'get'")
  end.

(** [v is None] *)
Definition is_none (v : JValue) : bool :=
  match v with
  | JNull => true
  | _ => false
  end.

(** A value for a parameter declared [int = None]: null or an integer.  A
    boolean, which Python computes with as a number and prints as a boolean,
    is left to [ill_typed] with the values of the other types. *)
Definition as_line (v : JValue) : option (option Z) :=
  match v with
  | JNull => Some None
  | JInt n => Some (Some n)
  | _ => None
  end.

(** A value for a parameter declared [str = None]. *)
Definition as_cwd (v : JValue) : option (option string) :=
  match v with
  | JNull => Some None
  | JStr s => Some (Some s)
  | _ => None
  end.

(** [text[:5000] + "\n... (truncated)" if len(text) > 5000 else text] *)
Definition truncated (text : string) : string :=
  if (5000 <? String.length text)%nat
  then PyStr.take 5000 text +:+ PyStr.nl +:+ "... (truncated)"
  else text.

Definition format_solution (r : Solution) : string :=
  "Task: " +:+ sol_task r +:+ PyStr.nl +:+
  "Code Snippet: " +:+ PyStr.take 200 (sol_code r) +:+ "..." +:+ PyStr.nl +:+
  "Result: " +:+ PyStr.take 200 (sol_result r) +:+ "...".

Definition format_document (d : Document) : string :=
  "--- Source: " +:+ doc_filename d +:+ " ---" +:+ PyStr.nl +:+ doc_content d.

(** The dictionary of a parsed argument object, for [ill_typed]. *)
Definition fields (args : JValue) : gmap string JValue :=
  match args with
  | JDict d => d
  | _ => ∅
  end.

(** Reading one argument and going on with it; the exception of [get] ends
    the body. *)
Definition with_arg (args : JValue) (key : string) (fs : FS)
    (k : JValue → FS * result string) : FS * result string :=
  match get args key with
  | Raise e => (fs, Raise e)
  | Ok v => k v
  end.

(** A handler's reply: the handler has returned, with this text. *)
Definition reply (r : FS * string) : FS * result string := (r.1, Ok r.2).

(** The branches of [execute_tool], inside its [try]. *)
Definition dispatch (h : Host) (tool_name : string) (args : JValue) (fs : FS)
    : FS * result string :=
  (* === DB TOOLS === *)
  if String.eqb tool_name "sql_db" then
    with_arg args "query" fs (λ query,
      if negb (truthy query) then (fs, Ok "ERROR: Missing 'query'")
      else
        let rows := db_query h query in
        match rows with
        | [] => (fs, Ok "No results found.")
        | row :: _ =>
            match row !! "error" with
            | Some err => (fs, Ok ("SQL ERROR: " +:+ py_str h err))
            | None =>
                match json_dumps h rows with
                | Raise e => (fs, Raise e)
                | Ok result_str => (fs, Ok (truncated result_str))
                end
            end
        end)
  else if String.eqb tool_name "rag_search" then
    with_arg args "query" fs (λ query,
      if negb (truthy query) then (fs, Ok "ERROR: Missing 'query'")
      else
        match retrieve_similar h query with
        | [] => (fs, Ok "No similar solutions found.")
        | results =>
            (fs, Ok (PyStr.join (PyStr.nl +:+ PyStr.nl) (map format_solution results)))
        end)
  else if String.eqb tool_name "search_documents" then
    with_arg args "query" fs (λ query,
      if negb (truthy query) then (fs, Ok "ERROR: Missing 'query'")
      else
        match retrieve_documents h query with
        | [] => (fs, Ok "No relevant documents found.")
        | results =>
            (fs, Ok (PyStr.join (PyStr.nl +:+ PyStr.nl) (map format_document results)))
        end)
  (* === FILE TOOLS === *)
  else if String.eqb tool_name "read_file" then
    with_arg args "path" fs (λ path,
      if negb (truthy path) then (fs, Ok "ERROR: Missing 'path'")
      else
        with_arg args "start_line" fs (λ start_line,
        with_arg args "end_line" fs (λ end_line,
          match path, as_line start_line, as_line end_line with
          | JStr p, Some s, Some e => (fs, Ok (read_file fs p s e))
          | _, _, _ => reply (ill_typed h "read_file" (fields args) fs)
          end)))
  else if String.eqb tool_name "write_file" then
    with_arg args "path" fs (λ path,
    with_arg args "content" fs (λ content,
      if negb (truthy path) || is_none content
      then (fs, Ok "ERROR: Missing 'path' or 'content'")
      else
        match path, content with
        | JStr p, JStr c => reply (write_file (makedirs h) fs p c)
        | _, _ => reply (ill_typed h "write_file" (fields args) fs)
        end))
  else if String.eqb tool_name "edit_file" then
    with_arg args "path" fs (λ path,
    with_arg args "old_text" fs (λ old_text,
    with_arg args "new_text" fs (λ new_text,
      if negb (truthy path) || is_none old_text || is_none new_text
      then (fs, Ok "ERROR: Missing 'path', 'old_text', or 'new_text'")
      else
        match path, old_text, new_text with
        | JStr p, JStr o, JStr n => reply (edit_file fs p o n)
        | _, _, _ => reply (ill_typed h "edit_file" (fields args) fs)
        end)))
  else if String.eqb tool_name "list_files" then
    match get_or args "path" (JStr "."), get_or args "max_depth" (JInt 2) with
    | Raise e, _ | _, Raise e => (fs, Raise e)
    | Ok (JStr p), Ok (JInt depth) => (fs, Ok (list_files (walk h) fs p depth))
    | Ok _, Ok _ => reply (ill_typed h "list_files" (fields args) fs)
    end
  else if String.eqb tool_name "run_command" then
    with_arg args "command" fs (λ cmd,
      if negb (truthy cmd) then (fs, Ok "ERROR: Missing 'command'")
      else
        with_arg args "cwd" fs (λ cwd,
          match cmd, as_cwd cwd with
          | JStr command, Some dir => reply (run_command (subprocess_run h) fs command dir)
          | _, _ => reply (ill_typed h "run_command" (fields args) fs)
          end))
  else (fs, Ok ("ERROR: Unknown tool '" +:+ tool_name +:+ "'")).

(** [execute_tool(tool_name, args_json)] on the host [h] with the files
    [fs]: the files afterwards, and the text returned or the exception
    raised. *)
Definition execute_tool (h : Host) (tool_name : string) (args_json : Payload)
    (fs : FS) : FS * result string :=
  match args_json with
  | PDict d =>
      let r := dispatch h tool_name (JDict d) fs in
      (r.1, try_except r.2 (λ e, Ok ("TOOL EXECUTION ERROR: " +:+ e)))
  | PText text =>
      match json_loads h text with
      | Raise _ => (fs, Ok ("ERROR: Invalid JSON arguments: " +:+ text))
      | Ok args =>
          let r := dispatch h tool_name args fs in
          (r.1, try_except r.2 (λ e, Ok ("TOOL EXECUTION ERROR: " +:+ e)))
      end
  end.

(** The arguments as the dispatcher sees them: the dictionary it was given,
    or what the text parses to. *)
Definition parse_args (h : Host) (args_json : Payload) : result JValue :=
  match args_json with
  | PDict d => Ok (JDict d)
  | PText text => json_loads h text
  end.

(** The test by which each branch finds a required argument missing. *)
Definition missing_argument (tool_name : string) (d : gmap string JValue) : bool :=
  let arg key := default JNull (d !! key) in
  if String.eqb tool_name "sql_db" || String.eqb tool_name "rag_search"
     || String.eqb tool_name "search_documents"
  then negb (truthy (arg "query"))
  else if String.eqb tool_name "read_file" then negb (truthy (arg "path"))
  else if String.eqb tool_name "write_file"
  then negb (truthy (arg "path")) || is_none (arg "content")
  else if String.eqb tool_name "edit_file"
  then negb (truthy (arg "path")) || is_none (arg "old_text")
       || is_none (arg "new_text")
  else if String.eqb tool_name "run_command" then negb (truthy (arg "command"))
  else false.

(** The tool names the dispatcher knows. *)
Definition tool_names : list string :=
  ["sql_db"; "rag_search"; "search_documents"; "read_file"; "write_file";
   "edit_file"; "list_files"; "run_command"].

End Tools.

(** ** The checkpoint store ([src/checkpointer.py]) *)

Module Checkpointer.

(** [config["configurable"]]: the thread, and the two optional keys. *)
Record RunnableConfig : Type := {
  cfg_thread_id : string;
  cfg_checkpoint_ns : option string;
  cfg_checkpoint_id : option string;
}.

(** A checkpoint of the workflow library: its version, identifier and time
    stamp, the run state as channel values, and the channel versions. *)
Record Checkpoint : Type := {
  cp_v : Z;
  cp_id : string;
  cp_ts : string;
  channel_values : AgentState;
  channel_versions : gmap string Z;
  versions_seen : gmap string (gmap string Z);
}.

(** The serialization library: [dumps] and [loads] of [langchain_core.load]
    on checkpoints and on written values, [json.dumps] and [json.loads] on
    metadata. *)
Record Serializer : Type := {
  dumps : Checkpoint → string;
  loads : string → result Checkpoint;
  dumps_value : JValue → string;
  loads_value : string → result JValue;
  json_dumps : gmap string JValue → string;
  json_loads : string → result (gmap string JValue);
}.

(** A row of the table [checkpoints]. *)
Record CheckpointRow : Type := {
  row_thread_id : string;
  row_checkpoint_ns : string;
  row_checkpoint_id : string;
  row_parent_checkpoint_id : string;
  row_checkpoint_data : string;
  row_metadata_data : string;
  row_created_at : Z;
}.

(** A row of the table [checkpoint_writes]. *)
Record WriteRow : Type := {
  w_thread_id : string;
  w_checkpoint_ns : string;
  w_checkpoint_id : string;
  w_task_id : string;
  w_idx : Z;
  w_channel : string;
  w_type : string;
  w_blob : string;
  w_created_at : Z;
}.

(** The two tables of a reachable server, each in insertion order. *)
Record Database : Type := {
  checkpoints : list CheckpointRow;
  checkpoint_writes : list WriteRow;
}.

Record CheckpointTuple : Type := {
  config : RunnableConfig;
  checkpoint : Checkpoint;
  metadata : gmap string JValue;
  parent_config : option RunnableConfig;
  pending_writes : list (string * string * JValue);
}.

(** [json.dumps(metadata) if metadata else "{}"] *)
Definition metadata_text (ser : Serializer) (meta : gmap string JValue) : string :=
  if (size meta =? 0)%nat then "{}" else json_dumps ser meta.

(** [json.loads(meta_data) if meta_data else {}] *)
Definition load_metadata (ser : Serializer) (meta_data : string)
    : result (gmap string JValue) :=
  if String.eqb meta_data "" then Ok ∅ else json_loads ser meta_data.

(** [put]; [clock] is the server's [now()], the default of [created_at]. *)
Definition put (ser : Serializer) (clock : Z) (db : Database)
    (cfg : RunnableConfig) (cp : Checkpoint) (meta : gmap string JValue)
    : Database * RunnableConfig :=
  let thread_id := cfg_thread_id cfg in
  let checkpoint_ns := default "" (cfg_checkpoint_ns cfg) in
  let checkpoint_id := cp_id cp in
  let parent_id := default "" (cfg_checkpoint_id cfg) in
  let checkpoint_data := dumps ser cp in
  let metadata_data := metadata_text ser meta in
  let row :=
    {| row_thread_id := thread_id; row_checkpoint_ns := checkpoint_ns;
       row_checkpoint_id := checkpoint_id; row_parent_checkpoint_id := parent_id;
       row_checkpoint_data := checkpoint_data;
       row_metadata_data := metadata_data; row_created_at := clock |} in
  ({| checkpoints := checkpoints db ++ [row];
      checkpoint_writes := checkpoint_writes db |},
   {| cfg_thread_id := thread_id; cfg_checkpoint_ns := Some checkpoint_ns;
      cfg_checkpoint_id := Some checkpoint_id |}).

(** The rows [put_writes] builds from [enumerate(writes)], numbered from
    [idx]. *)
Fixpoint write_rows (ser : Serializer) (clock : Z) (thread ns cp task_id : string)
    (idx : Z) (writes : list (string * JValue)) : list WriteRow :=
  match writes with
  | [] => []
  | (channel, value) :: rest =>
      {| w_thread_id := thread; w_checkpoint_ns := ns; w_checkpoint_id := cp;
         w_task_id := task_id; w_idx := idx; w_channel := channel;
         w_type := type_name value; w_blob := dumps_value ser value;
         w_created_at := clock |}
      :: write_rows ser clock thread ns cp task_id (idx + 1) rest
  end.

Definition put_writes (ser : Serializer) (clock : Z) (db : Database)
    (cfg : RunnableConfig) (writes : list (string * JValue)) (task_id : string)
    : Database :=
  let rows :=
    write_rows ser clock (cfg_thread_id cfg) (default "" (cfg_checkpoint_ns cfg))
               (default "" (cfg_checkpoint_id cfg)) task_id 0 writes in
  {| checkpoints := checkpoints db;
     checkpoint_writes := checkpoint_writes db ++ rows |}.

(** The queries of [get_tuple] paste the identifiers between single quotes.
    Such a literal denotes the identifier when it holds neither a quote nor
    a backslash, as the identifiers of the front end and of the workflow
    library (UUIDs) do; for any other identifier the server reads a
    different query, and [get_tuple] is not modelled. *)
Definition backslash : string := String (Ascii.ascii_of_nat 92) "".

Definition plain (s : string) : bool :=
  negb (PyStr.contains "'" s) && negb (PyStr.contains backslash s).

(** [WHERE thread_id = '..' AND checkpoint_ns = '..' AND checkpoint_id = '..'] *)
Definition same_checkpoint (thread ns cp : string) (r : CheckpointRow) : bool :=
  String.eqb (row_thread_id r) thread && String.eqb (row_checkpoint_ns r) ns
  && String.eqb (row_checkpoint_id r) cp.

(** [WHERE thread_id = '..' AND checkpoint_ns = '..'] *)
Definition same_thread (thread ns : string) (r : CheckpointRow) : bool :=
  String.eqb (row_thread_id r) thread && String.eqb (row_checkpoint_ns r) ns.

(** The sorting key [(thread_id, checkpoint_ns, checkpoint_id)] of the table
    [checkpoints]. *)
Definition same_key (a b : CheckpointRow) : bool :=
  same_checkpoint (row_thread_id a) (row_checkpoint_ns a) (row_checkpoint_id a) b.

(** [FROM checkpoints FINAL] on [ReplacingMergeTree(created_at)]: of the rows
    with one sorting key only the one with the greatest [created_at] is
    seen, the last inserted among equals.  [earlier] holds the rows inserted
    before [rows]. *)
Fixpoint final_from (earlier rows : list CheckpointRow) : list CheckpointRow :=
  match rows with
  | [] => []
  | r :: later =>
      if existsb (λ r', same_key r r' && (row_created_at r <? row_created_at r')) earlier
         || existsb (λ r', same_key r r' && (row_created_at r <=? row_created_at r')) later
      then final_from (earlier ++ [r]) later
      else r :: final_from (earlier ++ [r]) later
  end.

Definition final (rows : list CheckpointRow) : list CheckpointRow :=
  final_from [] rows.

(** [ORDER BY created_at DESC LIMIT 1]; among rows of one second the server
    may return any, here the last inserted. *)
Definition latest (rows : list CheckpointRow) : option CheckpointRow :=
  fold_left
    (λ best r,
       match best with
       | None => Some r
       | Some b => if row_created_at b <=? row_created_at r then Some r else Some b
       end)
    rows None.

(** The first query of [get_tuple]: the checkpoint [cp] when one is asked
    for, the most recent one of the thread otherwise. *)
Definition select_checkpoint (rows : list CheckpointRow) (thread ns : string)
    (cp : option string) : option CheckpointRow :=
  match cp with
  | Some id => head (List.filter (same_checkpoint thread ns id) (final rows))
  | None => latest (List.filter (same_thread thread ns) (final rows))
  end.

Definition write_of (thread ns cp : string) (w : WriteRow) : bool :=
  String.eqb (w_thread_id w) thread && String.eqb (w_checkpoint_ns w) ns
  && String.eqb (w_checkpoint_id w) cp.

(** [ORDER BY idx ASC] *)
Definition idx_le (a b : WriteRow) : Prop := w_idx a ≤ w_idx b.

#[global] Instance idx_le_dec (a b : WriteRow) : Decision (idx_le a b).
Proof. unfold idx_le. apply _. Defined.

(** The second query of [get_tuple]: the writes recorded against the
    checkpoint, by ascending [idx]. *)
Definition select_writes (rows : list WriteRow) (thread ns cp : string) : list WriteRow :=
  merge_sort idx_le (List.filter (write_of thread ns cp) rows).

(** [for w_row in writes_result.result_rows: ... loads(blob) ...] *)
Fixpoint load_writes (ser : Serializer) (rows : list WriteRow)
    : result (list (string * string * JValue)) :=
  match rows with
  | [] => Ok []
  | w :: rest =>
      match loads_value ser (w_blob w) with
      | Raise e => Raise e
      | Ok value =>
          match load_writes ser rest with
          | Raise e => Raise e
          | Ok pending => Ok ((w_task_id w, w_channel w, value) :: pending)
          end
      end
  end.

(** What a call of [get_tuple] comes to. *)
Inductive Fetched : Type :=
| Tuple (t : CheckpointTuple)
| Nothing
| Failed (msg : string)
| NotModelled.

Definition get_tuple (ser : Serializer) (db : Database) (cfg : RunnableConfig)
    : Fetched :=
  let thread_id := cfg_thread_id cfg in
  let checkpoint_ns := default "" (cfg_checkpoint_ns cfg) in
  (* if checkpoint_id: *)
  let checkpoint_id :=
    match cfg_checkpoint_id cfg with
    | Some id => if String.eqb id "" then None else Some id
    | None => None
    end in
  if negb (plain thread_id && plain checkpoint_ns
           && from_option plain true checkpoint_id)
  then NotModelled
  else
    match select_checkpoint (checkpoints db) thread_id checkpoint_ns checkpoint_id with
    | None => Nothing
    | Some row =>
        let cp_id := row_checkpoint_id row in
        let parent_id := row_parent_checkpoint_id row in
        let meta_data := row_metadata_data row in
        match loads ser (row_checkpoint_data row) with
        | Raise e => Failed e
        | Ok checkpoint =>
            match load_metadata ser meta_data with
            | Raise e => Failed e
            | Ok metadata =>
                let cfg :=
                  {| cfg_thread_id := thread_id;
                     cfg_checkpoint_ns := Some checkpoint_ns;
                     cfg_checkpoint_id := Some cp_id |} in
                let parent_cfg :=
                  if String.eqb parent_id "" then None
                  else Some {| cfg_thread_id := thread_id;
                               cfg_checkpoint_ns := Some checkpoint_ns;
                               cfg_checkpoint_id := Some parent_id |} in
                (* Get pending writes *)
                if negb (plain cp_id) then NotModelled
                else
                  match load_writes ser
                          (select_writes (checkpoint_writes db) thread_id
                                         checkpoint_ns cp_id) with
                  | Raise e => Failed e
                  | Ok pending_writes =>
                      Tuple {| config := cfg; checkpoint := checkpoint;
                               metadata := metadata; parent_config := parent_cfg;
                               pending_writes := pending_writes |}
                  end
            end
        end
    end.

(** How a pending write of the tuple comes from its row. *)
Definition loaded_from (ser : Serializer) (w : WriteRow)
    (p : string * string * JValue) : Prop :=
  p.1.1 = w_task_id w ∧ p.1.2 = w_channel w ∧ loads_value ser (w_blob w) = Ok p.2.

End Checkpointer.

(** ** Sample runs *)

Module Sample.

(** Collaborators that answer every call with fixed values. *)
Definition collaborators (decision : ThinkResult) (code : CodeResult)
    (transcript : SandboxResult) : Collaborators :=
  {| retrieve_context := fun _ _ => Ok ("No context.", []);
     thinker := fun _ _ _ _ => decision;
     run_tool := fun _ _ => "No results found.";
     code_generator := fun _ _ _ _ => code;
     now := 1700000000;
     sandbox_execute_batch := fun _ _ => transcript;
     reflector := fun _ _ _ => "The script has a typo.";
     synthesizer := fun _ _ _ _ _ => "Done.";
     self_reflector := None;
     store_lesson := fun _ _ _ => Ok tt |}.

(** A decision that asks for the query tool and no code. *)
Definition wants_sql : ThinkResult :=
  {| t_thinking := "look it up"; t_needs_code := false;
     t_tool_choice := "sql_db";
     t_tool_args := PText "{}";
     t_citations := []; t_code_plan := "N/A"; t_response := "" |}.

(** A decision that asks for code. *)
Definition wants_code : ThinkResult :=
  {| t_thinking := "compute it"; t_needs_code := true;
     t_tool_choice := "none";
     t_tool_args := PText "{}";
     t_citations := []; t_code_plan := "print 1+1"; t_response := "" |}.

Definition no_code : CodeResult := {| g_files := ∅; g_commands := [] |}.

Definition one_script : CodeResult :=
  {| g_files := {[ "main.py" := "print(1+1)" ]};
     g_commands := ["python3 main.py"] |}.

Definition failed_transcript : SandboxResult :=
  {| sb_logs :=
       [ {| timestamp := 1700000001; ltype := "command"; content := "$ python3 main.py" |};
         {| timestamp := 1700000002; ltype := "stderr";
            content := "NameError: name 'x' is not defined" |};
         {| timestamp := 1700000003; ltype := "error"; content := "Exit code 1" |} ];
     sb_artifacts := ∅ |}.

Definition clean_transcript : SandboxResult :=
  {| sb_logs :=
       [ {| timestamp := 1700000001; ltype := "command"; content := "$ python3 main.py" |};
         {| timestamp := 1700000002; ltype := "stdout"; content := "2" |};
         {| timestamp := 1700000003; ltype := "success"; content := "OK" |} ];
     sb_artifacts := ∅ |}.

(** The state a thread is in when a second request arrives after a run that
    generated, ran and repaired a script: the checkpoint of the thread still
    holds the script, its transcript and the critique, and the front end's
    input has been merged into it. *)
Definition second_turn : AgentState :=
  {| task := "now print 2+2"; history := []; memory := [];
     thinking := ""; needs_code := false; tool_choice := "none";
     tool_args := PText "{}"; response := ""; rag_context := "";
     tool_results := ""; tool_usage_count := 0;
     files := {[ "main.py" := "print(1+1)" ]};
     commands := [];
     execution_logs := sb_logs failed_transcript ++ sb_logs clean_transcript;
     execution_result := ""; execution_error := "";
     citations := []; retrieved_files := ∅; reflection := "";
     reflections := ["The script has a typo."]; iteration := 0;
     is_solved := false |}.

(** The state at [Think] after three tool calls. *)
Definition after_three_tools : AgentState :=
  {| task := "how many runs failed?"; history := []; memory := [];
     thinking := "look it up"; needs_code := false; tool_choice := "none";
     tool_args := PText "{}"; response := "";
     rag_context := "Tool 'sql_db' result: No results found.";
     tool_results := ""; tool_usage_count := 3;
     files := ∅; commands := []; execution_logs := [];
     execution_result := ""; execution_error := "";
     citations := []; retrieved_files := ∅; reflection := "";
     reflections := []; iteration := 0; is_solved := false |}.

(** The state at [Execute] in cycle number [i] of a run whose generator
    produced the commands [cmds]. *)
Definition at_execute (i : Z) (cmds : list string) : AgentState :=
  {| task := "print 1+1"; history := []; memory := [];
     thinking := "compute it"; needs_code := true; tool_choice := "none";
     tool_args := PText "{}"; response := ""; rag_context := "No context.";
     tool_results := ""; tool_usage_count := 0;
     files := ∅; commands := cmds; execution_logs := [];
     execution_result := ""; execution_error := "";
     citations := []; retrieved_files := ∅; reflection := "";
     reflections := []; iteration := i; is_solved := false |}.

(** A host without database, documents or shell: every query comes back
    empty, every command fails to start. *)
Definition host : Tools.Host :=
  {| Tools.json_loads := fun text =>
       if String.eqb text "{}" then Ok (JDict ∅)
       else if String.eqb text "[]" then Ok (JList [])
       else Raise "Expecting value: line 1 column 1 (char 0)";
     Tools.json_dumps := fun _ => Ok "[]";
     Tools.py_str := fun v => match v with JStr s => s | _ => type_name v end;
     Tools.db_query := fun _ =>
       [ {[ "error" := JStr "OFFLINE - ClickHouse not reachable" ]} ];
     Tools.retrieve_similar := fun _ => [];
     Tools.retrieve_documents := fun _ => [];
     Tools.makedirs := fun fs _ => Ok fs;
     Tools.walk := fun _ _ _ => Ok [];
     Tools.subprocess_run := fun fs _ _ => (fs, Raise "[Errno 2] No such file or directory: 'sh'");
     Tools.ill_typed := fun tool _ fs => (fs, "Error: bad argument for " +:+ tool) |}.

(** A working directory with one script. *)
Definition workdir : gmap string FileTools.Entry :=
  {[ "main.py" := FileTools.File "x = 1" ]}.

(** A checkpoint of the thread ["t1"]. *)
Definition checkpoint1 : Checkpointer.Checkpoint :=
  {| Checkpointer.cp_v := 1;
     Checkpointer.cp_id := "1ef4f797-8335-6428-8001-8a1503f9b875";
     Checkpointer.cp_ts := "2024-07-31T20:14:19.804150+00:00";
     Checkpointer.channel_values := second_turn;
     Checkpointer.channel_versions := {[ "files" := 2 ]};
     Checkpointer.versions_seen := ∅ |}.

(** A serializer that knows [checkpoint1] by its identifier and writes
    string values as they are. *)
Definition serializer : Checkpointer.Serializer :=
  {| Checkpointer.dumps := Checkpointer.cp_id;
     Checkpointer.loads := fun text =>
       if String.eqb text (Checkpointer.cp_id checkpoint1) then Ok checkpoint1
       else Raise "Expecting value";
     Checkpointer.dumps_value := fun v => match v with JStr s => s | _ => "" end;
     Checkpointer.loads_value := fun text => Ok (JStr text);
     Checkpointer.json_dumps := fun _ => "{}";
     Checkpointer.json_loads := fun text =>
       if String.eqb text "{}" then Ok ∅ else Raise "Expecting value" |}.

(** A database that holds an older checkpoint of the thread and two writes
    of one task against [checkpoint1], recorded out of order. *)
Definition database : Checkpointer.Database :=
  {| Checkpointer.checkpoints :=
       [ {| Checkpointer.row_thread_id := "t1";
            Checkpointer.row_checkpoint_ns := "";
            Checkpointer.row_checkpoint_id := "1ef4f797-8335-6428-8000-000000000000";
            Checkpointer.row_parent_checkpoint_id := "";
            Checkpointer.row_checkpoint_data := "old";
            Checkpointer.row_metadata_data := "{}";
            Checkpointer.row_created_at := 1700000000 |} ];
     Checkpointer.checkpoint_writes :=
       [ {| Checkpointer.w_thread_id := "t1"; Checkpointer.w_checkpoint_ns := "";
            Checkpointer.w_checkpoint_id := Checkpointer.cp_id checkpoint1;
            Checkpointer.w_task_id := "task-a"; Checkpointer.w_idx := 1;
            Checkpointer.w_channel := "response"; Checkpointer.w_type := "str";
            Checkpointer.w_blob := "Done."; Checkpointer.w_created_at := 1700000005 |};
         {| Checkpointer.w_thread_id := "t1"; Checkpointer.w_checkpoint_ns := "";
            Checkpointer.w_checkpoint_id := Checkpointer.cp_id checkpoint1;
            Checkpointer.w_task_id := "task-a"; Checkpointer.w_idx := 0;
            Checkpointer.w_channel := "thinking"; Checkpointer.w_type := "str";
            Checkpointer.w_blob := "compute it"; Checkpointer.w_created_at := 1700000005 |} ] |}.

Definition thread1 : Checkpointer.RunnableConfig :=
  {| Checkpointer.cfg_thread_id := "t1"; Checkpointer.cfg_checkpoint_ns := None;
     Checkpointer.cfg_checkpoint_id := None |}.

End Sample.

(** ** Measures and invariants of a run *)

(** An upper bound on the number of nodes that are still to run, the node
    of the configuration included. *)
Definition rank (cfg : Config) : nat :=
  let s := cfg.2 in
  match cfg.1 with
  | END => 0
  | Memory => 1
  | Lesson => 2
  | Synthesize => 3
  | Execute => 4 + 3 * Z.to_nat (3 - iteration s)
  | GenerateCode => 5 + 3 * Z.to_nat (2 - iteration s)
  | Reflect => 6 + 3 * Z.to_nat (2 - iteration s)
  | Think => 12 + 2 * Z.to_nat (3 - tool_usage_count s)
  | ToolNode => 13 + 2 * Z.to_nat (2 - tool_usage_count s)
  end%nat.

(** The range of [tool_usage_count] at each node. *)
Definition tool_count_inv (cfg : Config) : Prop :=
  tool_usage_count cfg.2 ≤ 3 ∧ (cfg.1 = ToolNode → tool_usage_count cfg.2 ≤ 2).

(** How many critiques the run state holds at each node of a run that
    started without any: as many as generation cycles were completed and
    found failing. *)
Definition critiques_inv (cfg : Config) : Prop :=
  let s := cfg.2 in
  let n := Z.of_nat (length (reflections s)) in
  match cfg.1 with
  | Think | ToolNode => n = 0 ∧ iteration s = 0
  | GenerateCode => n = iteration s
  | Execute | Reflect => n = iteration s - 1
  | Synthesize => n = iteration s - 1 ∧ (is_solved s = true ∨ iteration s = 3)
  | Lesson | Memory | END => n = iteration s - 1 ∨ (n = 0 ∧ iteration s = 0)
  end.

(** The lines of a transcript that [execute_node] collects as output. *)
Definition stdout_lines (logs : list LogEntry) : list string :=
  map content (List.filter (λ log, String.eqb (ltype log) "stdout") logs).

(** The lines it collects as errors. *)
Definition stderr_lines (logs : list LogEntry) : list string :=
  map content
      (List.filter (λ log, String.eqb (ltype log) "error"
                           || String.eqb (ltype log) "stderr") logs).

(** ** Listing checkpoints ([ClickHouseCheckpointer.list]) *)

Module CheckpointList.
Import Checkpointer.

(** What [list] yields for one row: a tuple without pending writes. *)
Record Listed : Type := {
  l_config : RunnableConfig;
  l_checkpoint : Checkpoint;
  l_metadata : gmap string JValue;
  l_parent_config : option RunnableConfig;
}.

(** What iterating over [list] comes to: the tuples yielded, in order, and
    the exception that ended the iteration, if one did.  [ListNotModelled]
    stands for a query text that is not the query meant (see [plain]) or
    that the server rejects (a negative limit). *)
Inductive Listing : Type :=
| Yielded (tuples : list Listed) (failure : option string)
| ListNotModelled.

(** [ORDER BY created_at DESC] *)
Definition newer_first (a b : CheckpointRow) : Prop :=
  row_created_at b ≤ row_created_at a.

#[global] Instance newer_first_dec (a b : CheckpointRow) : Decision (newer_first a b).
Proof. unfold newer_first. apply _. Defined.

(** [before["configurable"].get("checkpoint_id", "")], when it is given and
    not empty. *)
Definition before_id (before : option RunnableConfig) : option string :=
  match before with
  | None => None
  | Some cfg =>
      match cfg_checkpoint_id cfg with
      | Some id => if String.eqb id "" then None else Some id
      | None => None
      end
  end.

(** The [WHERE] clause of [list]: the thread, the namespace and, with
    [before], [checkpoint_id < '..'] in the order of the texts. *)
Definition listed_row (thread ns : string) (bound : option string)
    (r : CheckpointRow) : bool :=
  same_thread thread ns r &&
  match bound with
  | Some id => String.ltb (row_checkpoint_id r) id
  | None => true
  end.

(** [f"LIMIT {limit}" if limit else "LIMIT 100"] *)
Definition limit_clause (limit : option Z) : Z :=
  match limit with
  | Some n => if n =? 0 then 100 else n
  | None => 100
  end.

(** The rows of the query of [list]. *)
Definition select_rows (rows : list CheckpointRow) (thread ns : string)
    (bound : option string) (limit : Z) : list CheckpointRow :=
  take (Z.to_nat limit)
       (merge_sort newer_first (List.filter (listed_row thread ns bound) (final rows))).

(** [for row in result.result_rows: ... yield CheckpointTuple(...)] *)
Fixpoint yield_rows (ser : Serializer) (thread ns : string)
    (rows : list CheckpointRow) : list Listed * option string :=
  match rows with
  | [] => ([], None)
  | row :: rest =>
      match loads ser (row_checkpoint_data row) with
      | Raise e => ([], Some e)
      | Ok checkpoint =>
          match load_metadata ser (row_metadata_data row) with
          | Raise e => ([], Some e)
          | Ok metadata =>
              let cfg :=
                {| cfg_thread_id := thread; cfg_checkpoint_ns := Some ns;
                   cfg_checkpoint_id := Some (row_checkpoint_id row) |} in
              let parent_cfg :=
                if String.eqb (row_parent_checkpoint_id row) "" then None
                else Some {| cfg_thread_id := thread; cfg_checkpoint_ns := Some ns;
                             cfg_checkpoint_id := Some (row_parent_checkpoint_id row) |} in
              let tuple :=
                {| l_config := cfg; l_checkpoint := checkpoint;
                   l_metadata := metadata; l_parent_config := parent_cfg |} in
              let r := yield_rows ser thread ns rest in
              (tuple :: r.1, r.2)
          end
      end
  end.

(** [list(config, before=before, limit=limit)], iterated to its end.  The
    argument [filter] of the method is never read. *)
Definition list_checkpoints (ser : Serializer) (db : Database)
    (cfg : option RunnableConfig) (before : option RunnableConfig)
    (limit : option Z) : Listing :=
  match cfg with
  | None => Yielded [] None
  | Some cfg =>
      let thread_id := cfg_thread_id cfg in
      let checkpoint_ns := default "" (cfg_checkpoint_ns cfg) in
      let bound := before_id before in
      let n := limit_clause limit in
      if negb (plain thread_id && plain checkpoint_ns && from_option plain true bound)
         || (n <? 0)
      then ListNotModelled
      else
        let r := yield_rows ser thread_id checkpoint_ns
                   (select_rows (checkpoints db) thread_id checkpoint_ns bound n) in
        Yielded r.1 r.2
  end.

End CheckpointList.

(** ** Helpers of the language-model modules ([src/cognition.py]) *)

Module Cognition.

Definition backslash_char : Ascii.ascii := Ascii.ascii_of_nat 92.
Definition quote_char : Ascii.ascii := Ascii.ascii_of_nat 34.
Definition newline_char : Ascii.ascii := Ascii.ascii_of_nat 10.
Definition tab_char : Ascii.ascii := Ascii.ascii_of_nat 9.

(** The loop of [_fix_json_newlines] from position [i] on, with the flag
    [in_string]; [text] is [text[i:]] and the value is what the loop still
    appends to [result]. *)
Fixpoint fix_json_newlines_from (in_string : bool) (text : string) : string :=
  match text with
  | "" => ""
  | String c rest =>
      if Ascii.eqb c backslash_char && in_string then
        match rest with
        | String next rest' =>
            String c (String next (fix_json_newlines_from in_string rest'))
        | "" => String c ""
        end
      else if Ascii.eqb c quote_char then
        String c (fix_json_newlines_from (negb in_string) rest)
      else if in_string && Ascii.eqb c newline_char then
        String backslash_char (String (Ascii.ascii_of_nat 110) (fix_json_newlines_from in_string rest))
      else if in_string && Ascii.eqb c tab_char then
        String backslash_char (String (Ascii.ascii_of_nat 116) (fix_json_newlines_from in_string rest))
      else String c (fix_json_newlines_from in_string rest)
  end.

Definition _fix_json_newlines (text : string) : string :=
  fix_json_newlines_from false text.

(** A text without line feed and without tab. *)
Fixpoint one_line (text : string) : bool :=
  match text with
  | "" => true
  | String c rest =>
      negb (Ascii.eqb c newline_char) && negb (Ascii.eqb c tab_char) && one_line rest
  end.

(** The phrases by which [Reflector.forward] recognizes the chatter of a
    package installation. *)
Definition install_phrases : list string :=
  ["Reading package"; "Building dependency"; "Get:"; "Fetched";
   "Selecting previously"; "Preparing to unpack"; "Unpacking";
   "Setting up"; "Processing triggers"; "(Reading database"].

(** The test under which a transcript line is skipped. *)
Definition skipped_log (log : LogEntry) : bool :=
  (String.eqb (ltype log) "stdout" || String.eqb (ltype log) "stderr")
  && PyStr.contains_any install_phrases (content log).

(** The loop that builds [important_logs] in [Reflector.forward]. *)
Definition important_logs (execution_logs : list LogEntry) : list LogEntry :=
  fold_left (λ important log, if skipped_log log then important else important ++ [log])
            execution_logs [].

End Cognition.

(** ** The retrieval block of [think_node] ([src/graph.py], [src/rag.py]) *)

Module Retrieval.

(** A row of [retrieve_similar]; [sim_distance] is the distance as the
    format [:.4f] prints it. *)
Record Similar : Type := {
  sim_task : string;
  sim_code : string;
  sim_result : string;
  sim_distance : string;
}.

(** A row of [retrieve_lessons]. *)
Record Lesson : Type := {
  les_prompt : string;
  les_response : string;
  les_lesson : string;
}.

(** The query generator and the stores the block reads. *)
Record Stores : Type := {
  (** [query_generator(task, history)]; [None] when the module failed to load *)
  query_generator : option (string → list (gmap string string) → result (list string));
  (** [retrieve_recent_memories(limit)] *)
  retrieve_recent_memories : Z → result (list string);
  (** [retrieve_similar(query, top_k)] *)
  retrieve_similar : string → Z → result (list Similar);
  (** [retrieve_memories(query, limit)] *)
  retrieve_memories : string → Z → result (list string);
  (** [retrieve_lessons(query, limit)] *)
  retrieve_lessons : string → Z → result (list Lesson);
}.

(** The three loops under [# Deduplicate]: an item is kept when its key has
    not been seen. *)
Definition unique_step {A} (key : A → string)
    (acc : gset string * list A) (item : A) : gset string * list A :=
  let '(seen, unique) := acc in
  if decide (key item ∈ seen) then (seen, unique)
  else ({[ key item ]} ∪ seen, unique ++ [item]).

Definition unique_by {A} (key : A → string) (raw : list A) : list A :=
  (fold_left (unique_step key) raw (∅, [])).2.

(** The same loop as a recursive function of the keys seen so far; see
    [RetrievalFacts.unique_by_from]. *)
Fixpoint unique_from {A} (key : A → string) (seen : gset string) (raw : list A) : list A :=
  match raw with
  | [] => []
  | item :: rest =>
      if decide (key item ∈ seen) then unique_from key seen rest
      else item :: unique_from key ({[ key item ]} ∪ seen) rest
  end.

(** The bullet that starts a line is written as the bytes of its UTF-8
    form. *)
Definition lesson_parts (l : Lesson) : list string :=
  ["• PAST PROMPT: " +:+ les_prompt l;
   "  LESSON LEARNED: " +:+ les_lesson l].

Definition memory_part (m : string) : string := "• " +:+ m.

Definition document_parts (doc : Tools.Document) : list string :=
  [PyStr.nl +:+ "--- From '" +:+ Tools.doc_filename doc +:+ "' ---";
   Tools.doc_content doc].

(** The four lines of the solution numbered [i]. *)
Definition solution_parts (i : nat) (sol : Similar) : list string :=
  [PyStr.nl +:+ "--- Solution " +:+ pretty i +:+ " (distance: " +:+
     sim_distance sol +:+ ") ---";
   "Task: " +:+ sim_task sol;
   "Code:" +:+ PyStr.nl +:+ PyStr.take 2000 (sim_code sol);
   "Result: " +:+ PyStr.take 200 (sim_result sol)].

Definition nonempty {A} (l : list A) : bool :=
  match l with [] => false | _ => true end.

(** [format_rag_context(solutions, memories, documents, lessons)]; an
    argument left at [None] is the empty list. *)
Definition format_rag_context (solutions : list Similar) (memories : list string)
    (documents : list Tools.Document) (lessons : list Lesson) : string :=
  let parts := [] in
  let parts :=
    if nonempty lessons then
      parts ++ ["=== PAST LESSONS (SELF-IMPROVEMENT) ==="]
            ++ concat (map lesson_parts lessons) ++ [""]
    else parts in
  let parts :=
    if nonempty memories then
      parts ++ ["=== RELEVANT MEMORIES ==="] ++ map memory_part memories ++ [""]
    else parts in
  let parts :=
    if nonempty documents then
      parts ++ ["=== RELEVANT DOCUMENT CHUNKS ==="]
            ++ concat (map document_parts documents) ++ [""]
    else parts in
  let parts :=
    if nonempty solutions then
      parts ++ ["=== SIMILAR PAST SOLUTIONS ==="]
            ++ concat (imap (λ i sol, solution_parts (S i) sol) solutions)
    else if negb (nonempty memories) && negb (nonempty documents)
            && negb (nonempty lessons) then
      parts ++ ["No similar past solutions found."]
    else parts in
  PyStr.join PyStr.nl parts.

(** [queries = [task]], replaced by the generated queries when there is a
    generator and it yields some. *)
Definition queries_for (st : Stores) (task : string)
    (history : list (gmap string string)) : result (list string) :=
  match query_generator st with
  | None => Ok [task]
  | Some generate =>
      match generate task history with
      | Ok generated => Ok (if nonempty generated then generated else [task])
      | Raise e => Raise e
      end
  end.

(** The loop [for q in queries], from the raw lists gathered so far. *)
Fixpoint retrieval_loop (st : Stores) (queries : list string)
    (similar_raw : list Similar) (memories_raw : list string)
    (lessons_raw : list Lesson)
    : result (list Similar * list string * list Lesson) :=
  match queries with
  | [] => Ok (similar_raw, memories_raw, lessons_raw)
  | q :: rest =>
      match retrieve_similar st q 2 with
      | Raise e => Raise e
      | Ok similar =>
          match retrieve_memories st q 2 with
          | Raise e => Raise e
          | Ok memories =>
              match retrieve_lessons st q 2 with
              | Raise e => Raise e
              | Ok lessons =>
                  retrieval_loop st rest (similar_raw ++ similar)
                                 (memories_raw ++ memories) (lessons_raw ++ lessons)
              end
          end
      end
  end.

(** The body of the [try] in [think_node]: the context text and the
    memories. *)
Definition retrieve_context (st : Stores) (task : string)
    (history : list (gmap string string)) : result (string * list string) :=
  match queries_for st task history with
  | Raise e => Raise e
  | Ok queries =>
      match retrieve_recent_memories st 5 with
      | Raise e => Raise e
      | Ok recent =>
          match retrieval_loop st queries [] recent [] with
          | Raise e => Raise e
          | Ok (similar_raw, memories_raw, lessons_raw) =>
              let unique_similar := unique_by sim_task similar_raw in
              let unique_memories := unique_by id memories_raw in
              let unique_lessons := unique_by les_lesson lessons_raw in
              let current_context :=
                format_rag_context (take 3 unique_similar) unique_memories []
                                   (take 3 unique_lessons) in
              Ok (current_context, unique_memories)
          end
      end
  end.

End Retrieval.

(** ** A batch in the container ([src/sandbox.py]) *)

Module SandboxBatch.

(** [text.split('\n')] *)
Fixpoint split_lines (text : string) : list string :=
  match text with
  | "" => [""]
  | String c rest =>
      if Ascii.eqb c (Ascii.ascii_of_nat 10) then "" :: split_lines rest
      else match split_lines rest with
           | line :: lines => String c line :: lines
           | [] => [String c ""]
           end
  end.

(** [c.lower()] for a character below 256. *)
Definition lower_char (c : Ascii.ascii) : Ascii.ascii :=
  let n := Ascii.nat_of_ascii c in
  if ((65 <=? n) && (n <=? 90))%nat
     || ((192 <=? n) && (n <=? 222) && negb (n =? 215))%nat
  then Ascii.ascii_of_nat (n + 32) else c.

(** [s.lower()] *)
Fixpoint lower (s : string) : string :=
  match s with
  | "" => ""
  | String c rest => String (lower_char c) (lower rest)
  end.

(** [s.lstrip("./")] *)
Fixpoint lstrip_dot_slash (s : string) : string :=
  match s with
  | "" => ""
  | String c rest =>
      if Ascii.eqb c (Ascii.ascii_of_nat 46) || Ascii.eqb c (Ascii.ascii_of_nat 47)
      then lstrip_dot_slash rest else s
  end.

Definition noise_prefixes : list string :=
  ["Reading package"; "Building dependency"; "Get:"; "Fetched";
   "Selecting previously"; "Preparing to unpack"; "Unpacking";
   "Setting up"; "Processing triggers"; "(Reading database";
   "Adding 'diversion"; "Preconfiguring"; "Need to get";
   "After this operation"; "The following"; "Suggested packages";
   "update-alternatives"; "done."; "Running hooks";
   "Updating certificates"; "0 added"; "146 added";
   "Current default"; "Local time"; "Universal Time"; "Run 'dpkg";
   "Hit:"; "Ign:"].

Definition spam_prefixes : list string :=
  ["  "; "libc"; "lib"; "python3-"; "adduser"; "binutils"].

(** The test of the first comprehension of [_filter_apt_noise]. *)
Definition is_noise (l : string) : bool :=
  PyStr.startswith_any (PyStr.strip l) noise_prefixes.

(** The test of the second one. *)
Definition is_kept (l : string) : bool :=
  negb (String.eqb (PyStr.strip l) "")
  && negb (PyStr.startswith_any (PyStr.strip l) spam_prefixes).

(** The lines [_filter_apt_noise] joins. *)
Definition kept_lines (text : string) : list string :=
  let lines := split_lines text in
  let filtered := List.filter (λ l, negb (is_noise l)) lines in
  List.filter is_kept filtered.

(** [_filter_apt_noise(text)]; the value [None] of Python is [None]. *)
Definition _filter_apt_noise (text : string) : option string :=
  if String.eqb text "" then Some text
  else
    let result := PyStr.strip (PyStr.join PyStr.nl (kept_lines text)) in
    if String.eqb result "" then None else Some result.

(** What [container.exec_run(..., demux=True)] hands back for a command:
    the exit code and the two streams, decoded; a stream without bytes is
    the empty text. *)
Record ExecResult : Type := {
  exit_code : Z;
  stdout_text : string;
  stderr_text : string;
}.

(** The file system and the container runtime, as [execute_batch] meets
    them.  Each call may raise. *)
Record Docker : Type := {
  (** the temporary directory, the files written into it and the archive *)
  stage : list (string * string) → result unit;
  (** [client.containers.run(...)] *)
  containers_run : result unit;
  (** [container.put_archive("/app", ...)] *)
  put_archive : result unit;
  (** the bootstrap [exec_run] *)
  bootstrap : result unit;
  (** [exec_run] for the command at a position of [filtered_commands] *)
  exec_run : nat → string → result ExecResult;
  (** the exit code of the [find] that lists [/app] *)
  list_files : result Z;
  (** [list_res.output.decode().splitlines()] *)
  found_files : result (list string);
  (** [get_archive] and the extraction, for the name found at a position *)
  get_artifact : nat → string → result unit;
}.

(** The transcript and the artifacts so far. *)
Record Run : Type := {
  run_logs : list LogEntry;
  run_artifacts : gmap string string;
}.

(** The local function [log(type, content)]; [time k] is the clock reading
    taken for line number [k] of the transcript. *)
Definition log (time : nat → Z) (type content : string) (r : Run) : Run :=
  {| run_logs := run_logs r ++ [{| timestamp := time (length (run_logs r));
                                   ltype := type; content := content |}];
     run_artifacts := run_artifacts r |}.

(** ['apt' in cmd.lower()] *)
Definition mentions_apt (cmd : string) : bool := PyStr.contains "apt" (lower cmd).

(** What is done with one stream of a command. *)
Definition log_stream (time : nat → Z) (cmd type text : string) (r : Run) : Run :=
  if String.eqb text "" then r
  else
    let filtered := if mentions_apt cmd then _filter_apt_noise text else Some text in
    match filtered with
    | Some shown => if String.eqb shown "" then r else log time type shown r
    | None => r
    end.

(** The loop [for cmd in filtered_commands], from position [k] on.  It ends
    with the exception of the call that raised, if one did. *)
Fixpoint run_commands (time : nat → Z) (dk : Docker) (k : nat)
    (cmds : list string) (r : Run) : Run * result unit :=
  match cmds with
  | [] => (r, Ok tt)
  | cmd :: rest =>
      let r := log time "command" ("$ " +:+ cmd) r in
      match exec_run dk k cmd with
      | Raise e => (r, Raise e)
      | Ok exec_result =>
          let r := log_stream time cmd "stdout" (stdout_text exec_result) r in
          let r := log_stream time cmd "stderr" (stderr_text exec_result) r in
          let r :=
            if exit_code exec_result =? 0 then log time "success" "OK" r
            else log time "error" ("Exit code " +:+ pretty (exit_code exec_result)) r in
          run_commands time dk (S k) rest r
      end
  end.

Definition artifact_dir : string := "/root/self-improving-ai/sandbox_artifacts".

(** One turn of [for f_raw in found_files], for the name at position [k]. *)
Definition retrieve_artifact (time : nat → Z) (dk : Docker)
    (files : list (string * string)) (r : Run) (k : nat) (f_raw : string) : Run :=
  let fname := lstrip_dot_slash (PyStr.strip f_raw) in
  if String.eqb fname "" || String.eqb fname "archive.tar" then r
  else if bool_decide (fname ∈ files.*1) then r
  else
    let r := log time "system" ("Retrieving artifact: " +:+ fname) r in
    match get_artifact dk k fname with
    | Ok _ =>
        {| run_logs := run_logs r;
           run_artifacts := <[ fname := artifact_dir +:+ "/" +:+ fname ]> (run_artifacts r) |}
    | Raise ae => log time "error" ("Failed to retrieve " +:+ fname +:+ ": " +:+ ae) r
    end.

Fixpoint retrieve_artifacts (time : nat → Z) (dk : Docker)
    (files : list (string * string)) (k : nat) (found : list string) (r : Run) : Run :=
  match found with
  | [] => r
  | f_raw :: rest =>
      retrieve_artifacts time dk files (S k) rest (retrieve_artifact time dk files r k f_raw)
  end.

(** The [try] block from the line after [containers.run] on. *)
Definition in_container (time : nat → Z) (dk : Docker)
    (files : list (string * string)) (filtered_commands : list string)
    (r : Run) : Run * result unit :=
  match put_archive dk with
  | Raise e => (r, Raise e)
  | Ok _ =>
      let r := log time "system"
                   ("Deployed " +:+ pretty (length files) +:+ " files to /app") r in
      match bootstrap dk with
      | Raise e => (r, Raise e)
      | Ok _ =>
          match run_commands time dk 0 filtered_commands r with
          | (r, Raise e) => (r, Raise e)
          | (r, Ok _) =>
              let r := log time "system" "Checking for artifacts..." r in
              match list_files dk with
              | Raise e => (r, Raise e)
              | Ok code =>
                  if code =? 0 then
                    match found_files dk with
                    | Raise e => (r, Raise e)
                    | Ok found => (retrieve_artifacts time dk files 0 found r, Ok tt)
                    end
                  else (r, Ok tt)
              end
          end
      end
  end.

(** [execute_batch(files, commands)], without a callback; [files] are the
    items of the dictionary, in its order.  An exception of the staging,
    which is outside the [try], leaves the function; one inside the [try] is
    logged, and the container, if there is one, is cleaned up. *)
Definition execute_batch (time : nat → Z) (image : string) (dk : Docker)
    (files : list (string * string)) (commands : list string) : result SandboxResult :=
  let filtering := Sandbox.execute_batch_filter time image commands in
  match stage dk files with
  | Raise e => Raise e
  | Ok _ =>
      let r := {| run_logs := Sandbox.logs filtering; run_artifacts := ∅ |} in
      let r := fold_left (λ r file, log time "file" ("Created: " +:+ file.1) r) files r in
      let r := log time "system" "Starting container..." r in
      let r :=
        match containers_run dk with
        | Raise e => log time "error" ("Sandbox error: " +:+ e) r
        | Ok _ =>
            let '(r, outcome) :=
              in_container time dk files (Sandbox.filtered_commands filtering) r in
            let r :=
              match outcome with
              | Raise e => log time "error" ("Sandbox error: " +:+ e) r
              | Ok _ => r
              end in
            log time "system" "Cleaning up..." r
        end in
      Ok {| sb_logs := run_logs r; sb_artifacts := run_artifacts r |}
  end.

(** What the artifact loop keeps true of the artifacts. *)
Definition artifacts_ok (files : list (string * string)) (r : Run) : Prop :=
  ∀ fname path, run_artifacts r !! fname = Some path →
    fname ≠ "" ∧ fname ≠ "archive.tar" ∧ (fname ∉ files.*1) ∧
    lstrip_dot_slash fname = fname ∧
    path = artifact_dir +:+ "/" +:+ fname.

End SandboxBatch.

(** ** More sample data *)

Module Samples.

(** A host whose database answers every query with one row. *)
Definition counting_host : Tools.Host :=
  {| Tools.json_loads := fun _ => Raise "Expecting value: line 1 column 1 (char 0)";
     Tools.json_dumps := fun _ => Ok "[[1]]";
     Tools.py_str := fun v => type_name v;
     Tools.db_query := fun _ => [ {[ "n" := JInt 1 ]} ];
     Tools.retrieve_similar := fun _ => [];
     Tools.retrieve_documents := fun _ => [];
     Tools.makedirs := fun fs _ => Ok fs;
     Tools.walk := fun _ _ _ => Ok [];
     Tools.subprocess_run := fun fs _ _ => (fs, Raise "[Errno 2] No such file or directory: 'sh'");
     Tools.ill_typed := fun tool _ fs => (fs, "Error: bad argument for " +:+ tool) |}.

(** Stores in which the same fact and the same solution come back for more
    than one query. *)
Definition stores : Retrieval.Stores :=
  {| Retrieval.query_generator := Some (fun task _ => Ok [task; "sum of a list"]);
     Retrieval.retrieve_recent_memories := fun _ => Ok ["likes tabs"; "uses Python"];
     Retrieval.retrieve_similar := fun _ _ =>
       Ok [ {| Retrieval.sim_task := "sum a list"; Retrieval.sim_code := "print(sum(xs))";
               Retrieval.sim_result := "6"; Retrieval.sim_distance := "0.1250" |} ];
     Retrieval.retrieve_memories := fun _ _ => Ok ["uses Python"];
     Retrieval.retrieve_lessons := fun _ _ => Ok [] |}.

(** The collaborators of [Sample.collaborators], with the retrieval block
    run against [stores]. *)
Definition retrieving : Collaborators :=
  let fixed := Sample.collaborators Sample.wants_code Sample.one_script
                                   Sample.clean_transcript in
  {| retrieve_context := Retrieval.retrieve_context stores;
     thinker := thinker fixed;
     run_tool := run_tool fixed;
     code_generator := code_generator fixed;
     now := now fixed;
     sandbox_execute_batch := sandbox_execute_batch fixed;
     reflector := reflector fixed;
     synthesizer := synthesizer fixed;
     self_reflector := self_reflector fixed;
     store_lesson := store_lesson fixed |}.

(** A clock that ticks once for every line of a transcript. *)
Definition clock (k : nat) : Z := 1700000000 + Z.of_nat k.

(** A container in which every command prints a line and exits with 0, and
    in which a plot has appeared beside the script. *)
Definition docker : SandboxBatch.Docker :=
  {| SandboxBatch.stage := fun _ => Ok tt;
     SandboxBatch.containers_run := Ok tt;
     SandboxBatch.put_archive := Ok tt;
     SandboxBatch.bootstrap := Ok tt;
     SandboxBatch.exec_run := fun _ _ =>
       Ok {| SandboxBatch.exit_code := 0; SandboxBatch.stdout_text := "1";
             SandboxBatch.stderr_text := "" |};
     SandboxBatch.list_files := Ok 0;
     SandboxBatch.found_files := Ok ["./main.py"; "./archive.tar"; "./plot.png"];
     SandboxBatch.get_artifact := fun _ _ => Ok tt |}.

(** What [execute_batch] returns in that container for one script and two
    commands, the first of which is filtered out. *)
Definition batch_result : SandboxResult :=
  match SandboxBatch.execute_batch clock "python:3.12-slim" docker
          [("main.py", "print(1)")] ["apt-get update"; "python main.py"] with
  | Ok result => result
  | Raise _ => {| sb_logs := []; sb_artifacts := ∅ |}
  end.

(** A transcript with the chatter of a package installation in it. *)
Definition apt_transcript : list LogEntry :=
  [ {| timestamp := 1700000000; ltype := "command"; content := "$ apt-get install -y gcc" |};
    {| timestamp := 1700000001; ltype := "stdout"; content := "Setting up gcc (4:12.2.0-3) ..." |};
    {| timestamp := 1700000002; ltype := "error"; content := "Exit code 100" |};
    {| timestamp := 1700000003; ltype := "stdout"; content := "42" |} ].

(** The transcript of a script that caught an exception, printed it and
    went on: a marker on [stderr], no [error] line. *)
Definition caught_error_transcript : SandboxResult :=
  {| sb_logs :=
       [ {| timestamp := 1700000000; ltype := "command"; content := "$ python3 main.py" |};
         {| timestamp := 1700000001; ltype := "stderr"; content := "ValueError: bad input" |};
         {| timestamp := 1700000002; ltype := "success"; content := "OK" |} ];
     sb_artifacts := ∅ |}.

End Samples.

(** * Properties *)

(** ** Python string operations *)

Module PyStrFacts.
Import PyStr.

Example strip_both_ends : strip "  pip install x  " = "pip install x".
Proof. reflexivity. Qed.

Example replace_first_leftmost : replace_first "ab" "X" "cabdab" = "cXdab".
Proof. reflexivity. Qed.

Example replace_first_empty_target : replace_first "" "X" "abc" = "Xabc".
Proof. reflexivity. Qed.

Lemma app_nil_l (a : string) : "" +:+ a = a.
Proof. reflexivity. Qed.

Lemma app_cons (x : Ascii.ascii) (a b : string) :
  String x a +:+ b = String x (a +:+ b).
Proof. reflexivity. Qed.

Ltac str_simpl := rewrite ?app_cons, ?app_nil_l in *.

Lemma app_assoc (a b c : string) : (a +:+ b) +:+ c = a +:+ b +:+ c.
Proof. induction a as [|x a IH]; str_simpl; [done | by f_equal]. Qed.

Lemma app_nil_r (a : string) : a +:+ "" = a.
Proof. induction a as [|x a IH]; str_simpl; [done | by f_equal]. Qed.

Lemma length_app (a b : string) :
  String.length (a +:+ b) = (String.length a + String.length b)%nat.
Proof. induction a as [|x a IH]; str_simpl; simpl; [done | by f_equal]. Qed.

Lemma startswith_spec (s p : string) :
  startswith s p = true ↔ ∃ post, s = p +:+ post.
Proof.
  revert s; induction p as [|a p IH]; intros s; simpl.
  - split; [intros _; exists s; reflexivity | done].
  - destruct s as [|b s].
    + split; [done | intros [post H]; discriminate].
    + destruct (Ascii.eqb a b) eqn:E.
      * apply Ascii.eqb_eq in E as ->. rewrite IH.
        split; intros [post H]; exists post; str_simpl; congruence.
      * split; [done | intros [post H]]. str_simpl. injection H as -> _.
        by rewrite Ascii.eqb_refl in E.
Qed.

Lemma drop_app (p s : string) : drop (String.length p) (p +:+ s) = s.
Proof. induction p as [|a p IH]; str_simpl; simpl; done. Qed.

(** [contains] is Python's substring test. *)
Lemma contains_spec (sub s : string) :
  contains sub s = true ↔ ∃ pre post, s = pre +:+ sub +:+ post.
Proof.
  induction s as [|c s IH]; cbn [contains].
  - rewrite orb_false_r, startswith_spec. split.
    + intros [post H]. by exists "", post.
    + intros [[|x pre] [post H]]; [by exists post | discriminate].
  - rewrite orb_true_iff, startswith_spec, IH. split.
    + intros [[post H] | (pre & post & H)].
      * by exists "", post.
      * exists (String c pre), post. str_simpl. by rewrite H.
    + intros [[|x pre] [post H]]; str_simpl.
      * left. by exists post.
      * right. exists pre, post. congruence.
Qed.

Lemma contains_false (sub s pre post : string) :
  contains sub s = false → s ≠ pre +:+ sub +:+ post.
Proof.
  intros Hc ->. enough (contains sub (pre +:+ sub +:+ post) = true) by congruence.
  apply contains_spec. by exists pre, post.
Qed.

Lemma replace_first_spec (old new s : string) :
  contains old s = true →
  ∃ pre post, first_occurrence old s pre post ∧
              replace_first old new s = pre +:+ new +:+ post.
Proof.
  induction s as [|c s IH]; intros Hc.
  - cbn [contains] in Hc. rewrite orb_false_r in Hc.
    exists "", "". destruct old; [|done]. split; [|done].
    split; [done | intros; simpl; lia].
  - cbn [replace_first]. destruct (startswith (String c s) old) eqn:Hs.
    + apply startswith_spec in Hs as [post Hpost].
      exists "", post. split.
      * split; [done | intros; simpl; lia].
      * by rewrite Hpost, drop_app.
    + cbn [contains] in Hc. rewrite Hs in Hc. simpl in Hc.
      destruct (IH Hc) as (pre & post & [Heq Hmin] & Hrep).
      exists (String c pre), post. split; [split|].
      * str_simpl. by rewrite Heq.
      * intros [|x pre'] post' H; str_simpl.
        -- assert (startswith (String c s) old = true) as Habs
             by (apply startswith_spec; by exists post').
           congruence.
        -- injection H as _ H. simpl. specialize (Hmin _ _ H). lia.
      * str_simpl. by rewrite Hrep.
Qed.

Lemma replace_first_absent (old new s : string) :
  contains old s = false → replace_first old new s = s.
Proof.
  induction s as [|c s IH]; cbn [contains replace_first]; intros Hc.
  - apply orb_false_iff in Hc as [-> _]. done.
  - apply orb_false_iff in Hc as [-> Hc]. by rewrite IH.
Qed.

Lemma lstrip_suffix (s : string) : ∃ a, s = a +:+ PyStr.lstrip s.
Proof.
  induction s as [|c s [a IH]]; [by exists ""|]. cbn [lstrip].
  destruct (is_space c); [|by exists ""].
  exists (String c a). str_simpl. by rewrite <- IH.
Qed.

Lemma rstrip_prefix (s : string) : ∃ b, s = PyStr.rstrip s +:+ b.
Proof.
  induction s as [|c s [b IH]]; [by exists ""|]. cbn [rstrip].
  destruct (rstrip s) as [|x r] eqn:Hr.
  - destruct (is_space c); [by exists (String c s) | by exists s].
  - exists b. str_simpl. by rewrite <- IH.
Qed.

(** The stripped text lies inside the text: what occurs in [s.strip()]
    occurs in [s]. *)
Lemma strip_infix (s sub pre post : string) :
  PyStr.strip s = pre +:+ sub +:+ post →
  ∃ pre' post', s = pre' +:+ sub +:+ post'.
Proof.
  unfold strip. intros Hs.
  destruct (lstrip_suffix s) as [a Ha].
  destruct (rstrip_prefix (lstrip s)) as [b Hb].
  exists (a +:+ pre), (post +:+ b).
  rewrite Ha at 1. rewrite Hb at 1. rewrite Hs.
  by rewrite !app_assoc.
Qed.

End PyStrFacts.

(** ** Merging updates into the run state *)

Lemma files_after_update (s : AgentState) (m : gmap string string) :
  files (apply_update s (files_update m)) = m ∪ files s.
Proof. reflexivity. Qed.

(** C2. The merge rule of [files] is union with overwrite: after the update
    [{"files": m}] a key of [m] holds [m]'s value and every other key holds
    what it held before, so no earlier file is lost.  Starting from the
    front end's input, the updates [{a:1}] then [{b:2}] leave [{a:1, b:2}],
    and a later [{a:3}] leaves [{a:3, b:2}]. *)
Theorem files_merge_union_overwrite :
  (∀ (s : AgentState) (m : gmap string string) (k : string),
     files (apply_update s (files_update m)) !! k =
       match m !! k with
       | Some v => Some v
       | None => files s !! k
       end) ∧
  (∀ (s : AgentState) (m : gmap string string),
     dom (files s) ⊆ dom (files (apply_update s (files_update m)))) ∧
  (∀ prompt past facts,
     let s0 := initial_params prompt past facts in
     let s1 := apply_update s0 (files_update {[ "a" := "1" ]}) in
     let s2 := apply_update s1 (files_update {[ "b" := "2" ]}) in
     let s3 := apply_update s2 (files_update {[ "a" := "3" ]}) in
     files s2 = {[ "a" := "1"; "b" := "2" ]} ∧
     files s3 = {[ "a" := "3"; "b" := "2" ]}).
Proof.
  split; [|split].
  - intros s m k. rewrite files_after_update, lookup_union.
    destruct (m !! k), (files s !! k); done.
  - intros s m. rewrite files_after_update, dom_union. set_solver.
  - intros prompt past facts. cbn zeta.
    rewrite !files_after_update. cbn [files initial_params].
    split; vm_compute; reflexivity.
Qed.

(** ** The iteration bound *)

Lemma lesson_node_cases (c : Collaborators) (s : AgentState) :
  lesson_node c s = no_update ∨ ∃ lesson, lesson_node c s = lesson_update lesson.
Proof.
  unfold lesson_node.
  destruct (_ || _); [by left|].
  destruct (self_reflector c) as [f|]; [|by left].
  destruct (f _ _ _) as [lesson|]; [|by left].
  destruct (String.eqb lesson ""); [by left|].
  destruct (store_lesson _ _ _ _); [right; by exists lesson | by left].
Qed.

(** What each node does to [iteration]. *)
Lemma iteration_after_node (n : Node) (c : Collaborators) (tid : string)
    (s : AgentState) :
  iteration (apply_update s (run_node n c tid s)) =
    match n with
    | GenerateCode => iteration s + 1
    | Think => 0
    | _ => iteration s
    end.
Proof.
  destruct n; try reflexivity.
  - unfold run_node, think_node. by destruct (think_context c s).
  - unfold run_node, execute_node. by destruct (commands s).
  - unfold run_node. by destruct (lesson_node_cases c s) as [-> | [l ->]].
Qed.

Lemma after_execute_spec (s : AgentState) :
  after_execute s = Synthesize ↔ is_solved s = true ∨ 3 ≤ iteration s.
Proof.
  unfold after_execute. destruct (is_solved s).
  - split; [by left | done].
  - destruct (Z.leb_spec 3 (iteration s)) as [Hge | Hlt].
    + split; [by right | done].
    + split; [done | intros [? | ?]; [done | lia]].
Qed.

Lemma after_execute_cases (s : AgentState) :
  after_execute s = Synthesize ∨
  (after_execute s = Reflect ∧ is_solved s = false ∧ iteration s < 3).
Proof.
  unfold after_execute. destruct (is_solved s); [by left|].
  destruct (Z.leb_spec 3 (iteration s)); [by left | by right].
Qed.

Lemma after_think_cases (s : AgentState) :
  after_think s = GenerateCode ∨ after_think s = ToolNode ∨ after_think s = Lesson.
Proof.
  unfold after_think. destruct (needs_code s); [by left|].
  destruct (names_tool _); [|by right; right].
  destruct (3 <=? _); [right; by right | right; by left].
Qed.

(** The first step of a run establishes the iteration ranges. *)
Lemma iteration_inv_first (tid : string) (input : AgentState) (cfg : Config) :
  step tid (initial input) cfg → iteration_inv cfg.
Proof.
  unfold initial. inversion 1 as [n s c Hn s']; subst.
  pose proof (iteration_after_node Think c tid input) as Hit.
  fold s' in Hit. cbn beta iota in Hit.
  unfold iteration_inv. cbn [fst snd next_node].
  destruct (after_think_cases s') as [-> | [-> | ->]]; lia.
Qed.

(** Every step keeps them. *)
Lemma iteration_inv_step (tid : string) (cfg cfg' : Config) :
  iteration_inv cfg → step tid cfg cfg' → iteration_inv cfg'.
Proof.
  intros Hinv. inversion 1 as [n s c Hn s']; subst.
  pose proof (iteration_after_node n c tid s) as Hit. fold s' in Hit.
  unfold iteration_inv in *. cbn [fst snd] in *.
  destruct n; cbn beta iota in Hit, Hinv; cbn [next_node]; try lia; try done.
  - destruct (after_think_cases s') as [-> | [-> | ->]]; lia.
  - destruct (after_execute_cases s') as [-> | (-> & _ & Hlt)]; lia.
Qed.

Lemma iteration_inv_bound (cfg : Config) :
  iteration_inv cfg → 0 ≤ iteration cfg.2 ≤ 3.
Proof. unfold iteration_inv. destruct cfg as [[] s]; cbn [fst snd]; lia. Qed.

(** C1. After [Execute] the run goes to [Synthesize] exactly when
    [is_solved] holds or [iteration] has reached 3, and to [Reflect]
    otherwise; [Reflect] always leads back to [GenerateCode]; [GenerateCode]
    adds exactly 1 to [iteration], [Think] sets it to 0 and no other node
    touches it.  Hence in every configuration a run reaches once its entry
    point has run, whatever the input and the collaborators' answers,
    [iteration] lies between 0 and 3. *)
Theorem iteration_never_exceeds_three (tid : string) :
  (∀ s, next_node Execute s = Synthesize ↔ is_solved s = true ∨ 3 ≤ iteration s) ∧
  (∀ s, ¬ (is_solved s = true ∨ 3 ≤ iteration s) → next_node Execute s = Reflect) ∧
  (∀ s, next_node Reflect s = GenerateCode) ∧
  (∀ n c s,
     iteration (apply_update s (run_node n c tid s)) =
       match n with
       | GenerateCode => iteration s + 1
       | Think => 0
       | _ => iteration s
       end) ∧
  (∀ input first cfg,
     step tid (initial input) first → rtc (step tid) first cfg →
     0 ≤ iteration cfg.2 ≤ 3).
Proof.
  split; [|split; [|split; [|split]]].
  - intros s. apply after_execute_spec.
  - intros s Hno. cbn [next_node].
    destruct (after_execute_cases s) as [Hs | [Hr _]]; [|done].
    by apply after_execute_spec in Hs.
  - done.
  - intros n c s. apply iteration_after_node.
  - intros input first cfg Hfirst Hrun. apply iteration_inv_bound.
    apply iteration_inv_first in Hfirst.
    induction Hrun as [|x y z Hxy Hyz IH]; [done|].
    apply IH. by eapply iteration_inv_step.
Qed.

(** A run of two steps on the front end's input: [Think] decides for code,
    [GenerateCode] produces a script, and the run stands at [Execute] in
    cycle number 1. *)
Lemma iteration_never_exceeds_three_witness :
  let c := Sample.collaborators Sample.wants_code Sample.one_script
                                Sample.clean_transcript in
  let s0 := initial_params "print 1+1" [] [] in
  let s1 := apply_update s0 (run_node Think c "t1" s0) in
  let s2 := apply_update s1 (run_node GenerateCode c "t1" s1) in
  next_node Think s1 = GenerateCode ∧ next_node GenerateCode s2 = Execute ∧
  iteration s2 = 1 ∧ 0 ≤ iteration s2 ≤ 3.
Proof.
  intros c s0 s1 s2.
  split; [reflexivity | split; [reflexivity | split; [reflexivity|]]].
  destruct (iteration_never_exceeds_three "t1") as (_ & _ & _ & _ & Hbound).
  apply (Hbound s0 (next_node Think s1, s1) (next_node GenerateCode s2, s2)).
  - apply (step_node "t1" Think s0 c). discriminate.
  - apply rtc_once.
    change (next_node Think s1) with GenerateCode.
    apply (step_node "t1" GenerateCode s1 c). discriminate.
Defined.

(** ** The think node *)

(** What merging the update of [think_node] does to the fields it means to
    reset: the keys without reducer are reset, the three keys with a reducer
    keep their content, because the union with the empty map and the
    concatenation with the empty list change nothing. *)
Lemma think_node_merge (c : Collaborators) (s : AgentState) :
  let s' := apply_update s (think_node c s) in
  commands s' = [] ∧ retrieved_files s' = ∅ ∧ iteration s' = 0 ∧
  execution_result s' = "" ∧
  files s' = files s ∧ execution_logs s' = execution_logs s ∧
  reflections s' = reflections s.
Proof.
  unfold think_node. destruct (think_context c s) as [ctx mems].
  cbn. unfold ior, add. rewrite !app_nil_r.
  by rewrite (left_id_L ∅ (∪)).
Qed.

(** C3. [think_node] does not reset the fields that carry a reducer: run on
    the state of a thread that already holds a script, a transcript and a
    critique, it leaves all three in the run state, whatever the
    collaborators answer. *)
Theorem think_node_keeps_files_logs_reflections (c : Collaborators) :
  let s := Sample.second_turn in
  let s' := apply_update s (think_node c s) in
  files s' = {[ "main.py" := "print(1+1)" ]} ∧
  files s' ≠ ∅ ∧
  length (execution_logs s') = 6%nat ∧
  reflections s' = ["The script has a typo."] ∧
  commands s' = [] ∧ iteration s' = 0.
Proof.
  intros s s'.
  destruct (think_node_merge c s) as (Hc & _ & Hi & _ & Hf & Hl & Hr).
  fold s' in Hc, Hi, Hf, Hl, Hr.
  rewrite Hf, Hl, Hr. repeat split; done.
Qed.

Lemma names_tool_spec (tool : string) :
  names_tool tool = true ↔ tool ≠ "none" ∧ tool ≠ "".
Proof.
  unfold names_tool. rewrite negb_true_iff, orb_false_iff.
  by rewrite !String.eqb_neq.
Qed.

(** C4. Once three tool calls have been made, a decision that names a tool
    and asks for no code is downgraded: the update of [think_node] carries
    the tool choice ["none"] and, as response, the decision's own response
    or, when that is empty, the fallback message ["I cannot process further
    tool requests due to loop limits."]; and the run goes from [Think] to
    [Lesson], not to [ToolNode]. *)
Theorem tool_request_past_limit (c : Collaborators) (s : AgentState) :
  3 ≤ tool_usage_count s →
  t_tool_choice (think_decision c s) ≠ "none" →
  t_tool_choice (think_decision c s) ≠ "" →
  t_needs_code (think_decision c s) = false →
  let d := think_decision c s in
  let u := think_node c s in
  u_tool_choice u = Some "none" ∧
  u_response u =
    Some (if String.eqb (t_response d) ""
          then "I cannot process further tool requests due to loop limits."
          else t_response d) ∧
  u_response u ≠ Some "" ∧
  next_node Think (apply_update s u) = Lesson ∧
  tool_usage_count (apply_update s u) = tool_usage_count s.
Proof.
  intros Hcount Hnone Hempty Hcode d u. subst d u.
  assert (names_tool (t_tool_choice (think_decision c s)) = true) as Hnames
    by by apply names_tool_spec.
  unfold think_node. destruct (think_context c s) as [ctx mems].
  rewrite Hnames, Hcode. apply Z.leb_le in Hcount. rewrite Hcount.
  cbn. repeat split; try done.
  destruct (String.eqb_spec (t_response (think_decision c s)) "") as [|Hne];
    [done|]. by intros [= Heq].
Qed.

Lemma tool_request_past_limit_witness :
  let c := Sample.collaborators Sample.wants_sql Sample.no_code
                                Sample.clean_transcript in
  let s := Sample.after_three_tools in
  u_tool_choice (think_node c s) = Some "none" ∧
  u_response (think_node c s)
    = Some "I cannot process further tool requests due to loop limits." ∧
  next_node Think (apply_update s (think_node c s)) = Lesson.
Proof.
  intros c s.
  destruct (tool_request_past_limit c s) as (H1 & H2 & _ & H3 & _);
    [vm_compute; discriminate | vm_compute; discriminate
    | vm_compute; discriminate | reflexivity |].
  split; [exact H1 | split; [exact H2 | exact H3]].
Defined.

(** ** The execute node *)

Lemma contains_any_spec (ms : list string) (s : string) :
  PyStr.contains_any ms s = true ↔
  ∃ m pre post, m ∈ ms ∧ s = pre +:+ m +:+ post.
Proof.
  unfold PyStr.contains_any. rewrite existsb_exists. split.
  - intros (m & Hin & Hc). apply PyStrFacts.contains_spec in Hc as (pre & post & ->).
    exists m, pre, post. by rewrite list_elem_of_In.
  - intros (m & pre & post & Hin & ->). exists m.
    rewrite <- list_elem_of_In. split; [done|].
    apply PyStrFacts.contains_spec. by exists pre, post.
Qed.

Lemma failure_entryb_spec (log : LogEntry) :
  failure_entryb log = true ↔ failure_entry log.
Proof.
  unfold failure_entryb, failure_entry.
  by rewrite orb_true_iff, andb_true_iff, !String.eqb_eq, contains_any_spec.
Qed.

(** The flag after one line: raised by a failure line, kept otherwise. *)
Lemma has_errors_scan_log (acc : Scan) (log : LogEntry) :
  has_errors (scan_log acc log) = has_errors acc || failure_entryb log.
Proof.
  unfold scan_log, failure_entryb.
  destruct (String.eqb (ltype log) "error") eqn:He.
  { cbn. by rewrite orb_true_r. }
  destruct (String.eqb (ltype log) "stdout") eqn:Ho.
  { apply String.eqb_eq in Ho. rewrite Ho. cbn. by rewrite orb_false_r. }
  destruct (String.eqb (ltype log) "stderr") eqn:Hr; cbn [has_errors orb andb].
  - destruct (PyStr.contains_any failure_markers (content log));
      [by rewrite orb_true_r | by rewrite orb_false_r].
  - by rewrite orb_false_r.
Qed.

Lemma has_errors_fold (logs : list LogEntry) (acc : Scan) :
  has_errors (fold_left scan_log logs acc) =
  has_errors acc || existsb failure_entryb logs.
Proof.
  revert acc. induction logs as [|log logs IH]; intros acc; cbn [fold_left existsb].
  - by rewrite orb_false_r.
  - by rewrite IH, has_errors_scan_log, orb_assoc.
Qed.

Lemma has_errors_scan_logs (logs : list LogEntry) :
  has_errors (scan_logs logs) = true ↔ ∃ log, log ∈ logs ∧ failure_entry log.
Proof.
  unfold scan_logs. rewrite has_errors_fold. cbn [has_errors orb].
  rewrite existsb_exists. split.
  - intros (log & Hin & Hf). exists log.
    by rewrite list_elem_of_In, <- failure_entryb_spec.
  - intros (log & Hin & Hf). exists log.
    by rewrite <- list_elem_of_In, failure_entryb_spec.
Qed.

(** C5. When there are commands to run, [execute_node] sets [is_solved]
    from the transcript the sandbox returns: to false if some line is of
    type [error], or of type [stderr] with one of the thirteen failure
    markers in its content; to true if no line is such a failure line. *)
Theorem is_solved_from_transcript (c : Collaborators) (tid : string)
    (s : AgentState) :
  commands s ≠ [] →
  let logs := sb_logs (sandbox_execute_batch c (files s) (commands s)) in
  let u := (execute_node c tid s).2 in
  let failure (log : LogEntry) :=
    ltype log = "error" ∨
    (ltype log = "stderr" ∧
     ∃ marker pre post,
       marker ∈ ["Traceback"; "Error:"; "IndentationError"; "SyntaxError";
                 "NameError"; "TypeError"; "ValueError"; "ImportError";
                 "ModuleNotFoundError"; "AttributeError"; "KeyError";
                 "ZeroDivisionError"; "FileNotFoundError"] ∧
       content log = pre +:+ marker +:+ post) in
  ((∃ log, log ∈ logs ∧ failure log) → u_is_solved u = Some false) ∧
  ((∀ log, log ∈ logs → ¬ failure log) → u_is_solved u = Some true) ∧
  u_execution_logs u = Some logs.
Proof.
  intros Hcmds logs u failure. change failure with failure_entry. clear failure.
  subst u. unfold execute_node.
  destruct (commands s) as [|cmd cmds] eqn:Hc; [done|]. cbn [snd u_is_solved].
  fold logs. split; [|split; [|done]].
  - intros Hex. apply has_errors_scan_logs in Hex. by rewrite Hex.
  - intros Hall. destruct (has_errors (scan_logs logs)) eqn:Hs; [|done].
    apply has_errors_scan_logs in Hs as (log & Hin & Hf).
    by destruct (Hall log Hin).
Qed.

Lemma is_solved_from_transcript_witness :
  let s := Sample.at_execute 1 ["python3 main.py"] in
  u_is_solved
    (execute_node (Sample.collaborators Sample.wants_code Sample.one_script
                     Samples.caught_error_transcript) "t1" s).2 = Some false ∧
  u_is_solved
    (execute_node (Sample.collaborators Sample.wants_code Sample.one_script
                     Sample.failed_transcript) "t1" s).2 = Some false ∧
  u_is_solved
    (execute_node (Sample.collaborators Sample.wants_code Sample.one_script
                     Sample.clean_transcript) "t1" s).2 = Some true.
Proof.
  intros s. split; [|split].
  - apply (is_solved_from_transcript
             (Sample.collaborators Sample.wants_code Sample.one_script
                Samples.caught_error_transcript) "t1" s); [discriminate|].
    exists {| timestamp := 1700000001; ltype := "stderr";
              content := "ValueError: bad input" |}.
    split.
    + vm_compute. apply list_elem_of_further. apply list_elem_of_here.
    + right. split; [reflexivity|].
      exists "ValueError", "", ": bad input". split; [|reflexivity].
      do 6 apply list_elem_of_further. apply list_elem_of_here.
  - apply (is_solved_from_transcript
             (Sample.collaborators Sample.wants_code Sample.one_script
                Sample.failed_transcript) "t1" s); [discriminate|].
    exists {| timestamp := 1700000003; ltype := "error"; content := "Exit code 1" |}.
    split; [|by left]. vm_compute. do 2 apply list_elem_of_further.
    apply list_elem_of_here.
  - apply (is_solved_from_transcript
             (Sample.collaborators Sample.wants_code Sample.one_script
                Sample.clean_transcript) "t1" s); [discriminate|].
    intros log Hin Hf. change (failure_entry log) in Hf.
    apply failure_entryb_spec in Hf.
    cbn in Hin. rewrite !elem_of_cons in Hin.
    destruct Hin as [-> | [-> | [-> | Hin]]];
      [discriminate Hf .. | by apply elem_of_nil in Hin].
Defined.

(** The update of [execute_node] when the generator produced no command:
    no call is made, neither to the sandbox nor to the metrics table; the
    update holds one transcript line, of type [error], an empty execution
    result and [is_solved = False]; and the merged state is routed by the
    iteration count alone. *)
Lemma execute_node_no_commands (c : Collaborators) (tid : string)
    (s : AgentState) :
  commands s = [] →
  let r := execute_node c tid s in
  r.1 = [] ∧
  u_execution_logs r.2 =
    Some [{| timestamp := now c; ltype := "error";
             content := "No commands generated." |}] ∧
  u_execution_result r.2 = Some "" ∧
  u_is_solved r.2 = Some false ∧
  is_solved (apply_update s r.2) = false ∧
  iteration (apply_update s r.2) = iteration s.
Proof. intros Hc r. subst r. unfold execute_node. rewrite Hc. done. Qed.

(** C10, as stated, fails in the third cycle: with no command and
    [iteration = 3] the run leaves [Execute] for [Synthesize], not for
    [Reflect]. *)
Lemma empty_cycle_at_cap_not_reflected :
  let c := Sample.collaborators Sample.wants_code Sample.no_code
                                Sample.clean_transcript in
  let s := Sample.at_execute 3 [] in
  commands s = [] ∧
  next_node Execute (apply_update s (execute_node c "t1" s).2) = Synthesize ∧
  next_node Execute (apply_update s (execute_node c "t1" s).2) ≠ Reflect.
Proof. cbv zeta. split; [reflexivity | split; [reflexivity | discriminate]]. Qed.

(** C10, amended. For a run state without commands [execute_node] returns
    without calling the sandbox: its update holds exactly one transcript
    line, of type [error] with content ["No commands generated."], an empty
    execution result and [is_solved = False]; so the cycle is not counted as
    a success, and it is routed to [Reflect] as long as [iteration] is below
    3, and to [Synthesize] once [iteration] has reached 3. *)
Theorem empty_cycle_is_a_failure (c : Collaborators) (tid : string)
    (s : AgentState) :
  commands s = [] →
  let r := execute_node c tid s in
  r.1 = [] ∧
  u_execution_logs r.2 =
    Some [{| timestamp := now c; ltype := "error";
             content := "No commands generated." |}] ∧
  u_execution_result r.2 = Some "" ∧
  u_is_solved r.2 = Some false ∧
  is_solved (apply_update s r.2) = false ∧
  (iteration s < 3 → next_node Execute (apply_update s r.2) = Reflect) ∧
  (3 ≤ iteration s → next_node Execute (apply_update s r.2) = Synthesize).
Proof.
  intros Hc r.
  destruct (execute_node_no_commands c tid s Hc) as (H1 & H2 & H3 & H4 & H5 & H6).
  fold r in H1, H2, H3, H4, H5, H6.
  repeat (split; [done|]). cbn [next_node]. unfold after_execute.
  rewrite H5, H6. split; intros Hi.
  - by destruct (Z.leb_spec 3 (iteration s)); [lia|].
  - by destruct (Z.leb_spec 3 (iteration s)); [|lia].
Qed.

Lemma empty_cycle_is_a_failure_witness :
  let c := Sample.collaborators Sample.wants_code Sample.no_code
                                Sample.clean_transcript in
  let s := Sample.at_execute 1 [] in
  (execute_node c "t1" s).1 = [] ∧
  u_is_solved (execute_node c "t1" s).2 = Some false ∧
  next_node Execute (apply_update s (execute_node c "t1" s).2) = Reflect.
Proof.
  intros c s.
  destruct (empty_cycle_is_a_failure c "t1" s) as (H1 & _ & _ & H4 & _ & H6 & _);
    [reflexivity|].
  split; [exact H1 | split; [exact H4 | apply H6; reflexivity]].
Defined.

(** ** The command filter of the sandbox *)

Module SandboxFacts.
Import Sandbox.

Lemma startswith_any_spec (s : string) (ps : list string) :
  PyStr.startswith_any s ps = true ↔ ∃ p rest, p ∈ ps ∧ s = p +:+ rest.
Proof.
  unfold PyStr.startswith_any. rewrite existsb_exists. split.
  - intros (p & Hin & Hp). apply PyStrFacts.startswith_spec in Hp as [rest ->].
    exists p, rest. by rewrite list_elem_of_In.
  - intros (p & rest & Hin & ->). exists p. rewrite <- list_elem_of_In.
    split; [done|]. apply PyStrFacts.startswith_spec. by exists rest.
Qed.

Example filter_five_commands :
  filtered_commands
    (execute_batch_filter (λ n, Z.of_nat n) "python:3.12-slim"
       ["apt-get update"; "  pip install requests "; " python3 main.py";
        "pip3 install numpy --break-system-packages"; "pip install decimal"]) =
  ["pip install requests --break-system-packages"; " python3 main.py";
   "pip3 install numpy --break-system-packages"].
Proof. reflexivity. Qed.

Lemma filtered_fold (time : nat → Z) (commands : list string) (st : Filtering) :
  filtered_commands (fold_left (filter_command time) commands st) =
  filtered_commands st ++
    map with_flag (List.filter (λ cmd, negb (is_skipped cmd)) commands).
Proof.
  revert st. induction commands as [|cmd commands IH]; intros st;
    cbn [fold_left List.filter map].
  - by rewrite app_nil_r.
  - rewrite IH. unfold filter_command.
    destruct (is_skipped cmd); cbn [negb map filtered_commands log]; [done|].
    by rewrite <- app_assoc.
Qed.

Lemma with_flag_has_flag (cmd : string) :
  is_pip_install cmd = true →
  PyStr.contains override_flag (with_flag cmd) = true.
Proof.
  intros Hpip. unfold with_flag. rewrite Hpip. cbn [andb].
  destruct (lacks_flag cmd) eqn:Hl.
  - apply PyStrFacts.contains_spec. exists (PyStr.strip cmd +:+ " "), "".
    rewrite PyStrFacts.app_assoc. reflexivity.
  - unfold lacks_flag in Hl. apply negb_false_iff in Hl.
    apply PyStrFacts.contains_spec in Hl as (pre & post & Hs).
    apply PyStrFacts.contains_spec.
    by apply PyStrFacts.strip_infix in Hs.
Qed.

(** The filter loop as a whole: it drops the commands that, stripped of
    surrounding blanks, start with one of the skip prefixes, keeps the
    others in their order, and hands each kept command to [with_flag]. *)
Lemma filter_loop (time : nat → Z) (image : string) (commands : list string) :
  filtered_commands (execute_batch_filter time image commands) =
    map with_flag (List.filter (λ cmd, negb (is_skipped cmd)) commands) ∧
  (∀ cmd, is_skipped cmd = true ↔
          ∃ p rest, p ∈ skip_prefixes ∧ PyStr.strip cmd = p +:+ rest) ∧
  (∀ cmd, is_pip_install cmd = true →
          PyStr.contains override_flag (with_flag cmd) = true) ∧
  (∀ cmd, is_pip_install cmd = true → lacks_flag cmd = true →
          with_flag cmd = PyStr.strip cmd +:+ " " +:+ override_flag) ∧
  (∀ cmd, is_pip_install cmd = false ∨ lacks_flag cmd = false →
          with_flag cmd = cmd).
Proof.
  split; [|split; [|split; [|split]]].
  - unfold execute_batch_filter. by rewrite filtered_fold.
  - intros cmd. apply startswith_any_spec.
  - apply with_flag_has_flag.
  - intros cmd Hp Hl. unfold with_flag. by rewrite Hp, Hl.
  - intros cmd [H | H]; unfold with_flag; rewrite H; [done|].
    by rewrite andb_false_r.
Qed.

(** C9. The filter drops more than the redundant commands, and flags more
    than the installations.  The installation of a compiler that the image
    does not have is dropped, and logged as pre-installed, so that the
    compilation is all that runs; the installation of [decimal-extras] is
    dropped for its first letters; and a command that only prints the words
    [pip install] comes out with the flag appended.  An update of the
    package lists and the installation of [decimal] are dropped, and an
    installation with [pip] is flagged, as intended. *)
Theorem command_filter_drops_needed_install (time : nat → Z) (image : string) :
  let run := execute_batch_filter time image in
  filtered_commands (run ["apt-get install -y gcc"; "gcc main.c -o main"])
    = ["gcc main.c -o main"] ∧
  map (λ e, (ltype e, content e))
      (logs (run ["apt-get install -y gcc"; "gcc main.c -o main"]))
    = [("system", "Initializing sandbox (" +:+ image +:+ ")...");
       ("system", "Skipped (pre-installed): apt-get install -y gcc")] ∧
  filtered_commands (run ["pip install decimal-extras"; "python main.py"])
    = ["python main.py"] ∧
  filtered_commands (run ["echo pip install"])
    = ["echo pip install --break-system-packages"] ∧
  filtered_commands (run ["apt-get update"; "pip install decimal";
                          "pip install numpy"; "python main.py"])
    = ["pip install numpy --break-system-packages"; "python main.py"].
Proof. intros run. subst run. repeat split. Qed.

End SandboxFacts.

(** ** The file tools *)

Module FileToolsFacts.
Import FileTools.

Lemma contains_occurs (sub s : string) :
  PyStr.contains sub s = true ↔ PyStr.occurs_in sub s.
Proof. apply PyStrFacts.contains_spec. Qed.

Lemma contains_not_occurs (sub s : string) :
  PyStr.contains sub s = false ↔ ¬ PyStr.occurs_in sub s.
Proof.
  rewrite <- contains_occurs. by destruct (PyStr.contains sub s).
Qed.

Example read_file_clamps :
  read_file {[ "f" := File ("a" +:+ PyStr.nl +:+ "b" +:+ PyStr.nl +:+ "c") ]}
            "f" (Some 9) (Some 1) = "--- f (4-3/3) ---" +:+ PyStr.nl.
Proof. reflexivity. Qed.

Lemma path_exists_file (fs : FS) (path content : string) :
  fs !! path = Some (File content) →
  path_exists fs path = true ∧ open_read fs path = Ok content ∧
  ∀ text, open_write fs path text = Ok (<[path := File text]> fs).
Proof. intros H. unfold path_exists, open_read, open_write. by rewrite H. Qed.

(** C7. On a file whose content does not contain [old_text] verbatim,
    [edit_file] returns an error text and leaves every file as it was, also
    when [old_text] stripped of surrounding blanks does occur: the text then
    says that the exact match failed, and otherwise that [old_text] was not
    found.  When [old_text] does occur, the file's new content is the old one
    with the leftmost occurrence replaced by [new_text], and nothing else
    changed. *)
Theorem edit_file_exact_match (fs : FS) (path content old_text new_text : string) :
  fs !! path = Some (File content) →
  (¬ PyStr.occurs_in old_text content →
     (edit_file fs path old_text new_text).1 = fs ∧
     PyStr.startswith (edit_file fs path old_text new_text).2 "Error: " = true ∧
     (PyStr.occurs_in (PyStr.strip old_text) content →
        (edit_file fs path old_text new_text).2 =
          "Error: Exact 'old_text' match failed. Be precise with whitespace.") ∧
     (¬ PyStr.occurs_in (PyStr.strip old_text) content →
        (edit_file fs path old_text new_text).2 =
          "Error: 'old_text' not found in " +:+ path
            +:+ ". Please check indentation/whitespace exact match.")) ∧
  (PyStr.occurs_in old_text content →
     ∃ pre post,
       PyStr.first_occurrence old_text content pre post ∧
       edit_file fs path old_text new_text =
         (<[path := File (pre +:+ new_text +:+ post)]> fs,
          "Successfully edited " +:+ path)).
Proof.
  intros Hfile. destruct (path_exists_file fs path content Hfile) as (He & Hr & Hw).
  unfold edit_file. rewrite He, Hr. cbn [negb]. split.
  - intros Habsent. apply contains_not_occurs in Habsent. rewrite Habsent.
    cbn [negb].
    destruct (PyStr.contains (PyStr.strip old_text) content) eqn:Hs; cbn [negb fst snd].
    + repeat split. intros Hn. apply contains_not_occurs in Hn. congruence.
    + repeat split. intros Hn. apply contains_occurs in Hn. congruence.
  - intros Hocc. apply contains_occurs in Hocc. rewrite Hocc. cbn [negb].
    destruct (PyStrFacts.replace_first_spec old_text new_text content Hocc)
      as (pre & post & Hfirst & Hrep).
    exists pre, post. split; [done|]. by rewrite Hw, Hrep.
Qed.

Lemma edit_file_exact_match_witness :
  (edit_file Sample.workdir "main.py" "  x = 1  " "x = 2").1 = Sample.workdir ∧
  (edit_file Sample.workdir "main.py" "  x = 1  " "x = 2").2 =
    "Error: Exact 'old_text' match failed. Be precise with whitespace." ∧
  ∃ pre post,
    edit_file Sample.workdir "main.py" "1" "2" =
      (<["main.py" := File (pre +:+ "2" +:+ post)]> Sample.workdir,
       "Successfully edited main.py").
Proof.
  destruct (edit_file_exact_match Sample.workdir "main.py" "x = 1" "  x = 1  " "x = 2")
    as [Herr _]; [reflexivity|].
  destruct Herr as (H1 & _ & H3 & _).
  { apply contains_not_occurs. vm_compute. reflexivity. }
  destruct (edit_file_exact_match Sample.workdir "main.py" "x = 1" "1" "2")
    as [_ Hok]; [reflexivity|].
  destruct Hok as (pre & post & _ & Hedit).
  { apply contains_occurs. vm_compute. reflexivity. }
  split; [exact H1 | split].
  - apply H3. apply contains_occurs. vm_compute. reflexivity.
  - exists pre, post. exact Hedit.
Defined.

End FileToolsFacts.

(** ** The tool dispatcher *)

Module ToolsFacts.
Import FileTools Tools.

(** [execute_tool] once the arguments are parsed: the branches, with every
    exception turned into text. *)
Lemma execute_tool_parsed (h : Host) (tool_name : string) (args_json : Payload)
    (fs : FS) (args : JValue) :
  parse_args h args_json = Ok args →
  execute_tool h tool_name args_json fs =
    ((dispatch h tool_name args fs).1,
     try_except (dispatch h tool_name args fs).2
                (λ e, Ok ("TOOL EXECUTION ERROR: " +:+ e))).
Proof.
  destruct args_json as [text | d]; cbn [parse_args execute_tool].
  - by intros ->.
  - by intros [= <-].
Qed.

Lemma execute_tool_returns (h : Host) (tool_name : string) (args_json : Payload)
    (fs : FS) :
  ∃ text, (execute_tool h tool_name args_json fs).2 = Ok text.
Proof.
  destruct (parse_args h args_json) as [args | e] eqn:Hp.
  - rewrite (execute_tool_parsed _ _ _ _ _ Hp). cbn [snd].
    destruct (dispatch h tool_name args fs).2; cbn; eauto.
  - destruct args_json as [text | d]; [|done]. cbn in Hp.
    cbn [execute_tool]. rewrite Hp. eauto.
Qed.

Lemma not_a_tool (tool_name : string) :
  tool_name ∉ tool_names →
  String.eqb tool_name "sql_db" = false ∧
  String.eqb tool_name "rag_search" = false ∧
  String.eqb tool_name "search_documents" = false ∧
  String.eqb tool_name "read_file" = false ∧
  String.eqb tool_name "write_file" = false ∧
  String.eqb tool_name "edit_file" = false ∧
  String.eqb tool_name "list_files" = false ∧
  String.eqb tool_name "run_command" = false.
Proof.
  intros Hnot. repeat split; apply String.eqb_neq; intros ->;
    apply Hnot; unfold tool_names; set_solver.
Qed.

Lemma dispatch_unknown (h : Host) (tool_name : string) (args : JValue) (fs : FS) :
  tool_name ∉ tool_names →
  dispatch h tool_name args fs = (fs, Ok ("ERROR: Unknown tool '" +:+ tool_name +:+ "'")).
Proof.
  intros Hnot.
  destruct (not_a_tool tool_name Hnot) as (H1 & H2 & H3 & H4 & H5 & H6 & H7 & H8).
  unfold dispatch. by rewrite H1, H2, H3, H4, H5, H6, H7, H8.
Qed.

Lemma dispatch_not_dict (h : Host) (tool_name : string) (args : JValue) (fs : FS) :
  tool_name ∈ tool_names →
  (∀ d, args ≠ JDict d) →
  dispatch h tool_name args fs =
    (fs, Raise ("'" +:+ type_name args +:+ "' object has no attribute 'get'")).
Proof.
  intros Hin Hnd. unfold tool_names in Hin. rewrite !elem_of_cons in Hin.
  destruct args; try (by destruct (Hnd d));
    destruct Hin as [-> | [-> | [-> | [-> | [-> | [-> | [-> | [-> | Hin]]]]]]]];
    try done; by apply elem_of_nil in Hin.
Qed.

Lemma dispatch_missing (h : Host) (tool_name : string) (d : gmap string JValue)
    (fs : FS) :
  missing_argument tool_name d = true →
  ∃ text, dispatch h tool_name (JDict d) fs = (fs, Ok text) ∧
          PyStr.startswith text "ERROR: Missing " = true.
Proof.
  unfold missing_argument, dispatch, with_arg, get.
  destruct (String.eqb tool_name "sql_db") eqn:E1; cbn [orb].
  { intros ->. eauto. }
  destruct (String.eqb tool_name "rag_search") eqn:E2; cbn [orb].
  { intros ->. eauto. }
  destruct (String.eqb tool_name "search_documents") eqn:E3; cbn [orb].
  { intros ->. eauto. }
  destruct (String.eqb tool_name "read_file") eqn:E4.
  { intros ->. eauto. }
  destruct (String.eqb tool_name "write_file") eqn:E5.
  { intros ->. eauto. }
  destruct (String.eqb tool_name "edit_file") eqn:E6.
  { intros ->. eauto. }
  destruct (String.eqb tool_name "list_files") eqn:E7.
  { apply String.eqb_eq in E7 as ->. done. }
  destruct (String.eqb tool_name "run_command") eqn:E8; [|done].
  intros ->. eauto.
Qed.

Example arguments_not_an_object :
  execute_tool Sample.host "sql_db" (PText "[]") ∅ =
    (∅, Ok "TOOL EXECUTION ERROR: 'list' object has no attribute 'get'").
Proof. reflexivity. Qed.

Example arguments_not_json :
  execute_tool Sample.host "sql_db" (PText "oops") ∅ =
    (∅, Ok "ERROR: Invalid JSON arguments: oops").
Proof. reflexivity. Qed.

Lemma dispatch_read_missing_file (h : Host) (d : gmap string JValue) (fs : FS)
    (p : string) (start_line end_line : option Z) :
  d !! "path" = Some (JStr p) → p ≠ "" →
  as_line (default JNull (d !! "start_line")) = Some start_line →
  as_line (default JNull (d !! "end_line")) = Some end_line →
  fs !! p = None →
  dispatch h "read_file" (JDict d) fs =
    (fs, Ok ("Error: File '" +:+ p +:+ "' not found.")).
Proof.
  intros Hp Hne Hs He Hfs. unfold dispatch, with_arg, get. cbn [String.eqb Ascii.eqb Bool.eqb].
  rewrite Hp. cbn [from_option id truthy]. apply String.eqb_neq in Hne. rewrite Hne.
  cbn [negb]. rewrite Hs, He. unfold read_file, path_exists. by rewrite Hfs.
Qed.

Lemma dispatch_sql_error (h : Host) (d : gmap string JValue) (fs : FS)
    (query err : JValue) (row : gmap string JValue) (rows : list (gmap string JValue)) :
  d !! "query" = Some query → truthy query = true →
  db_query h query = row :: rows → row !! "error" = Some err →
  dispatch h "sql_db" (JDict d) fs = (fs, Ok ("SQL ERROR: " +:+ py_str h err)).
Proof.
  intros Hq Ht Hrows Herr. unfold dispatch, with_arg, get. cbn [String.eqb Ascii.eqb Bool.eqb].
  rewrite Hq. cbn [from_option id]. by rewrite Ht, Hrows, Herr.
Qed.

(** C6, as stated, fails on a missing file: the text the dispatcher returns
    is the handler's, and it does not start with ["ERROR: "]. *)
Lemma missing_file_reply_not_prefixed :
  execute_tool Sample.host "read_file" (PDict {[ "path" := JStr "notes.txt" ]})
               Sample.workdir =
    (Sample.workdir, Ok "Error: File 'notes.txt' not found.") ∧
  PyStr.startswith "Error: File 'notes.txt' not found." "ERROR: " = false.
Proof. split; vm_compute; reflexivity. Qed.

(** C6, amended. For every tool name and argument payload the dispatcher
    returns a text and never raises.  A failure that the dispatcher detects
    itself is returned with the prefix ["ERROR: "]: arguments that are not
    valid JSON, an unknown tool name, a required argument that is missing.
    An exception that reaches the dispatcher, such as arguments that are
    not a JSON object, is returned as ["TOOL EXECUTION ERROR: "] followed by
    its message.  A failure inside a handler is returned in the handler's
    own words: a missing file as ["Error: File '<path>' not found."], a
    failed query as ["SQL ERROR: "] followed by the error. *)
Theorem dispatcher_returns_text (h : Host) (tool_name : string)
    (args_json : Payload) (fs : FS) :
  let r := execute_tool h tool_name args_json fs in
  (∃ text, r.2 = Ok text) ∧
  (∀ text e, args_json = PText text → json_loads h text = Raise e →
     r = (fs, Ok ("ERROR: Invalid JSON arguments: " +:+ text))) ∧
  (∀ args, parse_args h args_json = Ok args → tool_name ∉ tool_names →
     r = (fs, Ok ("ERROR: Unknown tool '" +:+ tool_name +:+ "'"))) ∧
  (∀ d, parse_args h args_json = Ok (JDict d) →
     missing_argument tool_name d = true →
     ∃ text, r = (fs, Ok text) ∧ PyStr.startswith text "ERROR: Missing " = true) ∧
  (∀ args e, parse_args h args_json = Ok args →
     (dispatch h tool_name args fs).2 = Raise e →
     r.2 = Ok ("TOOL EXECUTION ERROR: " +:+ e)) ∧
  (∀ args, parse_args h args_json = Ok args → tool_name ∈ tool_names →
     (∀ d, args ≠ JDict d) →
     r = (fs, Ok ("TOOL EXECUTION ERROR: '" +:+ type_name args
                    +:+ "' object has no attribute 'get'"))) ∧
  (∀ d p start_line end_line,
     parse_args h args_json = Ok (JDict d) → tool_name = "read_file" →
     d !! "path" = Some (JStr p) → p ≠ "" →
     as_line (default JNull (d !! "start_line")) = Some start_line →
     as_line (default JNull (d !! "end_line")) = Some end_line →
     fs !! p = None →
     r = (fs, Ok ("Error: File '" +:+ p +:+ "' not found."))) ∧
  (∀ d query err row rows,
     parse_args h args_json = Ok (JDict d) → tool_name = "sql_db" →
     d !! "query" = Some query → truthy query = true →
     db_query h query = row :: rows → row !! "error" = Some err →
     r = (fs, Ok ("SQL ERROR: " +:+ py_str h err))).
Proof.
  intros r. subst r.
  split; [apply execute_tool_returns|].
  split.
  { intros text e -> Hl. cbn [execute_tool]. by rewrite Hl. }
  split.
  { intros args Hp Hnot. rewrite (execute_tool_parsed _ _ _ _ _ Hp).
    by rewrite dispatch_unknown. }
  split.
  { intros d Hp Hm. rewrite (execute_tool_parsed _ _ _ _ _ Hp).
    destruct (dispatch_missing h tool_name d fs Hm) as (text & -> & Hpre).
    by exists text. }
  split.
  { intros args e Hp He. rewrite (execute_tool_parsed _ _ _ _ _ Hp).
    cbn [snd]. by rewrite He. }
  split.
  { intros args Hp Hin Hnd. rewrite (execute_tool_parsed _ _ _ _ _ Hp).
    by rewrite dispatch_not_dict. }
  split.
  { intros d p sl el Hp -> Hpath Hne Hs He Hfs.
    rewrite (execute_tool_parsed _ _ _ _ _ Hp).
    by rewrite (dispatch_read_missing_file h d fs p sl el). }
  intros d query err row rows Hp -> Hq Ht Hrows Herr.
  rewrite (execute_tool_parsed _ _ _ _ _ Hp).
  by rewrite (dispatch_sql_error h d fs query err row rows).
Qed.

End ToolsFacts.

(** ** The checkpoint store *)

Module CheckpointerFacts.
Import Checkpointer.

Lemma same_checkpoint_key (a b : CheckpointRow) :
  same_key a b = same_checkpoint (row_thread_id a) (row_checkpoint_ns a)
                                 (row_checkpoint_id a) b.
Proof. reflexivity. Qed.

Lemma same_key_sym (a b : CheckpointRow) : same_key a b = same_key b a.
Proof.
  unfold same_key, same_checkpoint.
  by rewrite (String.eqb_sym (row_thread_id b)),
    (String.eqb_sym (row_checkpoint_ns b)), (String.eqb_sym (row_checkpoint_id b)).
Qed.

Lemma same_key_refl (a : CheckpointRow) : same_key a a = true.
Proof. unfold same_key, same_checkpoint. by rewrite !String.eqb_refl. Qed.

(** A row that is inserted last and is at least as new as every row of its
    key is the one row of that key that [FINAL] shows. *)
Lemma final_from_newest (new : CheckpointRow) (rows earlier : list CheckpointRow) :
  (∀ r, r ∈ earlier ++ rows → same_key new r = true →
        row_created_at r ≤ row_created_at new) →
  List.filter (same_key new) (final_from earlier (rows ++ [new])) = [new].
Proof.
  revert earlier. induction rows as [|r rows IH]; intros earlier Hold.
  - cbn [app final_from existsb]. rewrite orb_false_r.
    assert (existsb (λ r', same_key new r' &&
                           (row_created_at new <? row_created_at r')) earlier
            = false) as ->.
    { apply not_true_iff_false. rewrite existsb_exists.
      intros (r' & Hin & Hb). apply andb_true_iff in Hb as [Hk Hlt].
      apply Z.ltb_lt in Hlt. apply list_elem_of_In in Hin.
      specialize (Hold r'). rewrite app_nil_r in Hold.
      specialize (Hold Hin Hk). lia. }
    cbn [List.filter]. by rewrite same_key_refl.
  - cbn [app final_from].
    assert (List.filter (same_key new) (final_from (earlier ++ [r]) (rows ++ [new]))
            = [new]) as Hrest.
    { apply IH. intros r' Hin. apply Hold.
      rewrite <- app_assoc in Hin. exact Hin. }
    destruct (same_key new r) eqn:Hk.
    + assert (existsb (λ r', same_key r r' &&
                             (row_created_at r <=? row_created_at r'))
                      (rows ++ [new]) = true) as ->.
      { apply existsb_exists. exists new. split.
        - apply in_or_app. right. by left.
        - rewrite same_key_sym, Hk. cbn [andb]. apply Z.leb_le.
          apply Hold; [|done]. set_solver. }
      by rewrite orb_true_r.
    + destruct (_ || _); [done|]. cbn [List.filter]. by rewrite Hk.
Qed.

Lemma select_checkpoint_after_put (rows : list CheckpointRow) (new : CheckpointRow) :
  (∀ r, r ∈ rows → same_key new r = true →
        row_created_at r ≤ row_created_at new) →
  select_checkpoint (rows ++ [new]) (row_thread_id new) (row_checkpoint_ns new)
                    (Some (row_checkpoint_id new)) = Some new.
Proof.
  intros Hold. unfold select_checkpoint, final.
  change (same_checkpoint _ _ _) with (same_key new).
  by rewrite final_from_newest.
Qed.

#[local] Instance idx_le_total : Total idx_le.
Proof. intros a b. unfold idx_le. lia. Qed.

Lemma select_writes_sorted (rows : list WriteRow) (thread ns cp : string) :
  Sorted idx_le (select_writes rows thread ns cp) ∧
  select_writes rows thread ns cp ≡ₚ List.filter (write_of thread ns cp) rows.
Proof.
  unfold select_writes. split.
  - apply Sorted_merge_sort, _.
  - apply merge_sort_Permutation.
Qed.

Lemma load_writes_ok (ser : Serializer) (rows : list WriteRow) :
  Forall (λ w, ∃ value, loads_value ser (w_blob w) = Ok value) rows →
  ∃ pending, load_writes ser rows = Ok pending ∧
             Forall2 (loaded_from ser) rows pending.
Proof.
  induction 1 as [|w rows [value Hv] _ (pending & Hp & Hall)]; cbn [load_writes].
  - by exists [].
  - rewrite Hv, Hp. exists ((w_task_id w, w_channel w, value) :: pending).
    split; [done|]. by constructor.
Qed.

(** C8. A checkpoint stored with [put] and fetched at once with
    [get_tuple], under the configuration that [put] returned (the same
    thread, namespace and checkpoint identifier), comes back equal to the
    stored one, in particular in the fields [files], [response] and
    [citations] of its run state; the pending writes of the tuple are the
    writes recorded against that checkpoint, decoded, in ascending order of
    their sequence index.  This holds for identifiers as the system
    generates them (not empty, free of quotes and backslashes), for a
    serializer that can read back what it wrote, and for a server clock that
    is not behind the rows already stored under the same key. *)
Theorem checkpoint_round_trip (ser : Serializer) (clock : Z) (db : Database)
    (cfg : RunnableConfig) (cp : Checkpoint) (meta : gmap string JValue) :
  plain (cfg_thread_id cfg) = true →
  plain (default "" (cfg_checkpoint_ns cfg)) = true →
  plain (cp_id cp) = true →
  cp_id cp ≠ "" →
  loads ser (dumps ser cp) = Ok cp →
  load_metadata ser (metadata_text ser meta) = Ok meta →
  (∀ r, r ∈ checkpoints db →
        same_checkpoint (cfg_thread_id cfg) (default "" (cfg_checkpoint_ns cfg))
                        (cp_id cp) r = true →
        row_created_at r ≤ clock) →
  Forall (λ w, ∃ value, loads_value ser (w_blob w) = Ok value)
         (List.filter (write_of (cfg_thread_id cfg)
                                (default "" (cfg_checkpoint_ns cfg)) (cp_id cp))
                      (checkpoint_writes db)) →
  ∃ t rows,
    get_tuple ser (put ser clock db cfg cp meta).1
              (put ser clock db cfg cp meta).2 = Tuple t ∧
    checkpoint t = cp ∧
    files (channel_values (checkpoint t)) = files (channel_values cp) ∧
    response (channel_values (checkpoint t)) = response (channel_values cp) ∧
    citations (channel_values (checkpoint t)) = citations (channel_values cp) ∧
    metadata t = meta ∧
    config t = (put ser clock db cfg cp meta).2 ∧
    rows ≡ₚ List.filter (write_of (cfg_thread_id cfg)
                                  (default "" (cfg_checkpoint_ns cfg)) (cp_id cp))
                        (checkpoint_writes db) ∧
    Sorted idx_le rows ∧
    Forall2 (loaded_from ser) rows (pending_writes t).
Proof.
  intros Hthread Hns Hid Hne Hload Hmeta Hclock Hwrites.
  set (thread := cfg_thread_id cfg) in *.
  set (ns := default "" (cfg_checkpoint_ns cfg)) in *.
  set (new := {| row_thread_id := thread; row_checkpoint_ns := ns;
                 row_checkpoint_id := cp_id cp;
                 row_parent_checkpoint_id := default "" (cfg_checkpoint_id cfg);
                 row_checkpoint_data := dumps ser cp;
                 row_metadata_data := metadata_text ser meta;
                 row_created_at := clock |}).
  destruct (select_writes_sorted (checkpoint_writes db) thread ns (cp_id cp))
    as [Hsorted Hperm].
  destruct (load_writes_ok ser (select_writes (checkpoint_writes db) thread ns (cp_id cp)))
    as (pending & Hpending & Hall).
  { by rewrite Hperm. }
  assert (select_checkpoint (checkpoints db ++ [new]) thread ns (Some (cp_id cp))
          = Some new) as Hsel.
  { apply (select_checkpoint_after_put (checkpoints db) new).
    intros r Hin Hk. apply Hclock; [done | exact Hk]. }
  eexists _, (select_writes (checkpoint_writes db) thread ns (cp_id cp)).
  unfold get_tuple, put.
  cbn [fst snd cfg_thread_id cfg_checkpoint_ns cfg_checkpoint_id checkpoints
       checkpoint_writes from_option id].
  fold thread ns new.
  apply String.eqb_neq in Hne. rewrite Hne.
  cbn [from_option]. rewrite Hthread, Hns, Hid. cbn [andb negb].
  rewrite Hsel. cbn [row_checkpoint_data row_metadata_data row_checkpoint_id new].
  rewrite Hload, Hmeta, Hid. cbn [negb]. rewrite Hpending.
  repeat split; done.
Qed.

Lemma checkpoint_round_trip_witness :
  ∃ t,
    get_tuple Sample.serializer
      (put Sample.serializer 1700000010 Sample.database Sample.thread1
           Sample.checkpoint1 ∅).1
      (put Sample.serializer 1700000010 Sample.database Sample.thread1
           Sample.checkpoint1 ∅).2 = Tuple t ∧
    checkpoint t = Sample.checkpoint1 ∧
    pending_writes t =
      [("task-a", "thinking", JStr "compute it"); ("task-a", "response", JStr "Done.")].
Proof.
  destruct (checkpoint_round_trip Sample.serializer 1700000010 Sample.database
              Sample.thread1 Sample.checkpoint1 ∅)
    as (t & rows & Hget & Hcp & _);
    [reflexivity | reflexivity | reflexivity | discriminate | reflexivity
    | reflexivity | | |].
  - intros r Hin _. apply list_elem_of_singleton in Hin as ->. vm_compute.
    discriminate.
  - vm_compute. repeat constructor; eexists; reflexivity.
  - exists t. split; [exact Hget|]. split; [exact Hcp|].
    assert (Tuple t = get_tuple Sample.serializer
      (put Sample.serializer 1700000010 Sample.database Sample.thread1
           Sample.checkpoint1 ∅).1
      (put Sample.serializer 1700000010 Sample.database Sample.thread1
           Sample.checkpoint1 ∅).2) as Ht by (symmetry; exact Hget).
    vm_compute in Ht. injection Ht as ->. reflexivity.
Defined.

End CheckpointerFacts.

(** * Further properties *)

(** ** Runs of the workflow *)

Lemma tool_usage_count_after_node (n : Node) (c : Collaborators) (tid : string)
    (s : AgentState) :
  tool_usage_count (apply_update s (run_node n c tid s)) =
    match n with
    | ToolNode => tool_usage_count s + 1
    | _ => tool_usage_count s
    end.
Proof.
  destruct n; try reflexivity.
  - unfold run_node, think_node. by destruct (think_context c s).
  - unfold run_node, execute_node. by destruct (commands s).
  - unfold run_node. by destruct (lesson_node_cases c s) as [-> | [l ->]].
Qed.

Lemma after_think_tool (s : AgentState) :
  after_think s = ToolNode → tool_usage_count s < 3.
Proof.
  unfold after_think. destruct (needs_code s); [done|].
  destruct (names_tool _); [|done].
  destruct (Z.leb_spec 3 (tool_usage_count s)); [done | lia].
Qed.

(** Every step lowers the rank of the configuration. *)
Lemma rank_step (tid : string) (cfg cfg' : Config) :
  step tid cfg cfg' → (rank cfg' < rank cfg)%nat.
Proof.
  inversion 1 as [n s c Hn s']; subst.
  pose proof (iteration_after_node n c tid s) as Hit. fold s' in Hit.
  pose proof (tool_usage_count_after_node n c tid s) as Hcount. fold s' in Hcount.
  unfold rank. cbn [fst snd].
  destruct n; cbn beta iota in Hit, Hcount; cbn [next_node]; try lia; try done.
  - destruct (after_think_cases s') as [Hto | [Hto | Hto]]; rewrite Hto.
    + lia.
    + apply after_think_tool in Hto. lia.
    + lia.
  - destruct (after_execute_cases s') as [Hto | (Hto & _ & Hlt)]; rewrite Hto; lia.
Qed.

Lemma rank_nsteps (tid : string) (n : nat) (cfg cfg' : Config) :
  nsteps (step tid) n cfg cfg' → (n + rank cfg' ≤ rank cfg)%nat.
Proof.
  induction 1 as [|n x y z Hxy _ IH]; [lia|].
  apply rank_step in Hxy. lia.
Qed.

(** X1. No run goes on for ever.  A run that has made [n] steps from a
    configuration has [n] at most the rank of that configuration, and from
    the front end's input, whatever the collaborators answer, no run makes
    more than 18 steps.  (A node that raises ends the run at once; such a
    run is the beginning of one counted here.) *)
Theorem runs_are_bounded (tid : string) :
  (∀ n cfg cfg', nsteps (step tid) n cfg cfg' → (n ≤ rank cfg)%nat) ∧
  (∀ n prompt past facts cfg',
     nsteps (step tid) n (initial (initial_params prompt past facts)) cfg' →
     (n ≤ 18)%nat).
Proof.
  split.
  - intros n cfg cfg' Hrun. apply rank_nsteps in Hrun. lia.
  - intros n prompt past facts cfg' Hrun. apply rank_nsteps in Hrun.
    change (rank (initial (initial_params prompt past facts))) with 18%nat in Hrun.
    lia.
Qed.

Lemma runs_are_bounded_witness :
  let c := Sample.collaborators Sample.wants_code Sample.one_script
                                Sample.clean_transcript in
  let s0 := initial_params "print 1+1" [] [] in
  let s1 := apply_update s0 (run_node Think c "t1" s0) in
  let s2 := apply_update s1 (run_node GenerateCode c "t1" s1) in
  nsteps (step "t1") 2 (initial s0) (Execute, s2) ∧ (2 ≤ 18)%nat.
Proof.
  intros c s0 s1 s2.
  assert (nsteps (step "t1") 2 (initial s0) (Execute, s2)) as Hrun.
  { apply (nsteps_l _ _ _ (GenerateCode, s1)).
    - apply (step_node "t1" Think s0 c). discriminate.
    - apply nsteps_once. apply (step_node "t1" GenerateCode s1 c). discriminate. }
  split; [exact Hrun|].
  destruct (runs_are_bounded "t1") as (_ & Hfront).
  exact (Hfront 2%nat "print 1+1" [] [] (Execute, s2) Hrun).
Defined.

Lemma tool_count_inv_step (tid : string) (cfg cfg' : Config) :
  tool_count_inv cfg → step tid cfg cfg' → tool_count_inv cfg'.
Proof.
  intros [Hle Htool]. inversion 1 as [n s c Hn s']; subst.
  pose proof (tool_usage_count_after_node n c tid s) as Hcount. fold s' in Hcount.
  unfold tool_count_inv in *. cbn [fst snd] in *.
  destruct n; cbn beta iota in Hcount; cbn [next_node]; try (split; [lia | done]).
  - split; [lia|]. intros Hto. apply after_think_tool in Hto. lia.
  - specialize (Htool eq_refl). split; [lia | done].
  - split; [lia|]. intros Hto.
    destruct (after_execute_cases s') as [Hx | (Hx & _)]; congruence.
Qed.

(** X2. The tool budget.  Along a run whose input has a tool count of at
    most 3 (the front end starts at 0) the count never exceeds 3, the tool
    node is only ever entered with a count below 3, and a step changes the
    count only at the tool node, by exactly 1. *)
Theorem tool_usage_count_bounded (tid : string) (input : AgentState) (cfg : Config) :
  tool_usage_count input ≤ 3 →
  rtc (step tid) (initial input) cfg →
  tool_usage_count cfg.2 ≤ 3 ∧
  (cfg.1 = ToolNode → tool_usage_count cfg.2 < 3) ∧
  (∀ cfg', step tid cfg cfg' →
     tool_usage_count cfg'.2 =
       if decide (cfg.1 = ToolNode) then tool_usage_count cfg.2 + 1
       else tool_usage_count cfg.2).
Proof.
  intros Hinput Hrun.
  assert (tool_count_inv cfg) as [Hle Htool].
  { revert cfg Hrun. apply (rtc_ind_r tool_count_inv).
    - split; [done | discriminate].
    - intros y z _ Hyz IH. by eapply tool_count_inv_step. }
  split; [done|]. split.
  - intros Hto. specialize (Htool Hto). lia.
  - inversion 1 as [n s c Hn s']; subst. subst s'. cbn [fst snd].
    rewrite (tool_usage_count_after_node n c tid s).
    destruct n; by case_decide.
Qed.

Lemma tool_usage_count_bounded_witness :
  let c := Sample.collaborators Sample.wants_sql Sample.no_code
                                Sample.clean_transcript in
  let s0 := initial_params "how many runs failed?" [] [] in
  let s1 := apply_update s0 (run_node Think c "t1" s0) in
  next_node Think s1 = ToolNode ∧ tool_usage_count s1 < 3.
Proof.
  intros c s0 s1. split; [reflexivity|].
  destruct (tool_usage_count_bounded "t1" s0 (ToolNode, s1)) as (_ & Hlt & _).
  - vm_compute. discriminate.
  - apply rtc_once. apply (step_node "t1" Think s0 c). discriminate.
  - apply Hlt. reflexivity.
Defined.

Lemma apply_update_grows (s : AgentState) (u : Update) :
  execution_logs s `prefix_of` execution_logs (apply_update s u) ∧
  reflections s `prefix_of` reflections (apply_update s u) ∧
  dom (files s) ⊆ dom (files (apply_update s u)).
Proof.
  cbn [apply_update execution_logs reflections files]. unfold reduce, add, ior.
  split; [|split].
  - destruct (u_execution_logs u); [by apply prefix_app_r | done].
  - destruct (u_reflections u); [by apply prefix_app_r | done].
  - destruct (u_files u); [|done]. rewrite dom_union. set_solver.
Qed.

(** X3. Nothing is lost along a run.  Between any two configurations of a
    run the transcript and the list of critiques only grow at their end,
    and a file name once in [files] stays there. *)
Theorem run_state_accumulates (tid : string) (cfg cfg' : Config) :
  rtc (step tid) cfg cfg' →
  execution_logs cfg.2 `prefix_of` execution_logs cfg'.2 ∧
  reflections cfg.2 `prefix_of` reflections cfg'.2 ∧
  dom (files cfg.2) ⊆ dom (files cfg'.2).
Proof.
  induction 1 as [cfg | x y z Hxy _ (IH1 & IH2 & IH3)]; [done|].
  inversion Hxy as [n s c Hn s']; subst. cbn [fst snd] in *.
  destruct (apply_update_grows s (run_node n c tid s)) as (H1 & H2 & H3).
  fold s' in H1, H2, H3. split; [|split].
  - by etrans.
  - by etrans.
  - set_solver.
Qed.

Lemma run_state_accumulates_witness :
  let c := Sample.collaborators Sample.wants_code Sample.one_script
                                Sample.clean_transcript in
  let s := Sample.second_turn in
  let s' := apply_update s (run_node GenerateCode c "t1" s) in
  execution_logs s `prefix_of` execution_logs s' ∧
  reflections s `prefix_of` reflections s' ∧
  dom (files s) ⊆ dom (files s').
Proof.
  intros c s s'.
  apply (run_state_accumulates "t1" (GenerateCode, s) (Execute, s')).
  apply rtc_once. apply (step_node "t1" GenerateCode s c). discriminate.
Defined.

Lemma reflections_after_node (n : Node) (c : Collaborators) (tid : string)
    (s : AgentState) :
  Z.of_nat (length (reflections (apply_update s (run_node n c tid s)))) =
    match n with
    | Reflect => Z.of_nat (length (reflections s)) + 1
    | _ => Z.of_nat (length (reflections s))
    end.
Proof.
  destruct n; try reflexivity.
  - unfold run_node, think_node. destruct (think_context c s).
    cbn. unfold add. by rewrite app_nil_r.
  - unfold run_node, execute_node. by destruct (commands s).
  - cbn. unfold add. rewrite length_app. cbn. lia.
  - unfold run_node. by destruct (lesson_node_cases c s) as [-> | [l ->]].
Qed.

Lemma critiques_inv_first (tid : string) (input : AgentState) (cfg : Config) :
  reflections input = [] →
  step tid (initial input) cfg → critiques_inv cfg.
Proof.
  intros Hnone. unfold initial. inversion 1 as [n s c Hn s']; subst.
  pose proof (iteration_after_node Think c tid input) as Hit.
  pose proof (reflections_after_node Think c tid input) as Hre.
  fold s' in Hit, Hre. cbn beta iota in Hit, Hre. rewrite Hnone in Hre.
  unfold critiques_inv. cbn [fst snd next_node length] in *.
  destruct (after_think_cases s') as [-> | [-> | ->]]; lia.
Qed.

Lemma critiques_inv_step (tid : string) (cfg cfg' : Config) :
  iteration_inv cfg → critiques_inv cfg → step tid cfg cfg' → critiques_inv cfg'.
Proof.
  intros Hiter Hinv. inversion 1 as [n s c Hn s']; subst.
  pose proof (iteration_after_node n c tid s) as Hit.
  pose proof (reflections_after_node n c tid s) as Hre.
  fold s' in Hit, Hre.
  unfold critiques_inv, iteration_inv in *. cbn [fst snd] in *.
  destruct n; cbn beta iota in Hit, Hre, Hinv, Hiter; cbn [next_node];
    try lia; try done.
  - destruct (after_think_cases s') as [-> | [-> | ->]]; lia.
  - destruct (after_execute_cases s') as [Hto | (Hto & _ & Hlt)]; rewrite Hto.
    + apply after_execute_spec in Hto. split; [lia|].
      destruct Hto as [Hs | Hge]; [by left | right; lia].
    + lia.
Qed.

(** X4. Critiques and cycles.  In a run whose input holds no critique, as
    the front end's does, the run state never holds more than two
    critiques; whenever code is about to be generated the number of
    critiques equals the number of cycles already made; and the run stands
    at the synthesis only with a solved state or after exactly three
    cycles. *)
Theorem critiques_follow_cycles (tid : string) (input : AgentState)
    (first cfg : Config) :
  reflections input = [] →
  step tid (initial input) first →
  rtc (step tid) first cfg →
  (length (reflections cfg.2) ≤ 2)%nat ∧
  (cfg.1 = GenerateCode → Z.of_nat (length (reflections cfg.2)) = iteration cfg.2) ∧
  (cfg.1 = Synthesize → is_solved cfg.2 = true ∨ iteration cfg.2 = 3).
Proof.
  intros Hnone Hfirst Hrun.
  assert (iteration_inv cfg ∧ critiques_inv cfg) as [Hiter Hinv].
  { revert cfg Hrun.
    apply (rtc_ind_r (λ cfg, iteration_inv cfg ∧ critiques_inv cfg)).
    - split; [by eapply iteration_inv_first | by eapply critiques_inv_first].
    - intros y z _ Hyz [IH1 IH2]. split.
      + by eapply iteration_inv_step.
      + by eapply critiques_inv_step. }
  unfold iteration_inv, critiques_inv in *.
  destruct cfg as [n s]. cbn [fst snd] in *.
  destruct n; cbn beta iota in Hiter, Hinv;
    (split; [lia | split; [intros [=]; lia | intros [=]; tauto]]).
Qed.

Lemma critiques_follow_cycles_witness :
  let c := Sample.collaborators Sample.wants_code Sample.one_script
                                Sample.failed_transcript in
  let s0 := initial_params "print 1+1" [] [] in
  let s1 := apply_update s0 (run_node Think c "t1" s0) in
  let s2 := apply_update s1 (run_node GenerateCode c "t1" s1) in
  let s3 := apply_update s2 (run_node Execute c "t1" s2) in
  let s4 := apply_update s3 (run_node Reflect c "t1" s3) in
  next_node Reflect s4 = GenerateCode ∧
  Z.of_nat (length (reflections s4)) = iteration s4 ∧ iteration s4 = 1.
Proof.
  intros c s0 s1 s2 s3 s4. split; [reflexivity|].
  split; [|reflexivity].
  destruct (critiques_follow_cycles "t1" s0 (GenerateCode, s1) (GenerateCode, s4))
    as (_ & Hgen & _).
  - reflexivity.
  - apply (step_node "t1" Think s0 c). discriminate.
  - eapply rtc_l; [apply (step_node "t1" GenerateCode s1 c); discriminate|].
    eapply rtc_l; [apply (step_node "t1" Execute s2 c); discriminate|].
    apply rtc_once. apply (step_node "t1" Reflect s3 c). discriminate.
  - apply Hgen. reflexivity.
Defined.

(** X5. After a tool call the reasoning step works on the tool's reply.
    The tool node stores ["Tool '<name>' result:"] and the reply as
    [rag_context], sets the tool choice to ["none"] and hands over to
    [Think]; that context is never empty, so the next [think_node] keeps it
    and the memories of the state, and does not call the retrieval. *)
Theorem think_after_tool (c c' : Collaborators) (s : AgentState) :
  let s' := apply_update s (tool_node c s) in
  rag_context s' =
    "Tool '" +:+ tool_choice s +:+ "' result:" +:+ PyStr.nl
      +:+ run_tool c (tool_choice s) (tool_args s) ∧
  tool_choice s' = "none" ∧
  next_node ToolNode s' = Think ∧
  think_context c' s' = (rag_context s', memory s) ∧
  u_rag_context (think_node c' s') = Some (rag_context s').
Proof.
  intros s'. subst s'. repeat split.
Qed.

Lemma stdout_accum_fold (logs : list LogEntry) (acc : Scan) :
  stdout_accum (fold_left scan_log logs acc) = stdout_accum acc ++ stdout_lines logs ∧
  stderr_accum (fold_left scan_log logs acc) = stderr_accum acc ++ stderr_lines logs.
Proof.
  revert acc. induction logs as [|log logs IH]; intros acc.
  - unfold stdout_lines, stderr_lines. cbn. by rewrite !app_nil_r.
  - cbn [fold_left]. destruct (IH (scan_log acc log)) as [-> ->].
    unfold stdout_lines, stderr_lines, scan_log. cbn [List.filter].
    destruct (String.eqb (ltype log) "error") eqn:He.
    { apply String.eqb_eq in He. rewrite He. cbn. by rewrite <- app_assoc. }
    destruct (String.eqb (ltype log) "stdout") eqn:Ho.
    { apply String.eqb_eq in Ho. rewrite Ho. cbn. by rewrite <- app_assoc. }
    destruct (String.eqb (ltype log) "stderr") eqn:Hr; cbn; [|done].
    by rewrite <- app_assoc.
Qed.

(** X6. What [execute_node] reports besides [is_solved].  When there are
    commands to run, [execution_result] is the content of the [stdout]
    lines of the transcript, in order, joined by line feeds;
    [execution_error] is the same for the [error] and [stderr] lines; the
    artifacts are passed on as [retrieved_files]; and the metrics call
    carries the same verdict as the update. *)
Theorem execute_node_report (c : Collaborators) (tid : string) (s : AgentState) :
  commands s ≠ [] →
  let result := sandbox_execute_batch c (files s) (commands s) in
  let r := execute_node c tid s in
  u_execution_result r.2 = Some (PyStr.join PyStr.nl (stdout_lines (sb_logs result))) ∧
  u_execution_error r.2 = Some (PyStr.join PyStr.nl (stderr_lines (sb_logs result))) ∧
  u_retrieved_files r.2 = Some (sb_artifacts result) ∧
  ∃ solved error_type error_message,
    u_is_solved r.2 = Some solved ∧
    r.1 = [SandboxRun (files s) (commands s);
           LogExecution (PyStr.take 500 (task s)) solved error_type error_message
                        (iteration s) tid] ∧
    error_type = (if solved then "" else "runtime_error") ∧
    error_message =
      PyStr.take 500 (PyStr.join PyStr.nl (stderr_lines (sb_logs result))).
Proof.
  intros Hcmds result r. subst r. unfold execute_node.
  destruct (commands s) as [|cmd cmds] eqn:Hc; [done|]. fold result.
  cbn [fst snd u_execution_result u_execution_error u_retrieved_files u_is_solved].
  unfold scan_logs.
  destruct (stdout_accum_fold (sb_logs result)
              {| has_errors := false; stdout_accum := []; stderr_accum := [] |})
    as [-> ->]. cbn [stdout_accum stderr_accum app].
  repeat split. eexists _, _, _. repeat split.
  by destruct (has_errors _).
Qed.

Lemma execute_node_report_witness :
  let c := Sample.collaborators Sample.wants_code Sample.one_script
                                Sample.failed_transcript in
  let s := Sample.at_execute 1 ["python3 main.py"] in
  u_execution_result (execute_node c "t1" s).2 = Some "" ∧
  u_execution_error (execute_node c "t1" s).2 =
    Some ("NameError: name 'x' is not defined" +:+ PyStr.nl +:+ "Exit code 1").
Proof.
  intros c s.
  destruct (execute_node_report c "t1" s) as (H1 & H2 & _); [discriminate|].
  split; [exact H1 | exact H2].
Defined.

(** ** Reading, writing and editing files *)

Module FileToolsMore.
Import FileTools.

Lemma join_empty_cons (c : Ascii.ascii) (l : string) (ls : list string) :
  PyStr.join "" (String c l :: ls) = String c (PyStr.join "" (l :: ls)).
Proof. by destruct ls. Qed.

Lemma join_empty_app (l1 l2 : list string) :
  PyStr.join "" (l1 ++ l2) = PyStr.join "" l1 +:+ PyStr.join "" l2.
Proof.
  induction l1 as [|x l1 IH]; [done|].
  destruct l1 as [|y l1].
  - cbn [app]. destruct l2 as [|z l2]; [by rewrite PyStrFacts.app_nil_r | done].
  - change (PyStr.join "" ((x :: y :: l1) ++ l2))
      with (x +:+ "" +:+ PyStr.join "" ((y :: l1) ++ l2)).
    rewrite IH. change (PyStr.join "" (x :: y :: l1))
      with (x +:+ "" +:+ PyStr.join "" (y :: l1)).
    by rewrite !PyStrFacts.app_assoc.
Qed.

(** The lines of a text, put together again, are the text. *)
Lemma join_readlines (s : string) : PyStr.join "" (readlines s) = s.
Proof.
  induction s as [|c s IH]; [done|]. cbn [readlines].
  destruct (Ascii.eqb c (Ascii.ascii_of_nat 10)).
  - rewrite join_empty_cons. destruct (readlines s); cbn in *; by rewrite IH.
  - destruct (readlines s) as [|l ls]; [cbn in *; by rewrite <- IH|].
    by rewrite join_empty_cons, IH.
Qed.

Lemma slice_all {A} (l : list A) : slice l 0 (Z.of_nat (length l)) = l.
Proof.
  unfold slice. rewrite Z.sub_0_r, Nat2Z.id.
  change (Z.to_nat 0) with 0%nat. rewrite drop_0. by rewrite firstn_all.
Qed.

Lemma slice_split {A} (l : list A) (k : Z) :
  0 ≤ k ≤ Z.of_nat (length l) →
  slice l 0 k ++ slice l k (Z.of_nat (length l)) = l.
Proof.
  intros Hk. unfold slice. rewrite Z.sub_0_r.
  change (Z.to_nat 0) with 0%nat. rewrite drop_0.
  rewrite (take_ge (drop (Z.to_nat k) l)) by (rewrite length_drop; lia).
  apply take_drop.
Qed.

(** X7. Reading a whole file returns its content: the text is cut into
    lines and the lines are put together without loss, whatever the text
    (with or without a final line feed, with empty lines). *)
Theorem read_file_whole (fs : FS) (path content : string) :
  fs !! path = Some (File content) →
  read_file fs path None None = content ∧
  PyStr.join "" (readlines content) = content.
Proof.
  intros Hfile. split; [|apply join_readlines].
  unfold read_file, path_exists, open_read. rewrite Hfile. cbn [negb given orb].
  set (total := Z.of_nat (length (readlines content))).
  replace (Z.max 0 (Z.min 0 total)) with 0 by lia.
  replace (Z.max 0 (Z.min total total)) with total by lia.
  unfold total. by rewrite slice_all, join_readlines.
Qed.

Lemma read_file_whole_witness :
  read_file Sample.workdir "main.py" None None = "x = 1".
Proof.
  apply (read_file_whole Sample.workdir "main.py" "x = 1"). reflexivity.
Defined.

(** X8. Reading a file in two consecutive ranges loses nothing: for a line
    [k] inside the file, the lines 1 to [k] and the lines from [k+1] on,
    each returned under a header that names the range and the line count,
    make up the content. *)
Theorem read_file_in_two_ranges (fs : FS) (path content : string) (k : Z) :
  fs !! path = Some (File content) →
  1 ≤ k < Z.of_nat (length (readlines content)) →
  ∃ first rest,
    read_file fs path (Some 1) (Some k) =
      "--- " +:+ path +:+ " (1-" +:+ pretty k +:+ "/"
        +:+ pretty (Z.of_nat (length (readlines content))) +:+ ") ---"
        +:+ PyStr.nl +:+ first ∧
    read_file fs path (Some (k + 1)) None =
      "--- " +:+ path +:+ " (" +:+ pretty (k + 1) +:+ "-"
        +:+ pretty (Z.of_nat (length (readlines content))) +:+ "/"
        +:+ pretty (Z.of_nat (length (readlines content))) +:+ ") ---"
        +:+ PyStr.nl +:+ rest ∧
    first +:+ rest = content.
Proof.
  intros Hfile Hk. set (lines := readlines content) in *.
  set (total := Z.of_nat (length lines)) in *.
  exists (PyStr.join "" (slice lines 0 k)), (PyStr.join "" (slice lines k total)).
  split; [|split].
  - unfold read_file, path_exists, open_read. rewrite Hfile. cbn [negb given].
    fold lines total.
    destruct (Z.eqb_spec 1 0) as [|_]; [lia|].
    destruct (Z.eqb_spec k 0) as [|_]; [lia|]. cbn [negb orb from_option id].
    replace (Z.max 0 (Z.min (1 - 1) total)) with 0 by lia.
    replace (Z.max 0 (Z.min k total)) with k by lia. done.
  - unfold read_file, path_exists, open_read. rewrite Hfile. cbn [negb given].
    fold lines total.
    destruct (Z.eqb_spec (k + 1) 0) as [|_]; [lia|]. cbn [negb orb from_option id].
    replace (Z.max 0 (Z.min (k + 1 - 1) total)) with k by lia.
    replace (Z.max k (Z.min total total)) with total by lia. done.
  - rewrite <- join_empty_app. unfold total.
    rewrite slice_split by (fold total; lia). apply join_readlines.
Qed.

Lemma read_file_in_two_ranges_witness :
  ∃ first rest,
    read_file {[ "f" := File ("a" +:+ PyStr.nl +:+ "b" +:+ PyStr.nl +:+ "c") ]}
              "f" (Some 1) (Some 2)
      = "--- f (1-2/3) ---" +:+ PyStr.nl +:+ first ∧
    read_file {[ "f" := File ("a" +:+ PyStr.nl +:+ "b" +:+ PyStr.nl +:+ "c") ]}
              "f" (Some 3) None
      = "--- f (3-3/3) ---" +:+ PyStr.nl +:+ rest ∧
    first +:+ rest = "a" +:+ PyStr.nl +:+ "b" +:+ PyStr.nl +:+ "c".
Proof.
  destruct (read_file_in_two_ranges
              {[ "f" := File ("a" +:+ PyStr.nl +:+ "b" +:+ PyStr.nl +:+ "c") ]}
              "f" ("a" +:+ PyStr.nl +:+ "b" +:+ PyStr.nl +:+ "c") 2)
    as (first & rest & H1 & H2 & H3);
    [reflexivity | vm_compute; split; [discriminate | reflexivity] |].
  exists first, rest. split; [exact H1 | split; [exact H2 | exact H3]].
Defined.

Lemma read_back (fs : FS) (path content : string) :
  read_file (<[path := File content]> fs) path None None = content.
Proof.
  unfold read_file, path_exists, open_read. rewrite lookup_insert_eq.
  cbn [negb given orb].
  set (total := Z.of_nat (length (readlines content))).
  replace (Z.max 0 (Z.min 0 total)) with 0 by lia.
  replace (Z.max 0 (Z.min total total)) with total by lia.
  unfold total. by rewrite slice_all, join_readlines.
Qed.

(** X9. A text without carriage return that is written can be read back.
    When the parent directories can be made and the path then names no
    directory and no protected file, [write_file] reports the number of
    characters written, and a following [read_file] of the path returns the
    content.  (Text mode would give a carriage return back as a line
    feed.) *)
Theorem write_then_read (makedirs : FS → string → result FS) (fs fs1 : FS)
    (path content : string) :
  Ascii.ascii_of_nat 13 ∉ String.list_ascii_of_string content →
  makedirs fs path = Ok fs1 →
  fs1 !! path ≠ Some Dir → fs1 !! path ≠ Some Denied →
  let r := write_file makedirs fs path content in
  r.2 = "Successfully wrote " +:+ pretty (String.length content)
          +:+ " chars to " +:+ path ∧
  read_file r.1 path None None = content.
Proof.
  intros _ Hmk Hdir Hden r. subst r. unfold write_file, open_write. rewrite Hmk.
  destruct (fs1 !! path) as [[text| |]|] eqn:Hp; try done; cbn [fst snd];
    (split; [done|]); apply read_back.
Qed.

Lemma write_then_read_witness :
  read_file (write_file (λ fs _, Ok fs) Sample.workdir "notes.txt" "remember").1
            "notes.txt" None None = "remember".
Proof.
  destruct (write_then_read (λ fs _, Ok fs) Sample.workdir Sample.workdir
              "notes.txt" "remember") as (_ & Hread);
    [rewrite list_elem_of_In; cbn; intuition discriminate | reflexivity
    | vm_compute; discriminate | vm_compute; discriminate |].
  exact Hread.
Defined.

(** X10. [edit_file] creates nothing.  Whatever the arguments and whatever
    it reports, the paths that name something are the same afterwards; and
    on a path that names no readable file (nothing, a directory, a protected
    file) it changes nothing at all and its report starts with ["Error"]. *)
Theorem edit_file_creates_nothing (fs : FS) (path old_text new_text : string) :
  dom (edit_file fs path old_text new_text).1 = dom fs ∧
  ((∀ content, fs !! path ≠ Some (File content)) →
   (edit_file fs path old_text new_text).1 = fs ∧
   PyStr.startswith (edit_file fs path old_text new_text).2 "Error" = true).
Proof.
  unfold edit_file, path_exists, open_read, open_write.
  destruct (fs !! path) as [[content| |]|] eqn:Hp; cbn [negb fst snd]; try done.
  split.
  - destruct (PyStr.contains old_text content); cbn [negb fst].
    + by apply dom_insert_lookup_L.
    + by destruct (PyStr.contains (PyStr.strip old_text) content).
  - intros Hnone. by destruct (Hnone content).
Qed.

Lemma replace_first_same (old s : string) : PyStr.replace_first old old s = s.
Proof.
  destruct (PyStr.contains old s) eqn:Hc.
  - destruct (PyStrFacts.replace_first_spec old old s Hc)
      as (pre & post & [Heq _] & ->). by rewrite Heq.
  - by apply PyStrFacts.replace_first_absent.
Qed.

(** X11. Replacing a text by itself changes nothing: when [old_text] occurs
    in the file, [edit_file] with [new_text] equal to [old_text] reports
    success and leaves the file system as it was. *)
Theorem edit_file_same_text (fs : FS) (path content text : string) :
  fs !! path = Some (File content) →
  PyStr.occurs_in text content →
  edit_file fs path text text = (fs, "Successfully edited " +:+ path).
Proof.
  intros Hfile Hocc. apply PyStrFacts.contains_spec in Hocc.
  unfold edit_file, path_exists, open_read, open_write.
  rewrite Hfile, Hocc. cbn [negb]. rewrite replace_first_same.
  by rewrite insert_id.
Qed.

Lemma edit_file_same_text_witness :
  edit_file Sample.workdir "main.py" "x" "x" =
    (Sample.workdir, "Successfully edited main.py").
Proof.
  apply (edit_file_same_text Sample.workdir "main.py" "x = 1" "x").
  - reflexivity.
  - apply PyStrFacts.contains_spec. vm_compute. reflexivity.
Defined.

(** X12. An edit shows when the file is read again.  On a file and with a
    new text that hold no carriage return, after an edit that found
    [old_text] the file reads as its new content, the new text occurs in it,
    and it is as long as the old content with [old_text] traded for
    [new_text]. *)
Theorem edit_then_read (fs : FS) (path content old_text new_text : string) :
  Ascii.ascii_of_nat 13 ∉ String.list_ascii_of_string content →
  Ascii.ascii_of_nat 13 ∉ String.list_ascii_of_string new_text →
  fs !! path = Some (File content) →
  PyStr.occurs_in old_text content →
  let after := read_file (edit_file fs path old_text new_text).1 path None None in
  after = PyStr.replace_first old_text new_text content ∧
  PyStr.occurs_in new_text after ∧
  (String.length after + String.length old_text =
     String.length content + String.length new_text)%nat.
Proof.
  intros _ _ Hfile Hocc after. subst after.
  apply PyStrFacts.contains_spec in Hocc.
  unfold edit_file, path_exists, open_read, open_write.
  rewrite Hfile, Hocc. cbn [negb fst]. rewrite read_back.
  destruct (PyStrFacts.replace_first_spec old_text new_text content Hocc)
    as (pre & post & [Heq _] & ->).
  split; [done|]. split; [by exists pre, post|].
  rewrite Heq, !PyStrFacts.length_app. lia.
Qed.

Lemma edit_then_read_witness :
  read_file (edit_file Sample.workdir "main.py" "1" "2").1 "main.py" None None
    = "x = 2".
Proof.
  destruct (edit_then_read Sample.workdir "main.py" "x = 1" "1" "2")
    as (Hread & _);
    [rewrite list_elem_of_In; cbn; intuition discriminate
    | rewrite list_elem_of_In; cbn; intuition discriminate | reflexivity | |].
  - apply PyStrFacts.contains_spec. vm_compute. reflexivity.
  - exact Hread.
Defined.

End FileToolsMore.

(** ** The dispatcher and the files *)

Module ToolsMore.
Import FileTools Tools.

Lemma length_take (n : nat) (s : string) :
  String.length (PyStr.take n s) = (n `min` String.length s)%nat.
Proof.
  revert s. induction n as [|n IH]; intros [|c s]; cbn; [done..|].
  by rewrite IH.
Qed.

Lemma take_prefix (n : nat) (s : string) :
  ∃ rest, s = PyStr.take n s +:+ rest.
Proof.
  revert s. induction n as [|n IH]; intros s.
  - by exists s.
  - destruct s as [|c s]; [by exists ""|].
    destruct (IH s) as [rest Hrest]. exists rest. cbn [PyStr.take].
    rewrite PyStrFacts.app_cons. by rewrite <- Hrest.
Qed.

Lemma truncated_length (text : string) :
  Z.of_nat (String.length (truncated text)) ≤ 5016 ∧
  (Z.of_nat (String.length text) ≤ 5000 → truncated text = text) ∧
  (5000 < Z.of_nat (String.length text) →
     truncated text = PyStr.take 5000 text +:+ PyStr.nl +:+ "... (truncated)").
Proof.
  unfold truncated.
  assert (Z.of_nat 5000 = 5000) as Hcap by (vm_compute; reflexivity).
  destruct (Nat.ltb_spec 5000 (String.length text)) as [Hlt | Hle].
  - split; [|split; [lia | done]].
    rewrite !PyStrFacts.length_app, length_take.
    change (String.length PyStr.nl) with 1%nat.
    change (String.length "... (truncated)") with 15%nat. lia.
  - split; [lia|]. split; [done | lia].
Qed.

(** X13. The reply of the query tool is bounded.  When the query returns
    rows without error, the dispatcher's reply is the JSON text of the rows
    if that has at most 5000 characters, and otherwise its first 5000
    characters followed by a line feed and ["... (truncated)"]; so it never
    has more than 5016 characters, and the files are not touched. *)
Theorem sql_reply_is_bounded (h : Host) (d : gmap string JValue) (fs : FS)
    (query : JValue) (row : gmap string JValue) (rows : list (gmap string JValue))
    (text : string) :
  d !! "query" = Some query → truthy query = true →
  db_query h query = row :: rows → row !! "error" = None →
  json_dumps h (row :: rows) = Ok text →
  ∃ reply,
    execute_tool h "sql_db" (PDict d) fs = (fs, Ok reply) ∧
    Z.of_nat (String.length reply) ≤ 5016 ∧
    (Z.of_nat (String.length text) ≤ 5000 → reply = text) ∧
    (5000 < Z.of_nat (String.length text) →
       reply = PyStr.take 5000 text +:+ PyStr.nl +:+ "... (truncated)").
Proof.
  intros Hq Ht Hrows Herr Hdumps. exists (truncated text). split.
  - unfold execute_tool, dispatch, with_arg, get.
    cbn [String.eqb Ascii.eqb Bool.eqb]. rewrite Hq. cbn [from_option id].
    rewrite Ht, Hrows, Herr, Hdumps. done.
  - apply truncated_length.
Qed.

Lemma sql_reply_is_bounded_witness :
  ∃ reply,
    execute_tool Samples.counting_host "sql_db"
                 (PDict {[ "query" := JStr "SELECT 1 AS n" ]}) ∅ = (∅, Ok reply) ∧
    Z.of_nat (String.length reply) ≤ 5016.
Proof.
  destruct (sql_reply_is_bounded Samples.counting_host
              {[ "query" := JStr "SELECT 1 AS n" ]} ∅ (JStr "SELECT 1 AS n")
              {[ "n" := JInt 1 ]} [] "[[1]]")
    as (reply & Hrun & Hlen & _); try reflexivity.
  exists reply. split; [exact Hrun | exact Hlen].
Defined.

Lemma with_arg_keeps (args : JValue) (key : string) (fs : FS)
    (k : JValue → FS * result string) :
  (∀ v, (k v).1 = fs) → (with_arg args key fs k).1 = fs.
Proof. intros Hk. unfold with_arg. by destruct (get args key). Qed.

Lemma dispatch_query_keeps (h : Host) (tool_name : string) (args : JValue) (fs : FS) :
  tool_name = "sql_db" ∨ tool_name = "rag_search" ∨ tool_name = "search_documents" →
  (dispatch h tool_name args fs).1 = fs.
Proof.
  intros [-> | [-> | ->]]; unfold dispatch; cbn [String.eqb Ascii.eqb Bool.eqb];
    apply with_arg_keeps; intros query; destruct (truthy query); cbn [negb]; try done.
  - destruct (db_query h query) as [|row rows]; [done|].
    destruct (row !! "error"); [done|]. by destruct (json_dumps h _).
  - by destruct (retrieve_similar h query).
  - by destruct (retrieve_documents h query).
Qed.

(** X14. The query tools are read-only for the host's files.  Whatever the
    payload and whatever the stores answer, a call of [sql_db],
    [rag_search] or [search_documents], and a call of a tool the dispatcher
    does not know, return with every file as it was. *)
Theorem query_tools_keep_files (h : Host) (tool_name : string)
    (args_json : Payload) (fs : FS) :
  tool_name = "sql_db" ∨ tool_name = "rag_search" ∨
  tool_name = "search_documents" ∨ tool_name ∉ tool_names →
  (execute_tool h tool_name args_json fs).1 = fs.
Proof.
  intros Htool.
  assert (∀ args, (dispatch h tool_name args fs).1 = fs) as Hkeep.
  { intros args. destruct Htool as [H | [H | [H | H]]];
      [apply dispatch_query_keeps; tauto .. |].
    by rewrite ToolsFacts.dispatch_unknown. }
  destruct args_json as [text | d]; cbn [execute_tool].
  - destruct (json_loads h text); [|done]. apply Hkeep.
  - apply Hkeep.
Qed.

Lemma query_tools_keep_files_witness :
  (execute_tool Sample.host "sql_db" (PDict {[ "query" := JStr "DROP TABLE t" ]})
                Sample.workdir).1 = Sample.workdir.
Proof.
  apply (query_tools_keep_files Sample.host "sql_db"). by left.
Defined.

(** X15. Writing and reading through the dispatcher.  A [write_file] call
    with a path and a content without carriage return, on a host where the
    parent directories can be made and the path names no directory and no
    protected file, followed by a [read_file] call with that path, returns
    the content that was written. *)
Theorem dispatcher_write_then_read (h : Host) (fs fs1 : FS) (path content : string) :
  Ascii.ascii_of_nat 13 ∉ String.list_ascii_of_string content →
  path ≠ "" →
  makedirs h fs path = Ok fs1 →
  fs1 !! path ≠ Some Dir → fs1 !! path ≠ Some Denied →
  let written :=
    execute_tool h "write_file"
                 (PDict {[ "path" := JStr path; "content" := JStr content ]}) fs in
  written.2 = Ok ("Successfully wrote " +:+ pretty (String.length content)
                    +:+ " chars to " +:+ path) ∧
  (execute_tool h "read_file" (PDict {[ "path" := JStr path ]}) written.1).2
    = Ok content.
Proof.
  intros _ Hne Hmk Hdir Hden. apply String.eqb_neq in Hne.
  set (d := {[ "path" := JStr path; "content" := JStr content ]} : gmap string JValue).
  assert (d !! "path" = Some (JStr path)) as Hp by reflexivity.
  assert (d !! "content" = Some (JStr content)) as Hc by reflexivity.
  clearbody d.
  set (d' := {[ "path" := JStr path ]} : gmap string JValue).
  assert (d' !! "path" = Some (JStr path)) as Hp' by reflexivity.
  assert (d' !! "start_line" = None) as Hs' by reflexivity.
  assert (d' !! "end_line" = None) as He' by reflexivity.
  clearbody d'. intros written.
  assert (written = (<[path := File content]> fs1,
                     Ok ("Successfully wrote " +:+ pretty (String.length content)
                           +:+ " chars to " +:+ path))) as ->.
  { subst written. unfold execute_tool, dispatch, with_arg, get.
    cbn [String.eqb Ascii.eqb Bool.eqb]. rewrite Hp, Hc.
    cbn [from_option id truthy is_none]. rewrite Hne. cbn [negb orb].
    unfold reply, write_file, open_write. rewrite Hmk.
    by destruct (fs1 !! path) as [[text| |]|]. }
  split; [done|].
  unfold execute_tool, dispatch, with_arg, get. cbn [String.eqb Ascii.eqb Bool.eqb fst snd].
  rewrite Hp', Hs', He'. cbn [from_option id truthy as_line]. rewrite Hne.
  cbn [negb try_except]. by rewrite FileToolsMore.read_back.
Qed.

Lemma dispatcher_write_then_read_witness :
  (execute_tool Sample.host "read_file" (PDict {[ "path" := JStr "notes.txt" ]})
     (execute_tool Sample.host "write_file"
        (PDict {[ "path" := JStr "notes.txt"; "content" := JStr "remember" ]})
        Sample.workdir).1).2 = Ok "remember".
Proof.
  destruct (dispatcher_write_then_read Sample.host Sample.workdir Sample.workdir
              "notes.txt" "remember") as [_ Hread];
    [rewrite list_elem_of_In; cbn; intuition discriminate | discriminate | reflexivity
    | vm_compute; discriminate | vm_compute; discriminate |].
  exact Hread.
Defined.

End ToolsMore.

(** ** More on the checkpoint store *)

Module CheckpointerMore.
Import Checkpointer CheckpointerFacts.

Lemma final_from_subset (rows earlier : list CheckpointRow) (r : CheckpointRow) :
  r ∈ final_from earlier rows → r ∈ rows.
Proof.
  revert earlier. induction rows as [|x rows IH]; intros earlier; cbn [final_from].
  - by intros ?%elem_of_nil.
  - destruct (_ || _).
    + intros Hin. right. by eapply IH.
    + intros [-> | Hin]%elem_of_cons; [by left | right; by eapply IH].
Qed.

Lemma filter_none {A} (P : A → bool) (l : list A) :
  (∀ x, x ∈ l → P x = false) → List.filter P l = [].
Proof.
  induction l as [|x l IH]; intros Hall; [done|]. cbn [List.filter].
  rewrite (Hall x) by by left. apply IH. intros y Hy. apply Hall. by right.
Qed.

Lemma filter_all {A} (P : A → bool) (l : list A) :
  (∀ x, x ∈ l → P x = true) → List.filter P l = l.
Proof.
  induction l as [|x l IH]; intros Hall; [done|]. cbn [List.filter].
  rewrite (Hall x) by by left. f_equal. apply IH. intros y Hy. apply Hall. by right.
Qed.

Lemma write_rows_idx (ser : Serializer) (clock : Z) (thread ns cp task_id : string)
    (writes : list (string * JValue)) (idx : Z) (w : WriteRow) :
  w ∈ write_rows ser clock thread ns cp task_id idx writes → idx ≤ w_idx w.
Proof.
  revert idx. induction writes as [|[channel value] writes IH]; intros idx;
    cbn [write_rows].
  - by intros ?%elem_of_nil.
  - intros [-> | Hin]%elem_of_cons; [cbn; lia|]. apply IH in Hin. lia.
Qed.

Lemma write_rows_sorted (ser : Serializer) (clock : Z) (thread ns cp task_id : string)
    (writes : list (string * JValue)) (idx : Z) :
  Sorted idx_le (write_rows ser clock thread ns cp task_id idx writes).
Proof.
  revert idx. induction writes as [|[channel value] writes IH]; intros idx;
    cbn [write_rows]; constructor; [apply IH|].
  destruct writes as [|[channel' value'] writes]; constructor.
  unfold idx_le. cbn. lia.
Qed.

Lemma write_rows_idx_inj (ser : Serializer) (clock : Z) (thread ns cp task_id : string)
    (writes : list (string * JValue)) (idx : Z) (w1 w2 : WriteRow) :
  w1 ∈ write_rows ser clock thread ns cp task_id idx writes →
  w2 ∈ write_rows ser clock thread ns cp task_id idx writes →
  w_idx w1 = w_idx w2 → w1 = w2.
Proof.
  revert idx. induction writes as [|[channel value] writes IH]; intros idx;
    cbn [write_rows].
  - by intros ?%elem_of_nil.
  - intros [-> | H1]%elem_of_cons [-> | H2]%elem_of_cons Heq; [done | | |].
    + apply write_rows_idx in H2. cbn in Heq. lia.
    + apply write_rows_idx in H1. cbn in Heq. lia.
    + by eapply IH.
Qed.

Lemma write_rows_match (ser : Serializer) (clock : Z) (thread ns cp task_id : string)
    (writes : list (string * JValue)) (idx : Z) (w : WriteRow) :
  w ∈ write_rows ser clock thread ns cp task_id idx writes →
  write_of thread ns cp w = true.
Proof.
  revert idx. induction writes as [|[channel value] writes IH]; intros idx;
    cbn [write_rows].
  - by intros ?%elem_of_nil.
  - intros [-> | Hin]%elem_of_cons; [|by eapply IH].
    unfold write_of. cbn. by rewrite !String.eqb_refl.
Qed.

Lemma load_write_rows (ser : Serializer) (clock : Z) (thread ns cp task_id : string)
    (writes : list (string * JValue)) (idx : Z) :
  Forall (λ w, loads_value ser (dumps_value ser w.2) = Ok w.2) writes →
  load_writes ser (write_rows ser clock thread ns cp task_id idx writes) =
    Ok (map (λ w, (task_id, w.1, w.2)) writes).
Proof.
  intros Hall. revert idx.
  induction Hall as [|[channel value] writes Hv _ IH]; intros idx; [done|].
  cbn [write_rows load_writes w_blob w_task_id w_channel map fst snd] in *.
  by rewrite Hv, IH.
Qed.

#[local] Existing Instance idx_le_total.

#[local] Instance idx_le_trans : Transitive idx_le.
Proof. intros a b c. unfold idx_le. lia. Qed.

(** The writes of one call of [put_writes], recorded against a checkpoint
    that had none, are what the second query of [get_tuple] returns, in the
    order in which they were given. *)
Lemma select_fresh_writes (ser : Serializer) (clock : Z)
    (old : list WriteRow) (thread ns cp task_id : string)
    (writes : list (string * JValue)) :
  (∀ w, w ∈ old → write_of thread ns cp w = false) →
  select_writes (old ++ write_rows ser clock thread ns cp task_id 0 writes)
                thread ns cp =
    write_rows ser clock thread ns cp task_id 0 writes.
Proof.
  intros Hold. unfold select_writes. rewrite List.filter_app.
  rewrite (filter_none _ old Hold). cbn [app].
  rewrite filter_all by apply write_rows_match.
  apply (Sorted_unique_strong idx_le).
  - intros w1 w2 H1 H2 H12 H21. rewrite merge_sort_Permutation in H1.
    eapply write_rows_idx_inj; [done..|]. unfold idx_le in *. lia.
  - apply Sorted_merge_sort, _.
  - apply write_rows_sorted.
  - apply merge_sort_Permutation.
Qed.

Lemma latest_none : latest [] = None.
Proof. reflexivity. Qed.

(** X16. A thread without checkpoints has no tuple.  When the table holds
    no row of the thread and namespace asked for, [get_tuple] returns
    nothing, with or without a checkpoint identifier in the configuration,
    and does not raise. *)
Theorem get_tuple_of_unknown_thread (ser : Serializer) (db : Database)
    (cfg : RunnableConfig) :
  plain (cfg_thread_id cfg) = true →
  plain (default "" (cfg_checkpoint_ns cfg)) = true →
  from_option plain true (cfg_checkpoint_id cfg) = true →
  (∀ r, r ∈ checkpoints db →
        same_thread (cfg_thread_id cfg) (default "" (cfg_checkpoint_ns cfg)) r = false) →
  get_tuple ser db cfg = Nothing.
Proof.
  intros Hthread Hns Hid Hnone. unfold get_tuple. rewrite Hthread, Hns.
  set (wanted := match cfg_checkpoint_id cfg with
                 | Some id => if String.eqb id "" then None else Some id
                 | None => None
                 end).
  assert (from_option plain true wanted = true) as ->.
  { subst wanted. destruct (cfg_checkpoint_id cfg) as [id|]; [|done].
    by destruct (String.eqb id ""). }
  cbn [andb negb].
  assert (select_checkpoint (checkpoints db) (cfg_thread_id cfg)
            (default "" (cfg_checkpoint_ns cfg)) wanted = None) as ->; [|done].
  unfold select_checkpoint, final. destruct wanted as [id|].
  - rewrite filter_none; [done|]. intros r Hin%final_from_subset.
    unfold same_checkpoint. specialize (Hnone r Hin). unfold same_thread in Hnone.
    by rewrite Hnone.
  - rewrite filter_none; [done|]. intros r Hin%final_from_subset. by apply Hnone.
Qed.

Lemma get_tuple_of_unknown_thread_witness :
  get_tuple Sample.serializer Sample.database
            {| cfg_thread_id := "t2"; cfg_checkpoint_ns := None;
               cfg_checkpoint_id := None |} = Nothing.
Proof.
  apply get_tuple_of_unknown_thread; try reflexivity.
  intros r Hin. apply list_elem_of_singleton in Hin as ->. reflexivity.
Defined.

(** A row of another key neither hides nor shows a checkpoint. *)
Lemma final_from_other_key (P : CheckpointRow → bool) (new : CheckpointRow)
    (rows earlier : list CheckpointRow) :
  P new = false →
  (∀ r, P r = true → same_key r new = false) →
  List.filter P (final_from earlier (rows ++ [new])) =
  List.filter P (final_from earlier rows).
Proof.
  intros Hnew Hkey. revert earlier.
  induction rows as [|r rows IH]; intros earlier.
  - cbn [app final_from]. destruct (_ || _); [done|].
    cbn [List.filter]. by rewrite Hnew.
  - cbn [app final_from]. rewrite existsb_app. cbn [existsb].
    rewrite orb_false_r.
    destruct (P r) eqn:HP.
    + rewrite (Hkey r HP). cbn [andb]. rewrite orb_false_r.
      destruct (_ || _); [apply IH|]. cbn [List.filter]. rewrite HP.
      f_equal. apply IH.
    + repeat match goal with
             | |- context [if ?b then _ else _] => destruct b
             end; cbn [List.filter]; rewrite ?HP; apply IH.
Qed.

(** X17. Storing one checkpoint does not disturb another.  After [put] has
    stored a checkpoint, [get_tuple] asked for a checkpoint with another
    identifier, thread or namespace answers as it did before. *)
Theorem put_keeps_other_checkpoints (ser : Serializer) (clock : Z) (db : Database)
    (cfg : RunnableConfig) (cp : Checkpoint) (meta : gmap string JValue)
    (other : RunnableConfig) (id : string) :
  cfg_checkpoint_id other = Some id → id ≠ "" →
  (cfg_thread_id other, default "" (cfg_checkpoint_ns other), id)
    ≠ (cfg_thread_id cfg, default "" (cfg_checkpoint_ns cfg), cp_id cp) →
  get_tuple ser (put ser clock db cfg cp meta).1 other = get_tuple ser db other.
Proof.
  intros Hid Hne Hkey. unfold get_tuple, put.
  cbn [fst checkpoints checkpoint_writes]. rewrite Hid.
  apply String.eqb_neq in Hne. rewrite Hne.
  destruct (negb _); [done|].
  set (new := {| row_thread_id := cfg_thread_id cfg;
                 row_checkpoint_ns := default "" (cfg_checkpoint_ns cfg);
                 row_checkpoint_id := cp_id cp;
                 row_parent_checkpoint_id := default "" (cfg_checkpoint_id cfg);
                 row_checkpoint_data := dumps ser cp;
                 row_metadata_data := metadata_text ser meta;
                 row_created_at := clock |}).
  assert (same_checkpoint (cfg_thread_id other) (default "" (cfg_checkpoint_ns other))
            id new = false) as Hnew.
  { unfold same_checkpoint. cbn [row_thread_id row_checkpoint_ns row_checkpoint_id new].
    apply not_true_iff_false. rewrite !andb_true_iff, !String.eqb_eq.
    intros [[H1 H2] H3]. apply Hkey. congruence. }
  unfold select_checkpoint, final.
  rewrite (final_from_other_key _ new); [done | exact Hnew |].
  intros r Hr. unfold same_key.
  apply not_true_iff_false. intros Hk. unfold same_checkpoint in *.
  rewrite !andb_true_iff, !String.eqb_eq in Hr, Hk.
  apply not_true_iff_false in Hnew. apply Hnew.
  rewrite !andb_true_iff, !String.eqb_eq. destruct Hr as [[? ?] ?], Hk as [[? ?] ?].
  repeat split; congruence.
Qed.

Lemma put_keeps_other_checkpoints_witness :
  get_tuple Sample.serializer
    (put Sample.serializer 1700000010 Sample.database Sample.thread1
         Sample.checkpoint1 ∅).1
    {| cfg_thread_id := "t1"; cfg_checkpoint_ns := None;
       cfg_checkpoint_id := Some "1ef4f797-8335-6428-8000-000000000000" |}
  = get_tuple Sample.serializer Sample.database
    {| cfg_thread_id := "t1"; cfg_checkpoint_ns := None;
       cfg_checkpoint_id := Some "1ef4f797-8335-6428-8000-000000000000" |}.
Proof.
  apply (put_keeps_other_checkpoints Sample.serializer 1700000010 Sample.database
           Sample.thread1 Sample.checkpoint1 ∅ _
           "1ef4f797-8335-6428-8000-000000000000");
    [reflexivity | discriminate | vm_compute; discriminate].
Defined.

(** [get_tuple] once its first query has found a row. *)
Lemma get_tuple_found (ser : Serializer) (db : Database) (cfg : RunnableConfig)
    (wanted : option string) (row : CheckpointRow) (cp : Checkpoint)
    (meta : gmap string JValue) (pending : list (string * string * JValue)) :
  wanted = match cfg_checkpoint_id cfg with
           | Some id => if String.eqb id "" then None else Some id
           | None => None
           end →
  plain (cfg_thread_id cfg) = true →
  plain (default "" (cfg_checkpoint_ns cfg)) = true →
  from_option plain true wanted = true →
  select_checkpoint (checkpoints db) (cfg_thread_id cfg)
                    (default "" (cfg_checkpoint_ns cfg)) wanted = Some row →
  loads ser (row_checkpoint_data row) = Ok cp →
  load_metadata ser (row_metadata_data row) = Ok meta →
  plain (row_checkpoint_id row) = true →
  load_writes ser (select_writes (checkpoint_writes db) (cfg_thread_id cfg)
                                 (default "" (cfg_checkpoint_ns cfg))
                                 (row_checkpoint_id row)) = Ok pending →
  get_tuple ser db cfg =
    Tuple {| config := {| cfg_thread_id := cfg_thread_id cfg;
                          cfg_checkpoint_ns := Some (default "" (cfg_checkpoint_ns cfg));
                          cfg_checkpoint_id := Some (row_checkpoint_id row) |};
             checkpoint := cp; metadata := meta;
             parent_config :=
               if String.eqb (row_parent_checkpoint_id row) "" then None
               else Some {| cfg_thread_id := cfg_thread_id cfg;
                            cfg_checkpoint_ns := Some (default "" (cfg_checkpoint_ns cfg));
                            cfg_checkpoint_id := Some (row_parent_checkpoint_id row) |};
             pending_writes := pending |}.
Proof.
  intros Hwanted Hthread Hns Hid Hsel Hload Hmeta Hrow Hpending.
  unfold get_tuple. rewrite <- Hwanted, Hthread, Hns, Hid. cbn [andb negb].
  by rewrite Hsel, Hload, Hmeta, Hrow, Hpending.
Qed.

Lemma latest_in (rows : list CheckpointRow) (best : option CheckpointRow) :
  match fold_left
          (λ best r,
             match best with
             | None => Some r
             | Some b => if row_created_at b <=? row_created_at r then Some r else Some b
             end) rows best with
  | None => best = None ∧ rows = []
  | Some b => best = Some b ∨ b ∈ rows
  end.
Proof.
  revert best. induction rows as [|r rows IH]; intros best; cbn [fold_left].
  - destruct best; [by left | done].
  - specialize (IH (match best with
                    | None => Some r
                    | Some b => if row_created_at b <=? row_created_at r
                                then Some r else Some b
                    end)).
    destruct (fold_left _ rows _) as [b|].
    + destruct IH as [IH | IH]; [|right; by right].
      destruct best as [b'|].
      * destruct (row_created_at b' <=? row_created_at r); simplify_eq;
          [right; by left | by left].
      * simplify_eq. right. by left.
    + destruct IH as [IH _]. destruct best as [b'|]; [|done].
      by destruct (row_created_at b' <=? row_created_at r).
Qed.

Lemma latest_snoc (rows : list CheckpointRow) (new : CheckpointRow) :
  (∀ r, r ∈ rows → row_created_at r < row_created_at new) →
  latest (rows ++ [new]) = Some new.
Proof.
  intros Hold. unfold latest. rewrite fold_left_app. cbn [fold_left].
  pose proof (latest_in rows None) as Hin.
  destruct (fold_left _ rows None) as [b|]; [|done].
  destruct Hin as [Hin | Hin]; [done|].
  specialize (Hold b Hin). by destruct (Z.leb_spec (row_created_at b) (row_created_at new)); [|lia].
Qed.

Lemma final_from_snoc (new : CheckpointRow) (rows earlier : list CheckpointRow) :
  (∀ r, r ∈ earlier ++ rows → same_key new r = true →
        row_created_at r ≤ row_created_at new) →
  ∃ kept, final_from earlier (rows ++ [new]) = kept ++ [new] ∧
          ∀ r, r ∈ kept → r ∈ rows.
Proof.
  revert earlier. induction rows as [|r rows IH]; intros earlier Hold.
  - exists []. split; [|by intros ? ?%elem_of_nil].
    cbn [app final_from existsb]. rewrite orb_false_r.
    assert (existsb (λ r', same_key new r' &&
                           (row_created_at new <? row_created_at r')) earlier
            = false) as ->; [|done].
    apply not_true_iff_false. rewrite existsb_exists.
    intros (r' & Hin & Hb). apply andb_true_iff in Hb as [Hk Hlt].
    apply Z.ltb_lt in Hlt. apply list_elem_of_In in Hin.
    rewrite app_nil_r in Hold. specialize (Hold r' Hin Hk). lia.
  - destruct (IH (earlier ++ [r])) as (kept & Heq & Hsub).
    { intros r' Hin. apply Hold. by rewrite <- app_assoc in Hin. }
    cbn [app final_from]. rewrite Heq. destruct (_ || _).
    + exists kept. split; [done|]. intros r' Hr'. right. by apply Hsub.
    + exists (r :: kept). split; [done|].
      intros r' [-> | Hr']%elem_of_cons; [by left | right; by apply Hsub].
Qed.

Lemma same_key_thread (a b : CheckpointRow) :
  same_key a b = true →
  same_thread (row_thread_id a) (row_checkpoint_ns a) b = true.
Proof.
  unfold same_key, same_checkpoint, same_thread.
  rewrite !andb_true_iff. tauto.
Qed.

(** X18. The current checkpoint of a thread is the one stored last.  After
    [put] at a server time later than that of every checkpoint of the
    thread, [get_tuple] asked for the thread without a checkpoint
    identifier returns the checkpoint just stored, under the configuration
    that [put] returned. *)
Theorem get_tuple_latest_after_put (ser : Serializer) (clock : Z) (db : Database)
    (cfg : RunnableConfig) (cp : Checkpoint) (meta : gmap string JValue) :
  plain (cfg_thread_id cfg) = true →
  plain (default "" (cfg_checkpoint_ns cfg)) = true →
  plain (cp_id cp) = true →
  loads ser (dumps ser cp) = Ok cp →
  load_metadata ser (metadata_text ser meta) = Ok meta →
  (∀ r, r ∈ checkpoints db →
        same_thread (cfg_thread_id cfg) (default "" (cfg_checkpoint_ns cfg)) r = true →
        row_created_at r < clock) →
  Forall (λ w, ∃ value, loads_value ser (w_blob w) = Ok value)
         (List.filter (write_of (cfg_thread_id cfg)
                                (default "" (cfg_checkpoint_ns cfg)) (cp_id cp))
                      (checkpoint_writes db)) →
  ∃ t,
    get_tuple ser (put ser clock db cfg cp meta).1
              {| cfg_thread_id := cfg_thread_id cfg;
                 cfg_checkpoint_ns := cfg_checkpoint_ns cfg;
                 cfg_checkpoint_id := None |} = Tuple t ∧
    checkpoint t = cp ∧ metadata t = meta ∧
    config t = (put ser clock db cfg cp meta).2.
Proof.
  intros Hthread Hns Hid Hload Hmeta Hclock Hwrites.
  set (thread := cfg_thread_id cfg) in *.
  set (ns := default "" (cfg_checkpoint_ns cfg)) in *.
  set (new := {| row_thread_id := thread; row_checkpoint_ns := ns;
                 row_checkpoint_id := cp_id cp;
                 row_parent_checkpoint_id := default "" (cfg_checkpoint_id cfg);
                 row_checkpoint_data := dumps ser cp;
                 row_metadata_data := metadata_text ser meta;
                 row_created_at := clock |}).
  destruct (select_writes_sorted (checkpoint_writes db) thread ns (cp_id cp))
    as [_ Hperm].
  destruct (load_writes_ok ser (select_writes (checkpoint_writes db) thread ns (cp_id cp)))
    as (pending & Hpending & _).
  { by rewrite Hperm. }
  assert (select_checkpoint (checkpoints db ++ [new]) thread ns None = Some new)
    as Hsel.
  { unfold select_checkpoint, final.
    destruct (final_from_snoc new (checkpoints db) []) as (kept & -> & Hsub).
    { intros r Hin Hk. apply same_key_thread in Hk.
      specialize (Hclock r Hin Hk). cbn [row_created_at new]. lia. }
    rewrite List.filter_app. cbn [List.filter].
    assert (same_thread thread ns new = true) as ->
      by (unfold same_thread; cbn; by rewrite !String.eqb_refl).
    apply latest_snoc. intros r Hin. apply list_elem_of_In, filter_In in Hin as [Hin Hth].
    apply Hclock; [|done]. apply Hsub. by apply list_elem_of_In. }
  eexists. split.
  - apply (get_tuple_found ser (put ser clock db cfg cp meta).1
             {| cfg_thread_id := thread; cfg_checkpoint_ns := cfg_checkpoint_ns cfg;
                cfg_checkpoint_id := None |} None new cp meta pending);
      try done.
  - done.
Qed.

Lemma get_tuple_latest_after_put_witness :
  ∃ t,
    get_tuple Sample.serializer
      (put Sample.serializer 1700000010 Sample.database Sample.thread1
           Sample.checkpoint1 ∅).1 Sample.thread1 = Tuple t ∧
    checkpoint t = Sample.checkpoint1.
Proof.
  destruct (get_tuple_latest_after_put Sample.serializer 1700000010
              Sample.database Sample.thread1 Sample.checkpoint1 ∅)
    as (t & Hget & Hcp & _); try reflexivity.
  - intros r Hin _. apply list_elem_of_singleton in Hin as ->. reflexivity.
  - vm_compute. repeat constructor; eexists; reflexivity.
  - exists t. split; [exact Hget | exact Hcp].
Defined.

(** X19. Pending writes come back as they were given.  A checkpoint is
    stored with [put], and the writes of one task are recorded against it
    with [put_writes] under the configuration that [put] returned, the
    checkpoint having no writes before; then [get_tuple] returns the
    checkpoint with exactly those writes, each with the task's identifier,
    its channel and its value, in the order in which they were given. *)
Theorem put_writes_round_trip (ser : Serializer) (clock clock' : Z) (db : Database)
    (cfg : RunnableConfig) (cp : Checkpoint) (meta : gmap string JValue)
    (writes : list (string * JValue)) (task_id : string) :
  plain (cfg_thread_id cfg) = true →
  plain (default "" (cfg_checkpoint_ns cfg)) = true →
  plain (cp_id cp) = true →
  cp_id cp ≠ "" →
  loads ser (dumps ser cp) = Ok cp →
  load_metadata ser (metadata_text ser meta) = Ok meta →
  (∀ r, r ∈ checkpoints db →
        same_checkpoint (cfg_thread_id cfg) (default "" (cfg_checkpoint_ns cfg))
                        (cp_id cp) r = true →
        row_created_at r ≤ clock) →
  (∀ w, w ∈ checkpoint_writes db →
        write_of (cfg_thread_id cfg) (default "" (cfg_checkpoint_ns cfg))
                 (cp_id cp) w = false) →
  Forall (λ w, loads_value ser (dumps_value ser w.2) = Ok w.2) writes →
  ∃ t,
    get_tuple ser
      (put_writes ser clock' (put ser clock db cfg cp meta).1
                  (put ser clock db cfg cp meta).2 writes task_id)
      (put ser clock db cfg cp meta).2 = Tuple t ∧
    checkpoint t = cp ∧
    pending_writes t = map (λ w, (task_id, w.1, w.2)) writes.
Proof.
  intros Hthread Hns Hid Hne Hload Hmeta Hclock Hfresh Hvalues.
  set (thread := cfg_thread_id cfg) in *.
  set (ns := default "" (cfg_checkpoint_ns cfg)) in *.
  set (new := {| row_thread_id := thread; row_checkpoint_ns := ns;
                 row_checkpoint_id := cp_id cp;
                 row_parent_checkpoint_id := default "" (cfg_checkpoint_id cfg);
                 row_checkpoint_data := dumps ser cp;
                 row_metadata_data := metadata_text ser meta;
                 row_created_at := clock |}).
  assert (select_checkpoint (checkpoints db ++ [new]) thread ns (Some (cp_id cp))
          = Some new) as Hsel.
  { apply (select_checkpoint_after_put (checkpoints db) new).
    intros r Hin Hk. apply Hclock; [done | exact Hk]. }
  apply String.eqb_neq in Hne.
  eexists. split.
  - apply (get_tuple_found ser _ (put ser clock db cfg cp meta).2
             (Some (cp_id cp)) new cp meta
             (map (λ w, (task_id, w.1, w.2)) writes)); try done.
    + cbn. by rewrite Hne.
    + cbn [put_writes put fst snd checkpoint_writes cfg_thread_id
           cfg_checkpoint_ns cfg_checkpoint_id from_option id row_checkpoint_id new].
      fold thread ns. rewrite select_fresh_writes by done.
      by apply load_write_rows.
  - done.
Qed.

Lemma put_writes_round_trip_witness :
  ∃ t,
    get_tuple Sample.serializer
      (put_writes Sample.serializer 1700000011
         (put Sample.serializer 1700000010
              {| checkpoints := []; checkpoint_writes := [] |}
              Sample.thread1 Sample.checkpoint1 ∅).1
         (put Sample.serializer 1700000010
              {| checkpoints := []; checkpoint_writes := [] |}
              Sample.thread1 Sample.checkpoint1 ∅).2
         [("thinking", JStr "compute it"); ("response", JStr "Done.")] "task-a")
      (put Sample.serializer 1700000010
           {| checkpoints := []; checkpoint_writes := [] |}
           Sample.thread1 Sample.checkpoint1 ∅).2 = Tuple t ∧
    pending_writes t =
      [("task-a", "thinking", JStr "compute it"); ("task-a", "response", JStr "Done.")].
Proof.
  destruct (put_writes_round_trip Sample.serializer 1700000010 1700000011
              {| checkpoints := []; checkpoint_writes := [] |}
              Sample.thread1 Sample.checkpoint1 ∅
              [("thinking", JStr "compute it"); ("response", JStr "Done.")] "task-a")
    as (t & Hget & _ & Hpending); try reflexivity; try discriminate.
  - by intros r ?%elem_of_nil.
  - by intros w ?%elem_of_nil.
  - repeat constructor.
  - exists t. split; [exact Hget | exact Hpending].
Defined.

(** X20. Checkpoints form a chain.  A checkpoint stored under the
    configuration that an earlier [put] returned comes back from
    [get_tuple] with that configuration as its parent; a checkpoint stored
    under a configuration without checkpoint identifier comes back without
    parent. *)
Theorem checkpoint_parent_link (ser : Serializer) (clock : Z) (db : Database)
    (cfg : RunnableConfig) (cp : Checkpoint) (meta : gmap string JValue) :
  plain (cfg_thread_id cfg) = true →
  plain (default "" (cfg_checkpoint_ns cfg)) = true →
  plain (cp_id cp) = true →
  cp_id cp ≠ "" →
  loads ser (dumps ser cp) = Ok cp →
  load_metadata ser (metadata_text ser meta) = Ok meta →
  (∀ r, r ∈ checkpoints db →
        same_checkpoint (cfg_thread_id cfg) (default "" (cfg_checkpoint_ns cfg))
                        (cp_id cp) r = true →
        row_created_at r ≤ clock) →
  Forall (λ w, ∃ value, loads_value ser (w_blob w) = Ok value)
         (List.filter (write_of (cfg_thread_id cfg)
                                (default "" (cfg_checkpoint_ns cfg)) (cp_id cp))
                      (checkpoint_writes db)) →
  ∃ t,
    get_tuple ser (put ser clock db cfg cp meta).1
              (put ser clock db cfg cp meta).2 = Tuple t ∧
    (cfg_checkpoint_id cfg = None → parent_config t = None) ∧
    (∀ clock0 db0 cfg0 cp0 meta0,
       cfg = (put ser clock0 db0 cfg0 cp0 meta0).2 → cp_id cp0 ≠ "" →
       parent_config t = Some cfg).
Proof.
  intros Hthread Hns Hid Hne Hload Hmeta Hclock Hwrites.
  set (thread := cfg_thread_id cfg) in *.
  set (ns := default "" (cfg_checkpoint_ns cfg)) in *.
  set (new := {| row_thread_id := thread; row_checkpoint_ns := ns;
                 row_checkpoint_id := cp_id cp;
                 row_parent_checkpoint_id := default "" (cfg_checkpoint_id cfg);
                 row_checkpoint_data := dumps ser cp;
                 row_metadata_data := metadata_text ser meta;
                 row_created_at := clock |}).
  destruct (select_writes_sorted (checkpoint_writes db) thread ns (cp_id cp))
    as [_ Hperm].
  destruct (load_writes_ok ser (select_writes (checkpoint_writes db) thread ns (cp_id cp)))
    as (pending & Hpending & _).
  { by rewrite Hperm. }
  assert (select_checkpoint (checkpoints db ++ [new]) thread ns (Some (cp_id cp))
          = Some new) as Hsel.
  { apply (select_checkpoint_after_put (checkpoints db) new).
    intros r Hin Hk. apply Hclock; [done | exact Hk]. }
  apply String.eqb_neq in Hne.
  eexists. split.
  - apply (get_tuple_found ser _ (put ser clock db cfg cp meta).2
             (Some (cp_id cp)) new cp meta pending); try done.
    cbn. by rewrite Hne.
  - cbn [parent_config row_parent_checkpoint_id new]. split.
    + by intros ->.
    + intros clock0 db0 cfg0 cp0 meta0 Hcfg Hne0.
      apply String.eqb_neq in Hne0. subst thread ns.
      rewrite Hcfg. cbn. by rewrite Hne0.
Qed.

Lemma checkpoint_parent_link_witness :
  ∃ t,
    get_tuple Sample.serializer
      (put Sample.serializer 1700000010 Sample.database Sample.thread1
           Sample.checkpoint1 ∅).1
      (put Sample.serializer 1700000010 Sample.database Sample.thread1
           Sample.checkpoint1 ∅).2 = Tuple t ∧
    parent_config t = None.
Proof.
  destruct (checkpoint_parent_link Sample.serializer 1700000010 Sample.database
              Sample.thread1 Sample.checkpoint1 ∅)
    as (t & Hget & Hnone & _); try reflexivity; try discriminate.
  - intros r Hin _. apply list_elem_of_singleton in Hin as ->. vm_compute.
    discriminate.
  - vm_compute. repeat constructor; eexists; reflexivity.
  - exists t. split; [exact Hget | apply Hnone; reflexivity].
Defined.

End CheckpointerMore.

(** ** Listing checkpoints *)

Module CheckpointListFacts.
Import Checkpointer CheckpointList.

#[local] Instance newer_first_total : Total newer_first.
Proof. intros a b. unfold newer_first. lia. Qed.

Lemma Sorted_take {A} (R : relation A) (n : nat) (l : list A) :
  Sorted R l → Sorted R (take n l).
Proof.
  intros Hs. revert n. induction Hs as [|x l Hs IH Hd]; intros [|n]; cbn;
    try constructor; [apply IH|].
  destruct Hd as [|y l Hxy]; destruct n; cbn; by constructor.
Qed.

Lemma yield_rows_ids (ser : Serializer) (thread ns : string) (rows : list CheckpointRow) :
  let r := yield_rows ser thread ns rows in
  map (λ t, cfg_checkpoint_id (l_config t)) r.1 =
    map (λ row, Some (row_checkpoint_id row)) (take (length r.1) rows) ∧
  (r.2 = None → length r.1 = length rows) ∧
  (∀ t, t ∈ r.1 → cfg_thread_id (l_config t) = thread ∧
                  cfg_checkpoint_ns (l_config t) = Some ns).
Proof.
  induction rows as [|row rows (IH1 & IH2 & IH3)]; cbn [yield_rows].
  - split; [done | split; [done | by intros ? ?%elem_of_nil]].
  - destruct (loads ser _); cbn zeta;
      [|split; [done | split; [done | by intros ? ?%elem_of_nil]]].
    destruct (load_metadata ser _); cbn zeta;
      [|split; [done | split; [done | by intros ? ?%elem_of_nil]]].
    cbn [fst snd length take map l_config cfg_checkpoint_id]. split; [|split].
    + by rewrite IH1.
    + intros Hnone. by rewrite IH2.
    + intros t [-> | Hin]%elem_of_cons; [done | by apply IH3].
Qed.

(** X21. What [list] yields.  Without a configuration it yields nothing.
    With one, the tuples it yields stand, in order, for the first rows of a
    selection that is sorted newest first, holds only rows of the table
    that belong to the thread and namespace asked for and, with [before],
    have an identifier below the bound, and has at most as many rows as the
    limit, which is 100 when no limit or the limit 0 is given; every tuple
    carries the thread and namespace asked for; and when the iteration ends
    without exception, there is a tuple for every selected row. *)
Theorem list_yields (ser : Serializer) (db : Database) (before : option RunnableConfig)
    (limit : option Z) :
  list_checkpoints ser db None before limit = Yielded [] None ∧
  limit_clause None = 100 ∧ limit_clause (Some 0) = 100 ∧
  ∀ cfg tuples failure,
    list_checkpoints ser db (Some cfg) before limit = Yielded tuples failure →
    ∃ rows,
      map (λ t, cfg_checkpoint_id (l_config t)) tuples =
        map (λ row, Some (row_checkpoint_id row)) (take (length tuples) rows) ∧
      (failure = None → length tuples = length rows) ∧
      Z.of_nat (length rows) ≤ limit_clause limit ∧
      Sorted newer_first rows ∧
      (∀ row, row ∈ rows →
         row ∈ checkpoints db ∧
         row_thread_id row = cfg_thread_id cfg ∧
         row_checkpoint_ns row = default "" (cfg_checkpoint_ns cfg) ∧
         ∀ id, before_id before = Some id →
               String.ltb (row_checkpoint_id row) id = true) ∧
      (∀ t, t ∈ tuples →
         cfg_thread_id (l_config t) = cfg_thread_id cfg ∧
         cfg_checkpoint_ns (l_config t) = Some (default "" (cfg_checkpoint_ns cfg))).
Proof.
  repeat split. intros cfg tuples failure. unfold list_checkpoints.
  destruct (negb _ || _) eqn:Hguard; [done|].
  apply orb_false_iff in Hguard as [_ Hlimit]. apply Z.ltb_ge in Hlimit.
  set (thread := cfg_thread_id cfg). set (ns := default "" (cfg_checkpoint_ns cfg)).
  set (rows := select_rows (checkpoints db) thread ns (before_id before)
                           (limit_clause limit)).
  intros [= <- <-]. exists rows.
  destruct (yield_rows_ids ser thread ns rows) as (H1 & H2 & H3).
  split; [done|]. split; [done|]. split; [|split; [|split; [|done]]].
  - subst rows. unfold select_rows. rewrite length_take. lia.
  - subst rows. unfold select_rows. apply Sorted_take, Sorted_merge_sort, _.
  - intros row Hin. subst rows. unfold select_rows in Hin.
    apply elem_of_take in Hin as (i & Hin & _).
    apply list_elem_of_lookup_2 in Hin. rewrite merge_sort_Permutation in Hin.
    apply list_elem_of_In, filter_In in Hin as [Hin Hrow].
    apply list_elem_of_In, CheckpointerMore.final_from_subset in Hin.
    unfold listed_row, same_thread in Hrow.
    rewrite !andb_true_iff, !String.eqb_eq in Hrow.
    destruct Hrow as [[Ht Hn] Hb]. repeat split; try done.
    intros id Hid. by rewrite Hid in Hb.
Qed.

Lemma list_yields_witness :
  ∃ tuples failure,
    list_checkpoints Sample.serializer
      (put Sample.serializer 1700000010 Sample.database Sample.thread1
           Sample.checkpoint1 ∅).1 (Some Sample.thread1) None (Some 0)
      = Yielded tuples failure ∧
    map (λ t, cfg_checkpoint_id (l_config t)) tuples
      = [Some (cp_id Sample.checkpoint1)] ∧
    (∀ t, t ∈ tuples → cfg_thread_id (l_config t) = "t1").
Proof.
  eexists _, _. split; [vm_compute; reflexivity|].
  split; [reflexivity|].
  destruct (list_yields Sample.serializer
              (put Sample.serializer 1700000010 Sample.database Sample.thread1
                   Sample.checkpoint1 ∅).1 None (Some 0)) as (_ & _ & _ & Hall).
  destruct (Hall Sample.thread1 _ _ ltac:(vm_compute; reflexivity))
    as (rows & _ & _ & _ & _ & _ & Hthread).
  intros t Hin. by apply Hthread.
Defined.

End CheckpointListFacts.

(** ** The JSON repair and the transcript filter of [src/cognition.py] *)

Module CognitionFacts.
Import Cognition.

Lemma string_pair_ind (P : string → Prop) :
  P "" →
  (∀ c, P (String c "")) →
  (∀ c d s, P s → P (String d s) → P (String c (String d s))) →
  ∀ s, P s.
Proof.
  intros H0 H1 H2 s.
  assert (P s ∧ ∀ c, P (String c s)) as [? _]; [|done].
  induction s as [|d s [IH1 IH2]]; [by split|].
  split; [apply IH2|]. intros c. by apply H2.
Qed.

Lemma fix_unfold in_string c text :
  fix_json_newlines_from in_string (String c text)
  = if Ascii.eqb c backslash_char && in_string then
      match text with
      | String next rest' =>
          String c (String next (fix_json_newlines_from in_string rest'))
      | "" => String c ""
      end
    else if Ascii.eqb c quote_char then
      String c (fix_json_newlines_from (negb in_string) text)
    else if in_string && Ascii.eqb c newline_char then
      String backslash_char (String (Ascii.ascii_of_nat 110)
        (fix_json_newlines_from in_string text))
    else if in_string && Ascii.eqb c tab_char then
      String backslash_char (String (Ascii.ascii_of_nat 116)
        (fix_json_newlines_from in_string text))
    else String c (fix_json_newlines_from in_string text).
Proof. done. Qed.

Lemma fix_from_one_line in_string text :
  one_line text = true → fix_json_newlines_from in_string text = text.
Proof.
  revert in_string. induction text as [|c|c d s IH1 IH2] using string_pair_ind;
    intros b Hone; [done| |].
  - cbn in Hone. cbn.
    destruct (Ascii.eqb c backslash_char); destruct b; cbn; try done;
      destruct (Ascii.eqb c quote_char); cbn; try done;
      destruct (Ascii.eqb c newline_char); try done;
      destruct (Ascii.eqb c tab_char); done.
  - change (one_line (String c (String d s)))
      with (negb (Ascii.eqb c newline_char) && negb (Ascii.eqb c tab_char)
            && one_line (String d s)) in Hone.
    apply andb_true_iff in Hone as [Hc Hds].
    assert (one_line s = true) as Hs.
    { cbn in Hds. by apply andb_true_iff in Hds as [_ ?]. }
    change (fix_json_newlines_from b (String c (String d s))) with
      (if Ascii.eqb c backslash_char && b then
         String c (String d (fix_json_newlines_from b s))
       else if Ascii.eqb c quote_char then
         String c (fix_json_newlines_from (negb b) (String d s))
       else if b && Ascii.eqb c newline_char then
         String backslash_char (String (Ascii.ascii_of_nat 110)
           (fix_json_newlines_from b (String d s)))
       else if b && Ascii.eqb c tab_char then
         String backslash_char (String (Ascii.ascii_of_nat 116)
           (fix_json_newlines_from b (String d s)))
       else String c (fix_json_newlines_from b (String d s))).
    rewrite (IH1 b Hs), (IH2 b Hds), (IH2 (negb b) Hds).
    destruct (Ascii.eqb c newline_char), (Ascii.eqb c tab_char);
      try done.
    rewrite !andb_false_r.
    by destruct (Ascii.eqb c backslash_char && b), (Ascii.eqb c quote_char).
Qed.

Lemma fix_from_twice in_string text :
  fix_json_newlines_from in_string (fix_json_newlines_from in_string text)
  = fix_json_newlines_from in_string text.
Proof.
  revert in_string. induction text as [|c|c d s IH1 IH2] using string_pair_ind;
    intros b; [done| |].
  - cbn.
    destruct (Ascii.eqb c backslash_char) eqn:Hb; destruct b; cbn;
      rewrite ?Hb; cbn; try done;
      destruct (Ascii.eqb c quote_char) eqn:Hq; cbn; rewrite ?Hb, ?Hq; cbn; try done;
      destruct (Ascii.eqb c newline_char) eqn:Hn; cbn; rewrite ?Hb, ?Hq, ?Hn; cbn; try done;
      destruct (Ascii.eqb c tab_char) eqn:Ht; cbn; rewrite ?Hb, ?Hq, ?Hn, ?Ht; cbn; done.
  - change (fix_json_newlines_from b (String c (String d s))) with
      (if Ascii.eqb c backslash_char && b then
         String c (String d (fix_json_newlines_from b s))
       else if Ascii.eqb c quote_char then
         String c (fix_json_newlines_from (negb b) (String d s))
       else if b && Ascii.eqb c newline_char then
         String backslash_char (String (Ascii.ascii_of_nat 110)
           (fix_json_newlines_from b (String d s)))
       else if b && Ascii.eqb c tab_char then
         String backslash_char (String (Ascii.ascii_of_nat 116)
           (fix_json_newlines_from b (String d s)))
       else String c (fix_json_newlines_from b (String d s))).
    pose proof (IH2 b) as IHb. pose proof (IH2 (negb b)) as IHn.
    pose proof (IH1 b) as IHs.
    set (X := fix_json_newlines_from b (String d s)) in *.
    set (Y := fix_json_newlines_from (negb b) (String d s)) in *.
    set (W := fix_json_newlines_from b s) in *.
    clearbody X Y W. clear IH1 IH2.
    destruct (Ascii.eqb c backslash_char && b) eqn:Hb.
    { rewrite fix_unfold, Hb. by rewrite IHs. }
    destruct (Ascii.eqb c quote_char) eqn:Hq.
    { rewrite fix_unfold, Hb, Hq. by rewrite IHn. }
    destruct (b && Ascii.eqb c newline_char) eqn:Hn.
    { apply andb_true_iff in Hn as [-> _].
      rewrite fix_unfold.
      change (Ascii.eqb backslash_char backslash_char && true) with true.
      cbn iota. by rewrite IHb. }
    destruct (b && Ascii.eqb c tab_char) eqn:Ht.
    { apply andb_true_iff in Ht as [-> _].
      rewrite fix_unfold.
      change (Ascii.eqb backslash_char backslash_char && true) with true.
      cbn iota. by rewrite IHb. }
    rewrite fix_unfold, Hb, Hq, Hn, Ht. by rewrite IHb.
Qed.

Lemma important_logs_from acc logs :
  fold_left (λ important log, if skipped_log log then important else important ++ [log])
            logs acc
  = acc ++ filter (λ log, skipped_log log = false) logs.
Proof.
  revert acc. induction logs as [|log logs IH]; intros acc; cbn [fold_left].
  - by rewrite app_nil_r.
  - rewrite IH, filter_cons. destruct (skipped_log log) eqn:Hs.
    + by rewrite decide_False by done.
    + rewrite decide_True by done. by rewrite <- app_assoc.
Qed.

Lemma important_logs_filter logs :
  important_logs logs = filter (λ log, skipped_log log = false) logs.
Proof. unfold important_logs. by rewrite important_logs_from. Qed.

(** X22.  [_fix_json_newlines] returns a text that holds no line feed and no
    tab as it is. *)
Theorem fix_json_newlines_one_line (text : string) :
  one_line text = true → _fix_json_newlines text = text.
Proof. apply fix_from_one_line. Qed.

Lemma fix_json_newlines_one_line_witness :
  one_line "{'a': [1, 2]}" = true ∧
  _fix_json_newlines "{'a': [1, 2]}" = "{'a': [1, 2]}".
Proof.
  split; [reflexivity|].
  apply (fix_json_newlines_one_line "{'a': [1, 2]}"). reflexivity.
Defined.

(** X23.  [_fix_json_newlines] repairs a text once and for all: applied to
    its own result it changes nothing. *)
Theorem fix_json_newlines_idempotent (text : string) :
  _fix_json_newlines (_fix_json_newlines text) = _fix_json_newlines text.
Proof. apply fix_from_twice. Qed.

(** X24.  The transcript filter of [Reflector.forward] only ever drops
    [stdout] and [stderr] lines: the entries of any other type reach the
    critique all, and in their order. *)
Theorem important_logs_keep_other_types (t : string) (execution_logs : list LogEntry) :
  t ≠ "stdout" → t ≠ "stderr" →
  filter (λ log, ltype log = t) (important_logs execution_logs)
  = filter (λ log, ltype log = t) execution_logs.
Proof.
  intros Hout Herr. rewrite important_logs_filter.
  induction execution_logs as [|log logs IH]; [done|].
  rewrite !filter_cons. destruct (decide (ltype log = t)) as [Ht|Ht].
  - assert (skipped_log log = false) as Hs.
    { unfold skipped_log. rewrite Ht.
      apply String.eqb_neq in Hout, Herr. by rewrite Hout, Herr. }
    rewrite decide_True by done. rewrite filter_cons, decide_True by done.
    by rewrite IH.
  - destruct (decide (skipped_log log = false)); [|done].
    rewrite filter_cons, decide_False by done. done.
Qed.

Lemma important_logs_keep_other_types_witness :
  filter (λ log, ltype log = "error") (important_logs Samples.apt_transcript)
  = filter (λ log, ltype log = "error") Samples.apt_transcript.
Proof.
  apply (important_logs_keep_other_types "error" Samples.apt_transcript); discriminate.
Defined.

End CognitionFacts.

(** ** The retrieval block of [think_node] *)

Module RetrievalFacts.
Import Retrieval.

Section unique.
Context {A : Type} (key : A → string).

Lemma unique_fold seen unique raw :
  (fold_left (unique_step key) raw (seen, unique)).2
  = unique ++ unique_from key seen raw.
Proof.
  revert seen unique. induction raw as [|item rest IH]; intros seen unique;
    cbn [fold_left unique_from].
  - by rewrite app_nil_r.
  - unfold unique_step at 2. destruct (decide (key item ∈ seen)).
    + apply IH.
    + rewrite IH. by rewrite <- app_assoc.
Qed.

Lemma unique_by_from raw : unique_by key raw = unique_from key ∅ raw.
Proof. unfold unique_by. by rewrite unique_fold. Qed.

Lemma unique_from_sublist seen raw : unique_from key seen raw `sublist_of` raw.
Proof.
  revert seen. induction raw as [|item rest IH]; intros seen; cbn; [done|].
  destruct (decide (key item ∈ seen)).
  - by apply sublist_cons.
  - by apply sublist_skip.
Qed.

Lemma unique_from_fresh seen raw x :
  x ∈ unique_from key seen raw → key x ∉ seen.
Proof.
  revert seen. induction raw as [|item rest IH]; intros seen; cbn.
  - by intros ?%elem_of_nil.
  - destruct (decide (key item ∈ seen)) as [|Hfresh]; [apply IH|].
    intros [->|Hin]%elem_of_cons; [done|].
    apply IH in Hin. intros Hx. apply Hin. by apply elem_of_union_r.
Qed.

Lemma unique_from_NoDup seen raw : NoDup (key <$> unique_from key seen raw).
Proof.
  revert seen. induction raw as [|item rest IH]; intros seen; cbn.
  - constructor.
  - destruct (decide (key item ∈ seen)); [apply IH|].
    rewrite fmap_cons. constructor; [|apply IH].
    intros (x & Hkey & Hin)%list_elem_of_fmap.
    apply unique_from_fresh in Hin. rewrite <- Hkey in Hin.
    apply Hin, elem_of_union_l. by apply elem_of_singleton.
Qed.

Lemma unique_from_keys seen raw x :
  x ∈ raw → key x ∈ seen ∨ key x ∈ key <$> unique_from key seen raw.
Proof.
  revert seen. induction raw as [|item rest IH]; intros seen; cbn.
  - by intros ?%elem_of_nil.
  - intros [->|Hin]%elem_of_cons.
    + destruct (decide (key item ∈ seen)); [by left|].
      right. rewrite fmap_cons. by left.
    + destruct (decide (key item ∈ seen)); [by apply IH|].
      destruct (IH ({[ key item ]} ∪ seen) Hin) as [Hseen|Hkept].
      * apply elem_of_union in Hseen as [->%elem_of_singleton|?]; [|by left].
        right. rewrite fmap_cons. by left.
      * right. rewrite fmap_cons. by right.
Qed.

Lemma unique_from_all seen raw :
  NoDup (key <$> raw) → (∀ x, x ∈ raw → key x ∉ seen) →
  unique_from key seen raw = raw.
Proof.
  revert seen. induction raw as [|item rest IH]; intros seen Hnd Hseen; cbn; [done|].
  rewrite fmap_cons in Hnd. apply NoDup_cons in Hnd as [Hnotin Hnd].
  rewrite decide_False by (apply Hseen; by left).
  f_equal. apply IH; [done|].
  intros x Hx [Heq%elem_of_singleton|Hin]%elem_of_union.
  - apply Hnotin. rewrite <- Heq. by apply list_elem_of_fmap_2.
  - apply (Hseen x); [by right|done].
Qed.

End unique.

Lemma join_starts sep x l : ∃ t, PyStr.join sep (x :: l) = x +:+ t.
Proof.
  destruct l as [|y l]; cbn [PyStr.join].
  - exists "". by rewrite PyStrFacts.app_nil_r.
  - by eexists.
Qed.

Lemma join_nonempty sep c x l : PyStr.join sep (String c x :: l) ≠ "".
Proof.
  destruct (join_starts sep (String c x) l) as [t ->].
  by rewrite PyStrFacts.app_cons.
Qed.

Lemma format_rag_context_nonempty solutions memories documents lessons :
  format_rag_context solutions memories documents lessons ≠ "".
Proof.
  unfold format_rag_context.
  destruct lessons as [|l lessons]; cbn [nonempty app].
  2: { destruct (nonempty memories), (nonempty documents), (nonempty solutions);
       cbn [app negb andb]; apply join_nonempty. }
  destruct memories as [|m memories]; cbn [nonempty app].
  2: { destruct (nonempty documents), (nonempty solutions);
       cbn [app negb andb]; apply join_nonempty. }
  destruct documents as [|d documents]; cbn [nonempty app].
  2: { destruct (nonempty solutions); cbn [app negb andb]; apply join_nonempty. }
  destruct solutions; cbn [nonempty app negb andb]; apply join_nonempty.
Qed.

Lemma retrieve_context_ok st task history ctx mems :
  retrieve_context st task history = Ok (ctx, mems) →
  ctx ≠ "" ∧ NoDup mems.
Proof.
  unfold retrieve_context.
  destruct (queries_for st task history) as [queries|]; [|done].
  destruct (retrieve_recent_memories st 5) as [recent|]; [|done].
  destruct (retrieval_loop st queries [] recent []) as [[[similar memories] lessons]|];
    [|done].
  intros [= <- <-]. split; [apply format_rag_context_nonempty|].
  rewrite unique_by_from.
  pose proof (unique_from_NoDup id ∅ memories) as Hnd.
  by rewrite list_fmap_id in Hnd.
Qed.

(** X25.  The de-duplication loops of [think_node] keep one item for each
    key: the kept items are a sub-list of the retrieved ones, no two of them
    have the same key, every retrieved key is still there, and a list without
    repeated keys is kept as it is. *)
Theorem unique_by_keeps_one_per_key {A} (key : A → string) (raw : list A) :
  unique_by key raw `sublist_of` raw ∧
  NoDup (key <$> unique_by key raw) ∧
  (∀ x, x ∈ raw → key x ∈ key <$> unique_by key raw) ∧
  (NoDup (key <$> raw) → unique_by key raw = raw).
Proof.
  rewrite unique_by_from. split; [apply unique_from_sublist|].
  split; [apply unique_from_NoDup|]. split.
  - intros x Hx. destruct (unique_from_keys key ∅ raw x Hx) as [Hseen|]; [|done].
    by apply elem_of_empty in Hseen.
  - intros Hnd. apply unique_from_all; [done|]. intros x _. apply not_elem_of_empty.
Qed.

(** X26.  [format_rag_context] never yields the empty text, and with nothing
    retrieved it yields the sentence that says so. *)
Theorem format_rag_context_never_empty
    (solutions : list Similar) (memories : list string)
    (documents : list Tools.Document) (lessons : list Lesson) :
  format_rag_context solutions memories documents lessons ≠ "" ∧
  format_rag_context [] [] [] [] = "No similar past solutions found.".
Proof. split; [apply format_rag_context_nonempty|reflexivity]. Qed.

End RetrievalFacts.

(** X27.  A [think_node] that finds no context in the state and retrieves it
    from the stores leaves a context that is not empty and memories without
    repetition, whether the retrieval raises or not. *)
Theorem think_node_retrieves (st : Retrieval.Stores) (c : Collaborators) (state : AgentState) :
  (∀ t h, retrieve_context c t h = Retrieval.retrieve_context st t h) →
  rag_context state = "" →
  ∃ ctx mems,
    u_rag_context (think_node c state) = Some ctx ∧
    u_memory (think_node c state) = Some mems ∧
    ctx ≠ "" ∧ NoDup mems.
Proof.
  intros Hc Hctx.
  destruct (think_context c state) as [ctx mems] eqn:Hthink.
  exists ctx, mems. unfold think_node. rewrite Hthink.
  split; [done|]. split; [done|].
  unfold think_context in Hthink. rewrite Hctx, Hc in Hthink. cbn in Hthink.
  destruct (Retrieval.retrieve_context st (task state) (history state))
    as [[ctx' mems']|] eqn:Hret.
  - injection Hthink as <- <-. by apply RetrievalFacts.retrieve_context_ok in Hret.
  - injection Hthink as <- <-. split; [done|constructor].
Qed.

Lemma think_node_retrieves_witness :
  ∃ ctx mems,
    u_rag_context (think_node Samples.retrieving (initial_params "add them" [] [])) = Some ctx ∧
    u_memory (think_node Samples.retrieving (initial_params "add them" [] [])) = Some mems ∧
    ctx ≠ "" ∧ NoDup mems.
Proof.
  apply (think_node_retrieves Samples.stores Samples.retrieving
           (initial_params "add them" [] [])).
  - intros t h. reflexivity.
  - reflexivity.
Defined.

(** ** A batch in the container *)

Module SandboxBatchFacts.
Import SandboxBatch.

Lemma log_logs time type content r :
  run_logs (log time type content r)
  = run_logs r ++ [{| timestamp := time (length (run_logs r));
                      ltype := type; content := content |}].
Proof. done. Qed.

Lemma log_artifacts time type content r :
  run_artifacts (log time type content r) = run_artifacts r.
Proof. done. Qed.

Lemma log_stream_logs time cmd type text r :
  type ≠ "error" →
  ∃ more, run_logs (log_stream time cmd type text r) = run_logs r ++ more ∧
          Forall (λ e, ltype e ≠ "error") more.
Proof.
  intros Htype. unfold log_stream.
  assert (∃ more, run_logs r = run_logs r ++ more ∧
                  Forall (λ e, ltype e ≠ "error") more) as Hsame.
  { exists []. by rewrite app_nil_r. }
  destruct (String.eqb text ""); [done|].
  destruct (if mentions_apt cmd then _ else _) as [shown|]; [|done].
  destruct (String.eqb shown ""); [done|].
  rewrite log_logs. eexists. split; [done|]. by repeat constructor.
Qed.

Lemma log_stream_artifacts time cmd type text r :
  run_artifacts (log_stream time cmd type text r) = run_artifacts r.
Proof.
  unfold log_stream. destruct (String.eqb text ""); [done|].
  destruct (if mentions_apt cmd then _ else _) as [shown|]; [|done].
  by destruct (String.eqb shown "").
Qed.

(** The command loop only adds lines; when it adds no [error] line and ends
    without an exception, every command has run and exited with 0. *)
Lemma run_commands_logs time dk cmds : ∀ k r r' outcome,
  run_commands time dk k cmds r = (r', outcome) →
  run_artifacts r' = run_artifacts r ∧
  ∃ more, run_logs r' = run_logs r ++ more ∧
    (Forall (λ e, ltype e ≠ "error") more → outcome = Ok tt →
     ∀ i cmd, cmds !! i = Some cmd →
       ∃ res, exec_run dk (k + i) cmd = Ok res ∧ exit_code res = 0).
Proof.
  induction cmds as [|cmd rest IH]; intros k r r' outcome; cbn [run_commands].
  - intros [= <- <-]. split; [done|]. exists []. rewrite app_nil_r.
    split; [done|]. intros _ _ i c. by rewrite lookup_nil.
  - destruct (exec_run dk k cmd) as [res|e] eqn:Hexec.
    2: { intros [= <- <-]. split; [done|]. rewrite log_logs. eexists.
         split; [done|]. by intros _ [=]. }
    intros Hrun. apply IH in Hrun as (Hart & more & Hlogs & Hclean).
    destruct (log_stream_logs time cmd "stdout" (stdout_text res)
                (log time "command" ("$ " +:+ cmd) r)) as (out & Hout & _); [done|].
    set (r1 := log_stream time cmd "stdout" (stdout_text res)
                 (log time "command" ("$ " +:+ cmd) r)) in *.
    destruct (log_stream_logs time cmd "stderr" (stderr_text res) r1)
      as (err & Herr & _); [done|].
    set (r2 := log_stream time cmd "stderr" (stderr_text res) r1) in *.
    split.
    { rewrite Hart. destruct (exit_code res =? 0); rewrite log_artifacts;
        unfold r2, r1; by rewrite !log_stream_artifacts, log_artifacts. }
    destruct (exit_code res =? 0) eqn:Hcode.
    + rewrite log_logs, Herr, Hout, log_logs in Hlogs.
      eexists. split; [by rewrite Hlogs, <- !app_assoc|].
      intros Hall Hok [|i] c; cbn.
      * intros [= <-]. exists res. rewrite Nat.add_0_r.
        split; [done|]. by apply Z.eqb_eq.
      * intros Hc. rewrite Nat.add_succ_r. apply (Hclean) with (i := i); [|done|done].
        rewrite !Forall_app in Hall. tauto.
    + rewrite log_logs, Herr, Hout, log_logs in Hlogs.
      eexists. split; [by rewrite Hlogs, <- !app_assoc|].
      intros Hall. exfalso. rewrite !Forall_app in Hall.
      destruct Hall as (_ & _ & _ & Hbad & _).
      by apply Forall_inv in Hbad.
Qed.

Lemma lstrip_dot_slash_twice s :
  lstrip_dot_slash (lstrip_dot_slash s) = lstrip_dot_slash s.
Proof.
  induction s as [|c s IH]; [done|]. cbn [lstrip_dot_slash].
  destruct (_ || _) eqn:Hc; [done|]. cbn [lstrip_dot_slash]. by rewrite Hc.
Qed.

Lemma retrieve_artifact_ok time dk files r k f_raw :
  artifacts_ok files r → artifacts_ok files (retrieve_artifact time dk files r k f_raw).
Proof.
  intros Hok. unfold retrieve_artifact.
  set (fname := lstrip_dot_slash (PyStr.strip f_raw)).
  destruct (String.eqb fname "") eqn:Hempty; [done|].
  destruct (String.eqb fname "archive.tar") eqn:Htar; [done|]. cbn [orb].
  destruct (bool_decide (fname ∈ files.*1)) eqn:Hin; [done|].
  destruct (get_artifact dk k fname); [|done].
  intros name path. cbn [run_artifacts].
  destruct (decide (name = fname)) as [->|Hne].
  - rewrite lookup_insert_eq. intros [= <-].
    apply String.eqb_neq in Hempty, Htar. apply bool_decide_eq_false in Hin.
    repeat split; try done. apply lstrip_dot_slash_twice.
  - rewrite lookup_insert_ne by done. rewrite log_artifacts. apply Hok.
Qed.

Lemma retrieve_artifacts_ok time dk files found : ∀ k r,
  artifacts_ok files r → artifacts_ok files (retrieve_artifacts time dk files k found r).
Proof.
  induction found as [|f_raw rest IH]; intros k r Hok; [done|].
  cbn [retrieve_artifacts]. by apply IH, retrieve_artifact_ok.
Qed.

Lemma in_container_spec time dk files cmds r r' outcome :
  in_container time dk files cmds r = (r', outcome) →
  (artifacts_ok files r → artifacts_ok files r') ∧
  ∃ more, run_logs r' = run_logs r ++ more ∧
    (Forall (λ e, ltype e ≠ "error") more → outcome = Ok tt →
     put_archive dk = Ok tt ∧ bootstrap dk = Ok tt ∧
     ∀ i cmd, cmds !! i = Some cmd →
       ∃ res, exec_run dk i cmd = Ok res ∧ exit_code res = 0).
Proof.
  unfold in_container.
  destruct (put_archive dk) as [[]|e] eqn:Hput.
  2: { intros [= <- <-]. split; [done|]. exists []. rewrite app_nil_r.
       split; [done|]. by intros _ [=]. }
  destruct (bootstrap dk) as [[]|e] eqn:Hboot.
  2: { intros [= <- <-]. split; [done|]. rewrite log_logs. eexists.
       split; [done|]. by intros _ [=]. }
  destruct (run_commands time dk 0 cmds _) as [r1 out] eqn:Hrun.
  apply run_commands_logs in Hrun as (Hart & ran & Hlogs & Hclean).
  rewrite log_logs in Hlogs. rewrite log_artifacts in Hart.
  destruct out as [[]|e].
  2: { intros [= <- <-]. split.
       { intros Hok name path. rewrite Hart. apply Hok. }
       eexists. split; [by rewrite Hlogs, <- app_assoc|]. by intros _ [=]. }
  assert (∀ r2 more2,
    (artifacts_ok files (log time "system" "Checking for artifacts..." r1) →
     artifacts_ok files r2) →
    run_logs r2 = run_logs (log time "system" "Checking for artifacts..." r1) ++ more2 →
    (artifacts_ok files r → artifacts_ok files r2) ∧
    ∃ more, run_logs r2 = run_logs r ++ more ∧
      (Forall (λ e, ltype e ≠ "error") more → Ok tt = Ok tt →
       Ok tt = Ok tt ∧ Ok tt = Ok tt ∧
       ∀ i cmd, cmds !! i = Some cmd →
         ∃ res, exec_run dk i cmd = Ok res ∧ exit_code res = 0)) as Hend.
  { intros r2 more2 Hart2 Hlogs2. split.
    { intros Hok. apply Hart2. intros name path. rewrite log_artifacts, Hart. apply Hok. }
    rewrite log_logs, Hlogs in Hlogs2.
    eexists. split; [by rewrite Hlogs2, <- !app_assoc|].
    intros Hall _. split; [done|]. split; [done|].
    apply Hclean; [|done]. rewrite !Forall_app in Hall. tauto. }
  destruct (list_files dk) as [code|e].
  2: { intros [= <- <-]. destruct (Hend _ [] (λ H, H)) as [Hok (more & Hm & _)].
       { by rewrite app_nil_r. }
       split; [done|]. exists more. split; [done|]. by intros _ [=]. }
  destruct (code =? 0).
  2: { intros [= <- <-]. apply (Hend _ []); [done|by rewrite app_nil_r]. }
  destruct (found_files dk) as [found|e].
  2: { intros [= <- <-]. destruct (Hend _ [] (λ H, H)) as [Hok (more & Hm & _)].
       { by rewrite app_nil_r. }
       split; [done|]. exists more. split; [done|]. by intros _ [=]. }
  intros [= <- <-].
  assert (∀ found k r0, ∃ more,
    run_logs (retrieve_artifacts time dk files k found r0) = run_logs r0 ++ more) as Hret.
  { clear. induction found as [|f_raw rest IH]; intros k r0; cbn [retrieve_artifacts].
    - exists []. by rewrite app_nil_r.
    - destruct (IH (S k) (retrieve_artifact time dk files r0 k f_raw)) as [more ->].
      unfold retrieve_artifact.
      destruct (_ || _); [by eexists|].
      destruct (bool_decide _); [by eexists|].
      destruct (get_artifact dk k _); cbn [run_logs]; rewrite ?log_logs, <- ?app_assoc;
        by eexists. }
  destruct (Hret found 0%nat (log time "system" "Checking for artifacts..." r1))
    as [more2 Hmore2].
  apply (Hend _ more2); [apply retrieve_artifacts_ok|done].
Qed.

Lemma staged_files_logs time (files : list (string * string)) : ∀ r,
  run_artifacts (fold_left (λ r file, log time "file" ("Created: " +:+ file.1) r) files r)
  = run_artifacts r.
Proof. induction files as [|f files IH]; intros r; cbn [fold_left]; [done|]. by rewrite IH. Qed.

Lemma no_error_lines logs :
  has_errors (scan_logs logs) = false → Forall (λ e, ltype e ≠ "error") logs.
Proof.
  intros Hclean. apply Forall_forall. intros e Hin Herr.
  assert (has_errors (scan_logs logs) = true) as Htrue; [|congruence].
  apply has_errors_scan_logs. exists e. split; [done|]. by left.
Qed.

(** X28.  Once the files are staged, [execute_batch] returns a transcript
    whatever happens in the container, and its last line tells how it ended:
    the clean-up of the container if one was started, else the error that
    kept it from starting. *)
Theorem execute_batch_ends (time : nat → Z) (image : string) (dk : Docker)
    (files : list (string * string)) (commands : list string) :
  stage dk files = Ok tt →
  ∃ result ts,
    execute_batch time image dk files commands = Ok result ∧
    last (sb_logs result)
    = Some (match containers_run dk with
            | Ok _ => {| timestamp := ts; ltype := "system"; content := "Cleaning up..." |}
            | Raise e => {| timestamp := ts; ltype := "error";
                            content := "Sandbox error: " +:+ e |}
            end).
Proof.
  intros Hstage. unfold execute_batch. rewrite Hstage.
  destruct (containers_run dk) as [[]|e].
  - destruct (in_container _ _ _ _ _) as [r outcome].
    eexists _, _. split; [done|]. cbn [sb_logs]. rewrite log_logs. apply last_snoc.
  - eexists _, _. split; [done|]. cbn [sb_logs]. rewrite log_logs. apply last_snoc.
Qed.

Lemma execute_batch_ends_witness :
  ∃ result ts,
    execute_batch Samples.clock "python:3.12-slim" Samples.docker
                  [("main.py", "print(1)")] ["python main.py"] = Ok result ∧
    last (sb_logs result)
    = Some (match containers_run Samples.docker with
            | Ok _ => {| timestamp := ts; ltype := "system"; content := "Cleaning up..." |}
            | Raise e => {| timestamp := ts; ltype := "error";
                            content := "Sandbox error: " +:+ e |}
            end).
Proof.
  apply (execute_batch_ends Samples.clock "python:3.12-slim" Samples.docker
           [("main.py", "print(1)")] ["python main.py"]).
  reflexivity.
Defined.

(** X29.  A transcript in which the scan of [execute_node] finds no error
    comes from a batch in which the container started, the files were
    deployed, and every command that passed the filter ran and exited
    with 0. *)
Theorem clean_transcript_clean_batch (time : nat → Z) (image : string) (dk : Docker)
    (files : list (string * string)) (commands : list string) (result : SandboxResult) :
  execute_batch time image dk files commands = Ok result →
  has_errors (scan_logs (sb_logs result)) = false →
  containers_run dk = Ok tt ∧ put_archive dk = Ok tt ∧ bootstrap dk = Ok tt ∧
  ∀ k cmd,
    Sandbox.filtered_commands (Sandbox.execute_batch_filter time image commands) !! k
      = Some cmd →
    ∃ res, exec_run dk k cmd = Ok res ∧ exit_code res = 0.
Proof.
  unfold execute_batch. destruct (stage dk files) as [[]|]; [|done].
  intros [= <-] Hclean%no_error_lines. cbn [sb_logs] in Hclean.
  destruct (containers_run dk) as [[]|e].
  2: { rewrite log_logs, Forall_app in Hclean. destruct Hclean as [_ Hbad].
       by apply Forall_inv in Hbad. }
  destruct (in_container _ _ _ _ _) as [r outcome] eqn:Hin.
  apply in_container_spec in Hin as (_ & more & Hlogs & Hspec).
  rewrite log_logs in Hclean. apply Forall_app in Hclean as [Hclean _].
  destruct outcome as [[]|e].
  2: { rewrite log_logs, Forall_app in Hclean. destruct Hclean as [_ Hbad].
       by apply Forall_inv in Hbad. }
  rewrite Hlogs, Forall_app in Hclean. destruct Hclean as [_ Hmore].
  destruct (Hspec Hmore eq_refl) as (? & ? & ?). done.
Qed.

Lemma clean_transcript_clean_batch_witness :
  containers_run Samples.docker = Ok tt ∧ put_archive Samples.docker = Ok tt ∧
  bootstrap Samples.docker = Ok tt ∧
  ∀ k cmd,
    Sandbox.filtered_commands
      (Sandbox.execute_batch_filter Samples.clock "python:3.12-slim"
         ["apt-get update"; "python main.py"]) !! k = Some cmd →
    ∃ res, exec_run Samples.docker k cmd = Ok res ∧ exit_code res = 0.
Proof.
  apply (clean_transcript_clean_batch Samples.clock "python:3.12-slim" Samples.docker
           [("main.py", "print(1)")] ["apt-get update"; "python main.py"]
           (Samples.batch_result)).
  - vm_compute. reflexivity.
  - vm_compute. reflexivity.
Defined.

(** X30.  The names under which a batch returns artifacts.  The name of an
    artifact is not empty, is not [archive.tar], starts with no dot and no
    slash, and is none of the keys of [files] as they are spelled; its path
    is that name under the artifact directory.  (The names are compared
    after the leading dots and slashes are stripped, so an input file whose
    key starts with one, like [./main.py], is not told from an artifact.) *)
Theorem artifact_names (time : nat → Z) (image : string) (dk : Docker)
    (files : list (string * string)) (commands : list string) (result : SandboxResult)
    (fname path : string) :
  execute_batch time image dk files commands = Ok result →
  sb_artifacts result !! fname = Some path →
  fname ≠ "" ∧ fname ≠ "archive.tar" ∧ (fname ∉ files.*1) ∧
  lstrip_dot_slash fname = fname ∧
  path = artifact_dir +:+ "/" +:+ fname.
Proof.
  unfold execute_batch. destruct (stage dk files) as [[]|]; [|done].
  intros [= <-]. cbn [sb_artifacts].
  set (r0 := log time "system" "Starting container..." _).
  assert (artifacts_ok files r0) as Hok0.
  { intros name p. unfold r0. rewrite log_artifacts, staged_files_logs. cbn.
    by rewrite lookup_empty. }
  destruct (containers_run dk) as [[]|e].
  2: { rewrite log_artifacts. apply Hok0. }
  destruct (in_container _ _ _ _ _) as [r outcome] eqn:Hin.
  apply in_container_spec in Hin as (Hok & _).
  rewrite log_artifacts.
  destruct outcome; rewrite ?log_artifacts; by apply Hok.
Qed.

Lemma artifact_names_witness :
  "plot.png" ≠ "" ∧ "plot.png" ≠ "archive.tar" ∧
  ("plot.png" ∉ [("main.py", "print(1)")].*1) ∧
  lstrip_dot_slash "plot.png" = "plot.png" ∧
  "/root/self-improving-ai/sandbox_artifacts/plot.png"
  = artifact_dir +:+ "/" +:+ "plot.png".
Proof.
  apply (artifact_names Samples.clock "python:3.12-slim" Samples.docker
           [("main.py", "print(1)")] ["apt-get update"; "python main.py"]
           Samples.batch_result "plot.png"
           "/root/self-improving-ai/sandbox_artifacts/plot.png").
  - vm_compute. reflexivity.
  - vm_compute. reflexivity.
Defined.

End SandboxBatchFacts.
